(** * RatePerDaySystem: ingestion, registry and comparison engine

    A shallow embedding of the TypeScript sources

    - the parsing worker kept with [src/services/api.ts] ([parseDate],
      [parseNumber], [findColumnKey], [processRawData], the content hash)
      and [src/utils/excelProcessor.ts], which awaits its answer,
    - [utils/excelProcessor.ts] and the first [App], the earlier upload flow,
    - the [useComparisonData] hook ([processYear], [calcVariance], totals),
    - [src/App.tsx] ([loadYear] with its registry and in-flight map),

    followed by the properties the specification states about them.  The
    definitions come first, module by module as the sources are laid out;
    module [Spec] holds the vocabulary of the statements and the sample
    inputs; the lemmas and theorems follow.

    Conventions.  A JavaScript [number] that holds a measured quantity
    (charge, days, revenue, rate, variance) is an IEEE-754 binary64 value,
    here Rocq's primitive [float]; counters and calendar components (row
    index, record count, year, month, day of month) are integers and are
    kept in [Z] or [nat].  A JavaScript string is a [string] whose characters
    are 8-bit code units read as ISO-8859-1, i.e. the first 256 Unicode code
    points; the euro sign of the currency class lies outside that range and
    is the only character of the sources that the model cannot express.  A
    [Date] is kept by its local time value in milliseconds, which is what
    [getFullYear], [getMonth] and [getDate] read; the offset between local
    time and UTC is not modelled.  An exception is a result of [None]. *)

From Stdlib Require Import ZArith List String Ascii Bool Lia Floats Sorted.
From stdpp Require Import gmap.
Import ListNotations.

#[local] Set Warnings "-inexact-float".
#[local] Open Scope string_scope.
#[local] Open Scope Z_scope.

(* ===================================================================== *)
(** * JavaScript built-ins used by the sources *)
(* ===================================================================== *)

Module JS.

(** ** Characters *)

Definition code (c : ascii) : N := N_of_ascii c.

Definition between (lo hi : N) (c : ascii) : bool :=
  ((lo <=? code c) && (code c <=? hi))%N.

(** [\d] *)
Definition isDigit (c : ascii) : bool := between 48 57 c.

(** [a-zA-Z] *)
Definition isAsciiLetter (c : ascii) : bool :=
  between 65 90 c || between 97 122 c.

(** [\s], and what [trim] removes: TAB, LF, VT, FF, CR, SP and NBSP are the
    white space and line terminators below U+0100. *)
Definition isWhiteSpace (c : ascii) : bool :=
  between 9 13 c || (code c =? 32)%N || (code c =? 160)%N.

(** [toLowerCase] on one code unit: A-Z, and the Latin-1 capitals U+00C0 to
    U+00DE except the multiplication sign U+00D7. *)
Definition lowerChar (c : ascii) : ascii :=
  if between 65 90 c || (between 192 222 c && negb (code c =? 215)%N)
  then ascii_of_N (code c + 32) else c.

Definition digitValue (c : ascii) : Z := Z.of_N (code c) - 48.

(** ** Strings *)

Fixpoint mapStr (f : ascii -> ascii) (s : string) : string :=
  match s with
  | EmptyString => EmptyString
  | String c r => String (f c) (mapStr f r)
  end.

(** [s.replace(/[class]/g, '')]: drop every character of the class. *)
Fixpoint removeAll (p : ascii -> bool) (s : string) : string :=
  match s with
  | EmptyString => EmptyString
  | String c r => if p c then removeAll p r else String c (removeAll p r)
  end.

Definition toLowerCase (s : string) : string := mapStr lowerChar s.

Fixpoint trimStart (s : string) : string :=
  match s with
  | String c r => if isWhiteSpace c then trimStart r else s
  | EmptyString => EmptyString
  end.

Fixpoint trimEnd (s : string) : string :=
  match s with
  | EmptyString => EmptyString
  | String c r =>
      match trimEnd r with
      | EmptyString => if isWhiteSpace c then EmptyString else String c EmptyString
      | r' => String c r'
      end
  end.

Definition trim (s : string) : string := trimEnd (trimStart s).

Definition isEmpty (s : string) : bool :=
  match s with EmptyString => true | _ => false end.

(** [s.startsWith(p)] *)
Definition startsWith (s p : string) : bool := String.prefix p s.

(** [s.includes(p)] *)
Fixpoint includes (s p : string) : bool :=
  startsWith s p ||
  match s with
  | EmptyString => false
  | String _ r => includes r p
  end.

Definition hasChar (c : ascii) (s : string) : bool :=
  includes s (String c EmptyString).

Fixpoint lastChar (s : string) : option ascii :=
  match s with
  | EmptyString => None
  | String c EmptyString => Some c
  | String _ r => lastChar r
  end.

Fixpoint dropLast (s : string) : string :=
  match s with
  | EmptyString => EmptyString
  | String _ EmptyString => EmptyString
  | String c r => String c (dropLast r)
  end.

(** [s.endsWith(c)] for a one-character pattern. *)
Definition endsWithChar (s : string) (c : ascii) : bool :=
  match lastChar s with
  | Some d => Ascii.eqb c d
  | None => false
  end.

(** [s.slice(1, -1)] *)
Definition slice_1_m1 (s : string) : string :=
  match s with
  | EmptyString => EmptyString
  | String _ r => dropLast r
  end.

(** [s.replace(c, d)] with a string pattern: only the first occurrence. *)
Fixpoint replaceFirst (c d : ascii) (s : string) : string :=
  match s with
  | EmptyString => EmptyString
  | String x r => if Ascii.eqb x c then String d r else String x (replaceFirst c d r)
  end.

(** [s.split(c)]: always at least one part. *)
Fixpoint split (c : ascii) (s : string) : list string :=
  match s with
  | EmptyString => [EmptyString]
  | String x r =>
      if Ascii.eqb x c then EmptyString :: split c r
      else match split c r with
           | p :: ps => String x p :: ps
           | [] => [String x EmptyString]
           end
  end.

(** The longest prefix of characters in the class, and the rest. *)
Fixpoint span (p : ascii -> bool) (s : string) : string * string :=
  match s with
  | String c r =>
      if p c then let '(a, b) := span p r in (String c a, b) else (EmptyString, s)
  | EmptyString => (EmptyString, EmptyString)
  end.

(** The value of a run of decimal digits, most significant first. *)
Fixpoint digitsValueFrom (acc : Z) (s : string) : Z :=
  match s with
  | EmptyString => acc
  | String c r => digitsValueFrom (10 * acc + digitValue c) r
  end.

Definition digitsValue (s : string) : Z := digitsValueFrom 0 s.

(** ** Numbers *)

(** The binary64 value nearest to [num / den] ([0 <= num], [0 < den]), ties
    to even.  The quotient is taken with at least 64 significant bits and a
    sticky bit for the remainder, then rounded by the Standard Library's
    reference implementation of IEEE-754 rounding. *)
Definition roundRatio (num den : Z) : float :=
  if num <=? 0 then 0%float
  else
    let k := Z.max 0 (64 + Z.log2 den - Z.log2 num) in
    let scaled := num * 2 ^ k in
    let q := scaled / den in
    let sticky := if scaled mod den =? 0 then 0 else 1 in
    SF2Prim (binary_normalize prec emax (2 * q + sticky) (- (k + 1)) false).

(** The value [m * 10^e] as a binary64. *)
Definition decimalToFloat (m e : Z) : float :=
  if 0 <=? e then roundRatio (m * 10 ^ e) 1 else roundRatio m (10 ^ (- e)).

Definition applySign (neg : bool) (x : float) : float :=
  if neg then (- x)%float else x.

(** An optional sign. *)
Definition readSign (s : string) : bool * string :=
  match s with
  | String "-" r => (true, r)
  | String "+" r => (false, r)
  | _ => (false, s)
  end.

(** The optional exponent part after the digits: [e] or [E], an optional
    sign and at least one digit; anything else is no exponent. *)
Definition readExponent (s : string) : Z :=
  match s with
  | String c r =>
      if Ascii.eqb c "e" || Ascii.eqb c "E" then
        let '(neg, r1) := readSign r in
        let '(ds, _) := span isDigit r1 in
        if isEmpty ds then 0
        else if neg then - digitsValue ds else digitsValue ds
      else 0
  | EmptyString => 0
  end.

(** [parseFloat(s)]: leading white space is skipped, then the longest prefix
    that is a decimal literal (sign, [Infinity] or digits with an optional
    fraction and exponent) is read; [nan] when there is none. *)
Definition parseFloat (s : string) : float :=
  let '(neg, s1) := readSign (trimStart s) in
  if startsWith s1 "Infinity" then applySign neg infinity
  else
    let '(ip, r1) := span isDigit s1 in
    let '(fp, r2) :=
      match r1 with
      | String "." r => span isDigit r
      | _ => (EmptyString, r1)
      end in
    if isEmpty ip && isEmpty fp then nan
    else
      let mant := digitsValue (ip ++ fp) in
      let ex := readExponent r2 - Z.of_nat (String.length fp) in
      applySign neg (decimalToFloat mant ex).

(** [parseInt(s)] on a run of decimal digits, the only strings the sources
    pass to it (the groups of the date pattern); [None] is NaN. *)
Definition parseInt (s : string) : option Z :=
  let '(ds, _) := span isDigit (trimStart s) in
  if isEmpty ds then None else Some (digitsValue ds).

(** A non-negative integer in decimal, and [n.toString()] for an integer. *)
Fixpoint decimalDigits (fuel : nat) (n : Z) (acc : string) : string :=
  match fuel with
  | O => acc
  | S fuel' =>
      let acc' := String (ascii_of_N (Z.to_N (48 + n mod 10))) acc in
      if n <? 10 then acc' else decimalDigits fuel' (n / 10) acc'
  end.

Definition intToString (n : Z) : string :=
  if n <? 0 then String "-" (decimalDigits (S (Z.to_nat (Z.log2 (- n)))) (- n) "")
  else decimalDigits (S (Z.to_nat (Z.log2 n))) n "".

(** [s.padStart(2, '0')] *)
Definition padStart2 (s : string) : string :=
  match s with
  | String c EmptyString => String "0" s
  | EmptyString => "00"
  | _ => s
  end.

(** ** Dates *)

(** A [Date] object: its time value in local milliseconds since the epoch,
    or the invalid date, whose time value is NaN. *)
Inductive Date : Type :=
| InvalidDate
| DateAt (t : Z).

Definition msPerDay : Z := 86400000.

(** ECMAScript's day arithmetic (the Day Number and Year Number clauses of
    the standard). *)
Definition DayFromYear (y : Z) : Z :=
  365 * (y - 1970) + (y - 1969) / 4 - (y - 1901) / 100 + (y - 1601) / 400.

Definition InLeapYear (y : Z) : bool :=
  ((y mod 4 =? 0) && negb (y mod 100 =? 0)) || (y mod 400 =? 0).

Definition leapDay (y : Z) : Z := if InLeapYear y then 1 else 0.

(** Day within the year on which month [m] (0 to 11) starts. *)
Definition monthStart (y m : Z) : Z :=
  nth (Z.to_nat m) [0; 31; 59; 90; 120; 151; 181; 212; 243; 273; 304; 334] 365
  + (if 2 <=? m then leapDay y else 0).

(** The largest [y] with [DayFromYear y <= d]: an estimate from the mean
    length of a year, corrected by at most one. *)
Definition YearFromDay (d : Z) : Z :=
  let y := 1970 + (d * 400) / 146097 in
  if d <? DayFromYear y then y - 1
  else if DayFromYear (y + 1) <=? d then y + 1
  else y.

(** The month (0 to 11) in which day [w] of year [y] falls: the first [k]
    whose successor starts after [w]. *)
Fixpoint findMonth (y w : Z) (fuel : nat) (k : Z) : Z :=
  match fuel with
  | O => k
  | S fuel' => if w <? monthStart y (k + 1) then k else findMonth y w fuel' (k + 1)
  end.

Definition MonthFromDay (d : Z) : Z :=
  let y := YearFromDay d in
  findMonth y (d - DayFromYear y) 11 0.

Definition DateFromDay (d : Z) : Z :=
  let y := YearFromDay d in
  d - DayFromYear y - monthStart y (MonthFromDay d) + 1.

Definition Day (t : Z) : Z := t / msPerDay.

(** [MakeDay(year, month, date)]: months beyond 0..11 carry into the year,
    and the day of the month is added as an offset, so that it may run past
    the end of the month (or before its start). *)
Definition MakeDay (year month date : Z) : Z :=
  let ym := year + month / 12 in
  let mn := month mod 12 in
  DayFromYear ym + monthStart ym mn + date - 1.

(** [TimeClip] *)
Definition TimeClip (t : Z) : Date :=
  if Z.abs t <=? 8640000000000000 then DateAt t else InvalidDate.

(** [new Date(year, monthIndex, day)] with integer arguments: a year from 0
    to 99 means 1900 + year; the time of day is midnight. *)
Definition newDate (year monthIndex day : Z) : Date :=
  let yr := if (0 <=? year) && (year <=? 99) then 1900 + year else year in
  TimeClip (MakeDay yr monthIndex day * msPerDay).

(** [isNaN(d.getTime())] *)
Definition isInvalid (d : Date) : bool :=
  match d with InvalidDate => true | DateAt _ => false end.

(** The getters; [None] is NaN. *)
Definition getFullYear (d : Date) : option Z :=
  match d with InvalidDate => None | DateAt t => Some (YearFromDay (Day t)) end.

Definition getMonth (d : Date) : option Z :=
  match d with InvalidDate => None | DateAt t => Some (MonthFromDay (Day t)) end.

Definition getDate (d : Date) : option Z :=
  match d with InvalidDate => None | DateAt t => Some (DateFromDay (Day t)) end.

(** ** Values of type [any] *)

(** What a spreadsheet cell, read with [raw: true] and [cellDates: true],
    may hold; [VUndefined] is also what [row[key]] gives for a missing
    column. *)
Inductive Value : Type :=
| VUndefined
| VNull
| VBool (b : bool)
| VNum (x : float)
| VStr (s : string)
| VDate (d : Date).

(** [!!v] *)
Definition truthy (v : Value) : bool :=
  match v with
  | VUndefined | VNull => false
  | VBool b => b
  | VNum x => negb (is_nan x || (x =? 0)%float)
  | VStr s => negb (isEmpty s)
  | VDate _ => true
  end.

(** ** What the host supplies

    Conversions whose result depends on the engine, the locale or the time
    zone, and the digest.  The development holds for every host. *)
Record Host : Type := {
  (** the decimal digits of a positive finite number, as [String(x)] *)
  digitsOf : float -> string;
  (** [String(d)] for a [Date] *)
  dateToString : Date -> string;
  (** [new Date(text)], the engine's own date parser *)
  dateParse : string -> Date;
  (** [d.toLocaleString('default', { month: 'short', year: 'numeric' })] *)
  monthYearLabel : Date -> string;
  (** [d.toISOString()], the UTC rendering used by [JSON.stringify] *)
  toISOString : Date -> string;
  (** SHA-256 of the UTF-8 encoding of a text, as lowercase hexadecimal *)
  sha256Hex : string -> string
}.

(** [Number::toString]: NaN, the two zeros, negative numbers and infinity
    are fixed by the standard; the digits of the rest are the host's. *)
Definition numberToString (h : Host) (x : float) : string :=
  if is_nan x then "NaN"
  else if (x =? 0)%float then "0"
  else if (x <? 0)%float then
    "-" ++ (if is_infinity (- x) then "Infinity" else digitsOf h (- x)%float)
  else if is_infinity x then "Infinity"
  else digitsOf h x.

(** [String(v)] *)
Definition toString (h : Host) (v : Value) : string :=
  match v with
  | VUndefined => "undefined"
  | VNull => "null"
  | VBool b => if b then "true" else "false"
  | VNum x => numberToString h x
  | VStr s => s
  | VDate d => dateToString h d
  end.

End JS.

(* ===================================================================== *)
(** * The data model ([types.ts]) *)
(* ===================================================================== *)

Module RentalRecord.
Record t : Type := mk {
  id : nat;
  station : string;
  stationKey : string;
  group : string;
  groupKey : string;
  date : JS.Date;
  monthKey : string;
  displayDate : string;
  day : Z;
  days : float;
  charge : float;
  year : Z
}.
End RentalRecord.

Module ProcessedData.
Record t : Type := mk {
  records : list RentalRecord.t;
  stations : list string;
  groups : list string;
  months : list string;
  totalRecords : nat;
  year : Z
}.
End ProcessedData.

Module MetricSet.
Record t : Type := mk {
  revenue : float;
  days : float;
  count : Z;
  rate : float;
  hasData : bool
}.
End MetricSet.

Module VarianceSet.
Record t : Type := mk {
  revenue : option float;
  days : option float;
  rate : option float
}.
End VarianceSet.

(* ===================================================================== *)
(** * The parsing worker ([services/api.ts], second document) *)
(* ===================================================================== *)

Module Worker.
Import JS.

(** A row of [sheet_to_json]: the column names in the order [Object.keys]
    lists them, each with its cell. *)
Definition Row : Type := list (string * Value).

Definition keys (row : Row) : list string := map fst row.

(** [row[key]] *)
Definition get (row : Row) (key : string) : Value :=
  match find (fun kv => String.eqb (fst kv) key) row with
  | Some kv => snd kv
  | None => VUndefined
  end.

(** [a || b] *)
Definition orElse (a b : Value) : Value := if truthy a then a else b.

(** A [Set<string>] in insertion order, and [Array.from(set).sort()]. *)
Definition setAdd (s : string) (l : list string) : list string :=
  if existsb (String.eqb s) l then l else l ++ [s].

Fixpoint insertSorted (s : string) (l : list string) : list string :=
  match l with
  | [] => [s]
  | x :: r => if String.leb s x then s :: l else x :: insertSorted s r
  end.

Definition sorted (l : list string) : list string := fold_right insertSorted [] l.

(** [data.forEach((row, index) => ...)] as a state transformer. *)
Fixpoint forEachFrom {A St : Type} (f : St -> A -> nat -> St)
    (index : nat) (data : list A) (st : St) : St :=
  match data with
  | [] => st
  | row :: rest => forEachFrom f (S index) rest (f st row index)
  end.

(** *** The date pattern [/^(\d{1,2})[\/\-\.](\d{1,2})[\/\-\.](\d{4})/] *)

(** [(\d{1,2})]: two digits when there are two.  Giving one back never
    helps the match, since a digit would then have to be a separator. *)
Definition oneOrTwoDigits (s : string) : option (string * string) :=
  match s with
  | String a r =>
      if isDigit a then
        match r with
        | String b r' =>
            if isDigit b then Some (String a (String b EmptyString), r')
            else Some (String a EmptyString, r)
        | EmptyString => Some (String a EmptyString, r)
        end
      else None
  | EmptyString => None
  end.

(** [[\/\-\.]] *)
Definition separator (s : string) : option string :=
  match s with
  | String c r =>
      if Ascii.eqb c "/" || Ascii.eqb c "-" || Ascii.eqb c "." then Some r else None
  | EmptyString => None
  end.

(** [(\d{4})] *)
Definition fourDigits (s : string) : option string :=
  match s with
  | String a (String b (String c (String d _))) =>
      if isDigit a && isDigit b && isDigit c && isDigit d
      then Some (String a (String b (String c (String d EmptyString))))
      else None
  | _ => None
  end.

(** [str.match(...)]: the groups [(d, m, y)], or [None] for [null]. *)
Definition dmyMatch (str : string) : option (string * string * string) :=
  match oneOrTwoDigits str with
  | Some (d, r1) =>
      match separator r1 with
      | Some r2 =>
          match oneOrTwoDigits r2 with
          | Some (m, r3) =>
              match separator r3 with
              | Some r4 =>
                  match fourDigits r4 with
                  | Some y => Some (d, m, y)
                  | None => None
                  end
              | None => None
              end
          | None => None
          end
      | None => None
      end
  | None => None
  end.

(** [isNaN(date.getTime()) ? null : date], the result being the time value
    of a valid date. *)
Definition validOrNull (d : Date) : option Z :=
  match d with
  | InvalidDate => None
  | DateAt t => Some t
  end.

(** [[€$£a-zA-Z\s]] without the euro sign. *)
Definition isCurrencyLetterOrSpace (c : ascii) : bool :=
  Ascii.eqb c "$" || (code c =? 163)%N || isAsciiLetter c || isWhiteSpace c.

Definition isDot (c : ascii) : bool := Ascii.eqb c ".".

(** The text of a number after the accounting parentheses are removed:
    currency signs, letters and blanks dropped, then the decimal and
    thousands separators resolved. *)
Definition normalizeSeparators (str : string) : string :=
  let str := removeAll isCurrencyLetterOrSpace str in
  if hasChar "," str then replaceFirst "," "." (removeAll isDot str)
  else if hasChar "." str then
    let parts := split "." str in
    if (2 <? length parts)%nat then removeAll isDot str
    else if (length parts =? 2)%nat
            && (String.length (nth 1 parts EmptyString) =? 3)%nat
    then removeAll isDot str
    else str
  else str.

(** The part of [parseNumber] that works on the trimmed text. *)
Definition parseNumberText (str : string) : float :=
  if isEmpty str then 0%float
  else
    let isNegative := startsWith str "(" && endsWithChar str ")" in
    let str := if isNegative then slice_1_m1 str else str in
    let str := normalizeSeparators str in
    let num := parseFloat str in
    if is_nan num then 0%float
    else if isNegative then (- num)%float else num.

Section WithHost.

Variable h : Host.

(** [parseDate]: [Some t] is a valid [Date] with time value [t]. *)
Definition parseDate (val : Value) : option Z :=
  match val with
  | VDate d => validOrNull d
  | _ =>
      if negb (truthy val) then None
      else
        let str := trim (toString h val) in
        match dmyMatch str with
        | Some (d, m, y) =>
            match parseInt y, parseInt m, parseInt d with
            | Some y', Some m', Some d' => validOrNull (newDate y' (m' - 1) d')
            | _, _, _ => None
            end
        | None => validOrNull (dateParse h str)
        end
  end.

Definition parseNumber (val : Value) : float :=
  match val with
  | VNum x => x
  | _ =>
      if negb (truthy val) then 0%float
      else parseNumberText (trim (toString h val))
  end.

Fixpoint findColumnKey (row : Row) (candidates : list string) : option string :=
  match candidates with
  | [] => None
  | candidate :: rest =>
      let matches (key : string) :=
        String.eqb (trim (toLowerCase key)) candidate
        || includes (trim (toLowerCase key)) candidate in
      match find matches (keys row) with
      | Some foundKey =>
          if isEmpty foundKey then findColumnKey row rest else Some foundKey
      | None => findColumnKey row rest
      end
  end.

(** [!key] for the result of [findColumnKey]. *)
Definition missing (key : option string) : bool :=
  match key with
  | None => true
  | Some k => isEmpty k
  end.

Definition keyOr (key : option string) : string :=
  match key with Some k => k | None => EmptyString end.

(** The column names that [processRawData] resolves from the first row. *)
Record Columns : Type := mkColumns {
  stationKey : option string;
  dateKey : option string;
  daysKey : option string;
  chargeKey : option string;
  groupKey : option string
}.

Definition stationCandidates : list string :=
  ["station"; "check-out station"; "checkout station"].
Definition dateCandidates : list string :=
  ["check-out date"; "checkout date"; "date"].
Definition daysCandidates : list string := ["days"; "duration"].
Definition chargeCandidates : list string :=
  ["rental charge"; "amount"; "charge"; "price"].
Definition groupCandidates : list string :=
  ["charged group"; "car group"; "group"; "category"].

Definition resolveColumns (firstRow : Row) : Columns :=
  mkColumns
    (findColumnKey firstRow stationCandidates)
    (findColumnKey firstRow dateCandidates)
    (findColumnKey firstRow daysCandidates)
    (findColumnKey firstRow chargeCandidates)
    (findColumnKey firstRow groupCandidates).

(** [!stationKey || !dateKey || !daysKey || !chargeKey] *)
Definition requiredMissing (cols : Columns) : bool :=
  missing (stationKey cols) || missing (dateKey cols)
  || missing (daysKey cols) || missing (chargeKey cols).

(** The values the callback computes from a row. *)
Definition stationOf (cols : Columns) (row : Row) : string :=
  trim (toString h (orElse (get row (keyOr (stationKey cols))) (VStr ""))).

Definition dateOf (cols : Columns) (row : Row) : option Z :=
  parseDate (get row (keyOr (dateKey cols))).

Definition daysOf (cols : Columns) (row : Row) : float :=
  parseNumber (get row (keyOr (daysKey cols))).

Definition chargeOf (cols : Columns) (row : Row) : float :=
  parseNumber (get row (keyOr (chargeKey cols))).

Definition groupOf (cols : Columns) (row : Row) : string :=
  if missing (groupKey cols) then "Unknown"
  else trim (toString h (orElse (get row (keyOr (groupKey cols))) (VStr "Unknown"))).

(** The callback up to its [records.push]: the record it builds for the
    row, or [None] when one of its early returns is taken. *)
Definition makeRecord (cols : Columns) (row : Row) (index : nat)
    : option RentalRecord.t :=
  if requiredMissing cols then None
  else
    let station := stationOf cols row in
    if isEmpty station then None
    else
      match dateOf cols row with
      | None => None
      | Some t =>
          let days := daysOf cols row in
          let charge := chargeOf cols row in
          if (days <=? 0)%float then None
          else
            let group := groupOf cols row in
            let year := YearFromDay (Day t) in
            let month := MonthFromDay (Day t) in
            let day := DateFromDay (Day t) in
            let paddedMonth := padStart2 (intToString (month + 1)) in
            let monthKey := intToString year ++ "-" ++ paddedMonth in
            let displayDate := monthYearLabel h (DateAt t) in
            Some (RentalRecord.mk index station (trim (toLowerCase station))
                    group (trim (toLowerCase group)) (DateAt t) monthKey
                    displayDate day days charge year)
      end.

(** The mutable locals of [processRawData]. *)
Record Acc : Type := mkAcc {
  records : list RentalRecord.t;
  stationSet : list string;
  groupSet : list string;
  monthSet : list string;
  dataYear : Z
}.

Definition initial : Acc := mkAcc [] [] [] [] 0.

(** The [forEach] callback: a row that yields a record sets [dataYear] when
    its index is 0, enters the three sets and is pushed. *)
Definition processRow (cols : Columns) (st : Acc) (row : Row) (index : nat) : Acc :=
  match makeRecord cols row index with
  | None => st
  | Some r =>
      mkAcc
        (records st ++ [r])
        (setAdd (RentalRecord.station r) (stationSet st))
        (setAdd (RentalRecord.group r) (groupSet st))
        (setAdd (RentalRecord.monthKey r) (monthSet st))
        (if (index =? 0)%nat then RentalRecord.year r else dataYear st)
  end.

Definition processRawData (data : list Row) : ProcessedData.t :=
  match data with
  | [] => ProcessedData.mk [] [] [] [] 0 0
  | firstRow :: _ =>
      let st := forEachFrom (processRow (resolveColumns firstRow)) 0 data initial in
      ProcessedData.mk (records st) (sorted (stationSet st))
        (sorted (groupSet st)) (sorted (monthSet st))
        (length (records st)) (dataYear st)
  end.

(** *** The content hash *)

Definition quoteChar : ascii := ascii_of_N 34.
Definition backslash : ascii := ascii_of_N 92.

Definition hexDigit (n : N) : ascii :=
  match String.get (N.to_nat n) "0123456789abcdef" with
  | Some c => c
  | None => "0"%char
  end.

(** [QuoteJSONString] on one code unit. *)
Definition escapeChar (c : ascii) : string :=
  let two (x : ascii) := String backslash (String x EmptyString) in
  if Ascii.eqb c quoteChar then two quoteChar
  else if Ascii.eqb c backslash then two backslash
  else if (code c =? 8)%N then two "b"%char
  else if (code c =? 9)%N then two "t"%char
  else if (code c =? 10)%N then two "n"%char
  else if (code c =? 12)%N then two "f"%char
  else if (code c =? 13)%N then two "r"%char
  else if (code c <? 32)%N then
    String backslash
      (String "u" (String "0" (String "0"
         (String (hexDigit (code c / 16)) (String (hexDigit (code c mod 16)) EmptyString)))))
  else String c EmptyString.

Fixpoint escape (s : string) : string :=
  match s with
  | EmptyString => EmptyString
  | String c r => escapeChar c ++ escape r
  end.

Definition jsonString (s : string) : string :=
  String quoteChar (escape s ++ String quoteChar EmptyString).

(** A number: its [String] form when finite, [null] otherwise. *)
Definition jsonNumber (x : float) : string :=
  if is_finite x then numberToString h x else "null".

(** A [Date]: [toJSON] gives the ISO string, or [null] when invalid. *)
Definition jsonDate (d : Date) : string :=
  match d with
  | InvalidDate => "null"
  | DateAt _ => jsonString (toISOString h d)
  end.

Definition member (key value : string) : string := jsonString key ++ ":" ++ value.

Fixpoint join (sep : string) (l : list string) : string :=
  match l with
  | [] => EmptyString
  | [x] => x
  | x :: r => x ++ sep ++ join sep r
  end.

Definition jsonRecord (r : RentalRecord.t) : string :=
  "{" ++ join ","
    [ member "id" (intToString (Z.of_nat (RentalRecord.id r)));
      member "station" (jsonString (RentalRecord.station r));
      member "stationKey" (jsonString (RentalRecord.stationKey r));
      member "group" (jsonString (RentalRecord.group r));
      member "groupKey" (jsonString (RentalRecord.groupKey r));
      member "date" (jsonDate (RentalRecord.date r));
      member "monthKey" (jsonString (RentalRecord.monthKey r));
      member "displayDate" (jsonString (RentalRecord.displayDate r));
      member "day" (intToString (RentalRecord.day r));
      member "days" (jsonNumber (RentalRecord.days r));
      member "charge" (jsonNumber (RentalRecord.charge r));
      member "year" (intToString (RentalRecord.year r)) ]
  ++ "}".

(** [JSON.stringify(processed.records)] *)
Definition JSON_stringify (records : list RentalRecord.t) : string :=
  "[" ++ join "," (map jsonRecord records) ++ "]".

(** [hashHex]: the SHA-256 digest of the serialized records, in hex. *)
Definition hashHex (records : list RentalRecord.t) : string :=
  sha256Hex h (JSON_stringify records).

(** *** The message handler *)

(** What [XLSX.read] and [sheet_to_json] make of the file: the rows of the
    first sheet, or an exception with its message. *)
Inductive Sheet : Type :=
| Unreadable (message : string)
| Readable (jsonData : list Row).

Inductive WorkerResponse : Type :=
| SUCCESS (data : ProcessedData.t) (hash : string)
| ERROR (error : string).

(** [self.onmessage] for a [PARSE] message: the one response it posts. *)
Definition onmessage (file : Sheet) : WorkerResponse :=
  match file with
  | Unreadable message => ERROR message
  | Readable jsonData =>
      let processed := processRawData jsonData in
      SUCCESS processed (hashHex (ProcessedData.records processed))
  end.

(** The hash that ingesting a table reports. *)
Definition ingestHash (jsonData : list Row) : string :=
  hashHex (ProcessedData.records (processRawData jsonData)).

(** [parseExcelFile] ([src/utils/excelProcessor.ts]): the promise resolves
    with the data and the hash of a [SUCCESS] response whose hash is not
    empty, and rejects otherwise. *)
Definition parseExcelFile (file : Sheet) : option (ProcessedData.t * string) :=
  match onmessage file with
  | SUCCESS data hash => if isEmpty hash then None else Some (data, hash)
  | ERROR _ => None
  end.

End WithHost.

End Worker.

(* ===================================================================== *)
(** * The first upload flow ([utils/excelProcessor.ts] and its [App]) *)
(* ===================================================================== *)

Module Legacy.
Import JS.

Record RentalRecord : Type := mkRecord {
  id : nat;
  station : string;
  group : string;
  date : Date;
  monthKey : string;
  displayDate : string;
  day : Z;
  days : float;
  charge : float
}.

Record ProcessedData : Type := mkData {
  records : list RentalRecord;
  stations : list string;
  groups : list string;
  months : list string;
  totalRecords : nat
}.

Module UploadStatus.
Inductive t : Type := idle | parsing | success | error.
End UploadStatus.

Section WithHost.

Variable h : Host.

Record Acc : Type := mkAcc {
  accRecords : list RentalRecord;
  stationSet : list string;
  groupSet : list string;
  monthSet : list string
}.

(** The [forEach] callback; [parseDate], [parseNumber] and [findColumnKey]
    are the same functions as the worker's. *)
Definition processRow (cols : Worker.Columns) (st : Acc) (row : Worker.Row)
    (index : nat) : Acc :=
  if Worker.requiredMissing cols then st
  else
    let stationNameRaw := Worker.get row (Worker.keyOr (Worker.stationKey cols)) in
    let dateRaw := Worker.get row (Worker.keyOr (Worker.dateKey cols)) in
    let daysRaw := Worker.get row (Worker.keyOr (Worker.daysKey cols)) in
    let chargeRaw := Worker.get row (Worker.keyOr (Worker.chargeKey cols)) in
    let groupRaw :=
      if Worker.missing (Worker.groupKey cols) then VStr "Unknown"
      else Worker.get row (Worker.keyOr (Worker.groupKey cols)) in
    if negb (truthy stationNameRaw) then st
    else
      let station := trim (toString h stationNameRaw) in
      let group := trim (toString h groupRaw) in
      match Worker.parseDate h dateRaw with
      | None => st
      | Some t =>
          let days := Worker.parseNumber h daysRaw in
          let charge := Worker.parseNumber h chargeRaw in
          if (days <=? 0)%float then st
          else
            let year := YearFromDay (Day t) in
            let month := MonthFromDay (Day t) in
            let day := DateFromDay (Day t) in
            let paddedMonth := padStart2 (intToString (month + 1)) in
            let monthKey := intToString year ++ "-" ++ paddedMonth in
            let displayDate := monthYearLabel h (DateAt t) in
            mkAcc
              (accRecords st ++
                 [mkRecord index station group (DateAt t) monthKey displayDate
                    day days charge])
              (Worker.setAdd station (stationSet st))
              (Worker.setAdd group (groupSet st))
              (Worker.setAdd monthKey (monthSet st))
      end.

Definition processRawData (data : list Worker.Row) : ProcessedData :=
  match data with
  | [] => mkData [] [] [] [] 0
  | firstRow :: _ =>
      let st :=
        Worker.forEachFrom (processRow (Worker.resolveColumns firstRow))
          0 data (mkAcc [] [] [] []) in
      mkData (accRecords st) (Worker.sorted (stationSet st))
        (Worker.sorted (groupSet st)) (Worker.sorted (monthSet st))
        (length (accRecords st))
  end.

(** [parseExcelFile]: resolves with the processed data, or rejects when the
    file cannot be read. *)
Definition parseExcelFile (file : Worker.Sheet) : option ProcessedData :=
  match file with
  | Worker.Unreadable _ => None
  | Worker.Readable jsonData => Some (processRawData jsonData)
  end.

(** The state of the first [App] component. *)
Record AppState : Type := mkApp {
  data : option ProcessedData;
  status : UploadStatus.t;
  error : option string
}.

(** [handleFileUpload], once its timer callback has run. *)
Definition handleFileUpload (st : AppState) (file : Worker.Sheet) : AppState :=
  match parseExcelFile file with
  | Some processed =>
      if (totalRecords processed =? 0)%nat
      then mkApp (data st) UploadStatus.error
             (Some "No valid records found in the uploaded file.")
      else mkApp (Some processed) UploadStatus.success None
  | None =>
      mkApp (data st) UploadStatus.error
        (Some "Failed to parse the Excel file. Please ensure it matches the expected format.")
  end.

End WithHost.

End Legacy.

(* ===================================================================== *)
(** * The comparison engine ([useComparisonData]) *)
(* ===================================================================== *)

Module Comparison.
Import JS.

Inductive DateRangeType : Type :=
| All
| Range_1_10
| Range_11_20
| Range_21_End.

Definition MONTH_NAMES : list string :=
  ["Jan"; "Feb"; "Mar"; "Apr"; "May"; "Jun"; "Jul"; "Aug"; "Sep"; "Oct"; "Nov"; "Dec"].

Record AlignedMonth : Type := mkAligned {
  monthIndex : nat;
  monthName : string;
  primary : MetricSet.t;
  comparison : MetricSet.t;
  variance : VarianceSet.t
}.

Record Totals : Type := mkTotals {
  totalPrimary : MetricSet.t;
  totalComparison : MetricSet.t;
  totalVariance : VarianceSet.t
}.

Record ComparisonResult : Type := mkResult {
  alignedMonths : list AlignedMonth;
  totals : Totals
}.

(** The month object of the initialisation loop. *)
Definition emptyMetrics : MetricSet.t := MetricSet.mk 0 0 0 0 false.

(** [m.revenue += r.charge; m.days += r.days; m.count += 1; m.hasData = true] *)
Definition addRecord (m : MetricSet.t) (r : RentalRecord.t) : MetricSet.t :=
  MetricSet.mk
    (MetricSet.revenue m + RentalRecord.charge r)%float
    (MetricSet.days m + RentalRecord.days r)%float
    (MetricSet.count m + 1)
    (MetricSet.rate m)
    true.

(** [if (m.days > 0) m.rate = m.revenue / m.days] *)
Definition withRate (m : MetricSet.t) : MetricSet.t :=
  if (0 <? MetricSet.days m)%float
  then MetricSet.mk (MetricSet.revenue m) (MetricSet.days m) (MetricSet.count m)
         (MetricSet.revenue m / MetricSet.days m)%float (MetricSet.hasData m)
  else m.

Definition calcVariance (p c : float) (pHasData cHasData : bool) : option float :=
  if negb cHasData then None
  else if (c =? 0)%float then
    if pHasData && (p =? 0)%float then Some 0%float else None
  else if negb pHasData then None
  else Some ((p - c) / c)%float.

(** The three calls of [calcVariance] made for a pair of metric sets. *)
Definition varianceOf (p c : MetricSet.t) : VarianceSet.t :=
  VarianceSet.mk
    (calcVariance (MetricSet.revenue p) (MetricSet.revenue c)
       (MetricSet.hasData p) (MetricSet.hasData c))
    (calcVariance (MetricSet.days p) (MetricSet.days c)
       (MetricSet.hasData p) (MetricSet.hasData c))
    (calcVariance (MetricSet.rate p) (MetricSet.rate c)
       (MetricSet.hasData p) (MetricSet.hasData c)).

(** The accumulator of [sum], updated for one month. *)
Definition addMonth (acc m : MetricSet.t) : MetricSet.t :=
  if MetricSet.hasData m
  then MetricSet.mk
         (MetricSet.revenue acc + MetricSet.revenue m)%float
         (MetricSet.days acc + MetricSet.days m)%float
         (MetricSet.count acc + MetricSet.count m)
         (MetricSet.rate acc)
         true
  else acc.

Definition sum (metrics : list MetricSet.t) : MetricSet.t :=
  withRate (fold_left addMonth metrics emptyMetrics).

Section Hook.

Variable selectedStation : string.
Variable selectedGroups : list string.
Variable selectedDateRange : DateRangeType.

Definition targetStationKey : option string :=
  if String.eqb selectedStation "All" then None
  else Some (trim (toLowerCase selectedStation)).

Definition targetGroupKeys : option (gset string) :=
  if existsb (String.eqb "All") selectedGroups then None
  else Some (list_to_set (map (fun g => trim (toLowerCase g)) selectedGroups)).

(** The three early returns of the [forEach] callback. *)
Definition rejectedByStation (r : RentalRecord.t) : bool :=
  match targetStationKey with
  | Some key => negb (isEmpty key) && negb (String.eqb (RentalRecord.stationKey r) key)
  | None => false
  end.

Definition rejectedByGroup (r : RentalRecord.t) : bool :=
  match targetGroupKeys with
  | Some keySet => negb (bool_decide (RentalRecord.groupKey r ∈ keySet))
  | None => false
  end.

Definition rejectedByRange (r : RentalRecord.t) : bool :=
  let day := RentalRecord.day r in
  match selectedDateRange with
  | All => false
  | Range_1_10 => (day <? 1) || (10 <? day)
  | Range_11_20 => (day <? 11) || (20 <? day)
  | Range_21_End => day <? 21
  end.

(** One round of [data.records.forEach]: [None] is the [TypeError] raised
    when [months[mIndex]] is undefined, which aborts the loop. *)
Definition visit (months : list MetricSet.t) (r : RentalRecord.t)
    : option (list MetricSet.t) :=
  if rejectedByStation r then Some months
  else if rejectedByGroup r then Some months
  else if rejectedByRange r then Some months
  else
    match getMonth (RentalRecord.date r) with
    | None => None
    | Some mIndex =>
        match months !! Z.to_nat mIndex with
        | None => None
        | Some m => Some (<[Z.to_nat mIndex := addRecord m r]> months)
        end
    end.

Fixpoint forEach (records : list RentalRecord.t) (months : list MetricSet.t)
    : option (list MetricSet.t) :=
  match records with
  | [] => Some months
  | r :: rest =>
      match visit months r with
      | Some months' => forEach rest months'
      | None => None
      end
  end.

Definition processYear (data : option ProcessedData.t) : option (list MetricSet.t) :=
  let months := replicate 12 emptyMetrics in
  match data with
  | None => Some months
  | Some data =>
      match forEach (ProcessedData.records data) months with
      | Some months' => Some (withRate <$> months')
      | None => None
      end
  end.

Definition align (primaryMetrics comparisonMetrics : list MetricSet.t)
    : list AlignedMonth :=
  imap (fun i name =>
          let p := nth i primaryMetrics emptyMetrics in
          let c := nth i comparisonMetrics emptyMetrics in
          mkAligned i name p c (varianceOf p c))
       MONTH_NAMES.

Definition grandTotals (primaryMetrics comparisonMetrics : list MetricSet.t) : Totals :=
  let pTotal := sum primaryMetrics in
  let cTotal := sum comparisonMetrics in
  mkTotals pTotal cTotal (varianceOf pTotal cTotal).

Definition useComparisonData (primaryData comparisonData : option ProcessedData.t)
    : option ComparisonResult :=
  match processYear primaryData, processYear comparisonData with
  | Some primaryMetrics, Some comparisonMetrics =>
      Some (mkResult (align primaryMetrics comparisonMetrics)
              (grandTotals primaryMetrics comparisonMetrics))
  | _, _ => None
  end.

End Hook.

End Comparison.

(* ===================================================================== *)
(** * The dataset registry ([App.tsx]) *)
(* ===================================================================== *)

Module Registry.
Import JS.

(** What a call of [loadYear] hands back: a promise that is already
    resolved (the plain [return]), or the pending operation numbered [p]. *)
Inductive Outcome : Type :=
| Resolved
| Pending (p : nat).

(** The component's state, as far as [loadYear] reads or writes it.
    [datasetRegistry] is the React state and [rendered] the value of it that
    the last render captured in the [loadYear] closure; a [useRef] map is
    shared by all renders.  [fetches] holds the remote fetches that are
    under way, each under the number of the promise that awaits it, and
    [fetchLog] records every call of [api.fetchYearData]. *)
Record State : Type := mkState {
  datasetRegistry : gmap Z ProcessedData.t;
  rendered : gmap Z ProcessedData.t;
  loadingYears : gset Z;
  inflightRequests : gmap Z nat;
  fetches : gmap nat Z;
  fetchLog : list Z;
  alerts : list string;
  nextPromise : nat
}.

Definition initial : State := mkState ∅ ∅ ∅ ∅ ∅ [] [] 0.

(** The years of the records that carry a valid date. *)
Definition datedYears (data : ProcessedData.t) : list Z :=
  omap (fun r => getFullYear (RentalRecord.date r)) (ProcessedData.records data).

Definition countOf (y : Z) (ys : list Z) : nat := length (List.filter (Z.eqb y) ys).

(** The years counted, each once, in the order in which they are first
    counted. *)
Fixpoint distinct (ys : list Z) : list Z :=
  match ys with
  | [] => []
  | y :: rest => y :: List.filter (fun x => negb (x =? y)) (distinct rest)
  end.

Fixpoint insertAscending (y : Z) (l : list Z) : list Z :=
  match l with
  | [] => [y]
  | x :: rest => if y <=? x then y :: l else x :: insertAscending y rest
  end.

(** A property key that is an array index: an integer from 0 to 2^32 - 2. *)
Definition isIndex (y : Z) : bool := (0 <=? y) && (y <? 4294967295).

(** The keys of [Object.entries(counts)]: the years that are array indexes
    come first, in ascending order, and the other years (the negative ones)
    follow in the order in which they were first counted. *)
Definition entryYears (ys : list Z) : list Z :=
  (fold_right insertAscending [] (List.filter isIndex (distinct ys))
   ++ List.filter (fun y => negb (isIndex y)) (distinct ys))%list.

(** [parseInt(Object.entries(counts).reduce((a, b) => b[1] > a[1] ? b : a)[0])]:
    the first of the entries with the greatest count.  (On no entry at all
    [reduce] throws; [verifyYearMode] gets here with ten years or more.) *)
Definition modeYear (ys : list Z) : Z :=
  match entryYears ys with
  | [] => 0
  | first :: rest =>
      fold_left (fun a b => if (countOf a ys <? countOf b ys)%nat then b else a)
        rest first
  end.

Definition verifyYearMode (data : ProcessedData.t) (requestedYear : Z) : bool :=
  let ys := datedYears data in
  if (length ys <? 10)%nat then true
  else modeYear ys =? requestedYear.

Definition loadYear (st : State) (year : Z) : Outcome * State :=
  match rendered st !! year with
  | Some _ => (Resolved, st)
  | None =>
      match inflightRequests st !! year with
      | Some p => (Pending p, st)
      | None =>
          let p := nextPromise st in
          (Pending p,
           mkState (datasetRegistry st) (rendered st)
             ({[year]} ∪ loadingYears st)
             (<[year := p]> (inflightRequests st))
             (<[p := year]> (fetches st))
             (fetchLog st ++ [year])
             (alerts st)
             (S p))
      end
  end.

(** The [finally] block of the pending operation. *)
Definition finish (st : State) (p : nat) (year : Z) : State :=
  mkState (datasetRegistry st) (rendered st)
    (loadingYears st ∖ {[year]})
    (delete year (inflightRequests st))
    (delete p (fetches st))
    (fetchLog st) (alerts st) (nextPromise st).

(** The fetch awaited by promise [p] settles: with the data ([try] runs to
    its end) or with an exception ([catch]); then [finally]. *)
Definition settle (st : State) (p : nat) (result : option ProcessedData.t) : State :=
  match fetches st !! p with
  | None => st
  | Some year =>
      match result with
      | Some data =>
          let warned :=
            if verifyYearMode data year then alerts st
            else (alerts st ++
                  [("Warning: The data for " ++ intToString year
                    ++ " appears to contain mostly records from another year.")%string])%list in
          finish
            (mkState (<[year := data]> (datasetRegistry st)) (rendered st)
               (loadingYears st) (inflightRequests st) (fetches st)
               (fetchLog st) warned (nextPromise st))
            p year
      | None =>
          finish
            (mkState (datasetRegistry st) (rendered st)
               (loadingYears st) (inflightRequests st) (fetches st)
               (fetchLog st)
               (alerts st ++ [("Failed to download data for " ++ intToString year)%string])
               (nextPromise st))
            p year
      end
  end.

(** [handleLocalFileUpload] once the file is parsed: the dataset goes into
    the registry under its own year. *)
Definition handleLocalFileUpload (st : State) (data : ProcessedData.t) : State :=
  mkState (<[ProcessedData.year data := data]> (datasetRegistry st)) (rendered st)
    (loadingYears st) (inflightRequests st) (fetches st)
    (fetchLog st) (alerts st) (nextPromise st).

(** A render: the closures now see the current registry. *)
Definition render (st : State) : State :=
  mkState (datasetRegistry st) (datasetRegistry st)
    (loadingYears st) (inflightRequests st) (fetches st)
    (fetchLog st) (alerts st) (nextPromise st).

(** What can happen during a session, one event-loop turn at a time: a
    call of [loadYear], the end of a fetch, a local upload, a render.  (A
    logout empties the registry and ends the session.) *)
Inductive Event : Type :=
| Call (year : Z)
| FetchResolves (p : nat) (data : ProcessedData.t)
| FetchRejects (p : nat)
| LocalUpload (data : ProcessedData.t)
| Render.

Definition step (st : State) (ev : Event) : State :=
  match ev with
  | Call year => snd (loadYear st year)
  | FetchResolves p data => settle st p (Some data)
  | FetchRejects p => settle st p None
  | LocalUpload data => handleLocalFileUpload st data
  | Render => render st
  end.

Definition run (st : State) (evs : list Event) : State := fold_left step evs st.

Definition reachable (st : State) : Prop := exists evs, st = run initial evs.

(** How often [api.fetchYearData] was called for a year. *)
Definition fetchCount (st : State) (year : Z) : nat := countOf year (fetchLog st).

(** What holds of every state of a session: the in-flight map names exactly
    the fetches under way, promise numbers are handed out in order, and
    every year the closures see is in the registry. *)
Definition consistent (st : State) : Prop :=
  (forall year p, inflightRequests st !! year = Some p <-> fetches st !! p = Some year)
  /\ (forall p year, fetches st !! p = Some year -> (p < nextPromise st)%nat)
  /\ (forall year, is_Some (rendered st !! year) -> is_Some (datasetRegistry st !! year)).

(** A session in which 2024 is being loaded, and one in which it is loaded
    and rendered. *)
Definition loading2024 : State := run initial [Call 2024].

Definition loaded2024 (data : ProcessedData.t) : State :=
  run initial [Call 2024; FetchResolves 0 data; Render].

End Registry.

(* ===================================================================== *)
(** * Vocabulary of the statements, and sample inputs *)
(* ===================================================================== *)

Module Spec.
Import JS Worker.

(** A binary64 value, decoded, is NaN. *)
Definition isNaNSpec (f : spec_float) : bool :=
  match f with S754_nan => true | _ => false end.

(** The records that the rows of [data], numbered from [index], yield. *)
Fixpoint collected (h : Host) (cols : Columns) (index : nat) (data : list Row)
    : list RentalRecord.t :=
  match data with
  | [] => []
  | row :: rest =>
      match makeRecord h cols row index with
      | Some r => r :: collected h cols (S index) rest
      | None => collected h cols (S index) rest
      end
  end.

(** The columns resolved for a table: those of its first row. *)
Definition columnsOf (data : list Row) : Columns := resolveColumns (hd [] data).

(** One of the three row-level defects: blank station, unparseable date,
    or a duration that is not positive. *)
Definition defective (h : Host) (cols : Columns) (row : Row) : bool :=
  isEmpty (stationOf h cols row)
  || match dateOf h cols row with None => true | Some _ => false end
  || (daysOf h cols row <=? 0)%float.

(** No numeric cell of the table holds NaN, as in any sheet a spreadsheet
    program writes. *)
Definition cellDefined (v : Value) : bool :=
  match v with
  | VNum x => negb (is_nan x)
  | _ => true
  end.

Definition numbersDefined (data : list Row) : bool :=
  forallb (fun row : Row => forallb (fun kv => cellDefined (snd kv)) row) data.

(** The empty dataset. *)
Definition noData : ProcessedData.t := ProcessedData.mk [] [] [] [] 0 0.

(** Sample rows with the usual headers and text cells. *)
Definition rental (station date days charge : string) : Row :=
  [("Station", VStr station); ("Check-out Date", VStr date);
   ("Days", VStr days); ("Rental Charge", VStr charge)].

(** Three valid rentals and one of zero days. *)
Definition sampleTable : list Row :=
  [rental "ATH" "05/01/2024" "2" "100"; rental "ATH" "10/02/2024" "1" "50";
   rental "SKG" "20/01/2024" "2" "100"; rental "SKG" "21/01/2024" "0" "75"].

(** A table whose first row is skipped for its blank station. *)
Definition firstRowSkipped : list Row :=
  [rental "" "01/01/2023" "1" "10"; rental "ATH" "05/03/2024" "2" "100"].

(** A table whose first three rows have a blank station, no date and a
    duration of zero, and whose last row has a numeric duration cell that
    holds NaN. *)
Definition durationNaN : list Row :=
  [rental "  " "05/03/2024" "2" "100";
   rental "ATH" "" "2" "100";
   rental "ATH" "05/03/2024" "0" "100";
   [("Station", VStr "ATH"); ("Check-out Date", VStr "05/03/2024");
    ("Days", VNum nan); ("Rental Charge", VNum 100)]].

(** A table without a station column. *)
Definition tableWithoutStation : list Row :=
  [[("Branch", VStr "ATH"); ("Check-out Date", VStr "05/03/2024");
    ("Days", VStr "2"); ("Rental Charge", VStr "100")]].

(** Two tables that differ in one charge, zero against an accounting zero,
    and one table given twice, with text cells and with number cells. *)
Definition chargeZero : list Row := [rental "ATH" "05/03/2024" "2" "0"].
Definition chargeMinusZero : list Row := [rental "ATH" "05/03/2024" "2" "(0)"].
Definition asText : list Row := [rental "ATH" "05/03/2024" "2" "1.200,50"].
Definition asNumbers : list Row :=
  [[("Station", VStr "ATH"); ("Check-out Date", VStr "05/03/2024");
    ("Days", VNum 2); ("Rental Charge", VNum 1200.5)]].

(** The filter of the comparison engine, said with lists: a record is
    selected when its station key is the selected one (or all stations are
    selected), its group key is among the selected ones (or all groups are),
    and its day lies in the selected part of the month. *)
Section Selection.

Variable selectedStation : string.
Variable selectedGroups : list string.
Variable selectedDateRange : Comparison.DateRangeType.

Definition stationPasses (r : RentalRecord.t) : bool :=
  String.eqb selectedStation "All"
  || String.eqb (RentalRecord.stationKey r) (trim (toLowerCase selectedStation)).

Definition groupPasses (r : RentalRecord.t) : bool :=
  existsb (String.eqb "All") selectedGroups
  || existsb (fun g => String.eqb (RentalRecord.groupKey r) (trim (toLowerCase g)))
       selectedGroups.

Definition rangePasses (r : RentalRecord.t) : bool :=
  let day := RentalRecord.day r in
  match selectedDateRange with
  | Comparison.All => true
  | Comparison.Range_1_10 => (1 <=? day) && (day <=? 10)
  | Comparison.Range_11_20 => (11 <=? day) && (day <=? 20)
  | Comparison.Range_21_End => 21 <=? day
  end.

Definition selected (r : RentalRecord.t) : bool :=
  stationPasses r && groupPasses r && rangePasses r.

(** The record counts for month [i] (0 to 11). *)
Definition contributes (i : Z) (r : RentalRecord.t) : bool :=
  selected r
  && match getMonth (RentalRecord.date r) with
     | Some m => m =? i
     | None => false
     end.

Definition sumFloats (l : list float) : float := fold_left PrimFloat.add l 0%float.

(** The metrics of month [i], summed by hand over the records that count
    for it, in their order. *)
Definition monthTotal (i : Z) (records : list RentalRecord.t) : MetricSet.t :=
  let mine := List.filter (contributes i) records in
  let revenue := sumFloats (map RentalRecord.charge mine) in
  let days := sumFloats (map RentalRecord.days mine) in
  MetricSet.mk revenue days (Z.of_nat (length mine))
    (if (0 <? days)%float then (revenue / days)%float else 0%float)
    (negb (Nat.eqb (length mine) 0)).

End Selection.

(** The selected station is ["All"] or a name that is not blank. *)
Definition stationNamed (selectedStation : string) : bool :=
  String.eqb selectedStation "All"
  || negb (isEmpty (trim (toLowerCase selectedStation))).

(** Every record of the dataset carries a valid date. *)
Definition datesValid (data : ProcessedData.t) : bool :=
  forallb (fun r => negb (isInvalid (RentalRecord.date r))) (ProcessedData.records data).

(** The dataset of the end-to-end scenario: January, February, January. *)
Definition sampleRecord (id : nat) (station group : string) (y m d : Z)
    (days charge : float) : RentalRecord.t :=
  RentalRecord.mk id station (trim (toLowerCase station)) group
    (trim (toLowerCase group)) (newDate y m d)
    (intToString y ++ "-" ++ padStart2 (intToString (m + 1))) "" d days charge y.

Definition sampleData : ProcessedData.t :=
  ProcessedData.mk
    [sampleRecord 0 "ATH" "Economy" 2024 0 5 2 100;
     sampleRecord 1 "ATH" "Compact" 2024 1 10 1 50;
     sampleRecord 2 "SKG" "Economy" 2024 0 20 2 100]
    ["ATH"; "SKG"] ["Compact"; "Economy"] ["2024-01"; "2024-02"] 3 2024.

End Spec.

(* ===================================================================== *)
(** * Further vocabulary *)
(* ===================================================================== *)

Module Terms.
Import JS Worker.

(** A header matches a candidate when its lower-case, trimmed form
    contains it. *)
Definition headerMatches (candidate key : string) : bool :=
  includes (trim (toLowerCase key)) candidate.

Definition nonEmpty (s : string) : bool := negb (isEmpty s).

(** Strictly ascending in the order of the code units: sorted, and free of
    duplicates. *)
Definition ascending (l : list string) : Prop :=
  StronglySorted (fun a b => String.ltb a b = true) l.

(** The length of month [m] (0 to 11) of year [y]. *)
Definition daysInMonth (y m : Z) : Z := monthStart y (m + 1) - monthStart y m.

(** The lower-case, trimmed form that serves as a key. *)
Definition normalized (s : string) : string := trim (toLowerCase s).

(** A table with a return date before the check-out date, and a car group. *)
Definition twoDates : list Row :=
  [[("Return Date", VStr "09/03/2024"); ("Station", VStr "ATH");
    ("Check-out Date", VStr "05/03/2024"); ("Days", VStr "4");
    ("Rental Charge", VStr "200"); ("Car Group", VStr "Economy")]].

End Terms.

Module FilterTerms.
Import JS Comparison.

Section Selection.

Variable selectedStation : string.
Variable selectedGroups : list string.
Variable selectedDateRange : DateRangeType.

(** None of the three early returns of the [forEach] callback of
    [processYear] is taken for the record. *)
Definition kept (r : RentalRecord.t) : bool :=
  negb (rejectedByStation selectedStation r)
  && negb (rejectedByGroup selectedGroups r)
  && negb (rejectedByRange selectedDateRange r).

(** The record is kept and its date falls in month [i]. *)
Definition keptIn (i : Z) (r : RentalRecord.t) : bool :=
  kept r
  && match getMonth (RentalRecord.date r) with
     | Some m => m =? i
     | None => false
     end.

End Selection.

(** The number of records kept for month [i]. *)
Definition keptCount (station : string) (groups : list string)
    (range : DateRangeType) (i : Z) (records : list RentalRecord.t) : Z :=
  Z.of_nat (length (List.filter (keptIn station groups range i) records)).

(** The number of records kept for the months [idx] together. *)
Definition keptTotal (station : string) (groups : list string)
    (range : DateRangeType) (idx : list nat) (records : list RentalRecord.t) : Z :=
  fold_right (fun i total => keptCount station groups range (Z.of_nat i) records + total)
    0 idx.

(** The month object that [processYear] hands back for month [i]. *)
Definition monthMetrics (station : string) (groups : list string)
    (range : DateRangeType) (records : list RentalRecord.t) (i : nat) : MetricSet.t :=
  withRate (fold_left addRecord
              (List.filter (keptIn station groups range (Z.of_nat i)) records)
              emptyMetrics).

(** [metrics[i].count], 0 beyond the list. *)
Definition countAt (metrics : list MetricSet.t) (i : nat) : Z :=
  MetricSet.count (nth i metrics emptyMetrics).

End FilterTerms.


(** ** The comparison result *)

Module ResultTerms.
Import JS Worker Comparison.

(** The records of the dataset handed to the hook, none without a dataset. *)
Definition recordsOf (data : option ProcessedData.t) : list RentalRecord.t :=
  match data with
  | Some data => ProcessedData.records data
  | None => []
  end.

(** A variance set all of whose entries are [undefined]. *)
Definition noVariance : VarianceSet.t := VarianceSet.mk None None None.

(** The station, the groups and the part of the month of the unfiltered
    dashboard. *)
Definition unfiltered (station : string) (groups : list string)
    (range : DateRangeType) : bool :=
  String.eqb station "All" && existsb (String.eqb "All") groups
  && match range with All => true | _ => false end.

End ResultTerms.

(* ===================================================================== *)
(** * The filters of the dashboard ([components/Dashboard.tsx]) *)
(* ===================================================================== *)

Module Dashboard.
Import JS Worker.

(** [toggleGroupSelection], as a function from the selection it reads to
    the selection it sets. *)
Definition toggleGroupSelection (selectedGroups : list string) (grp : string)
    : list string :=
  if String.eqb grp "All" then ["All"]
  else
    let newSelection :=
      if existsb (String.eqb "All") selectedGroups then [grp]
      else if existsb (String.eqb grp) selectedGroups
           then List.filter (fun g => negb (String.eqb g grp)) selectedGroups
           else (selectedGroups ++ [grp])%list in
    if (length newSelection =? 0)%nat then ["All"] else newSelection.

(** The two filter states that depend on one another. *)
Record Filters : Type := mkFilters {
  selectedStation : string;
  selectedGroups : list string
}.

(** [useState('All')] and [useState(['All'])]. *)
Definition initialFilters : Filters := mkFilters "All" ["All"].

(** What the user does to them: a click in the group list, or the choice
    of another station, after which the effect on [selectedStation] sets
    the groups back to [['All']]. *)
Inductive Action : Type :=
| ToggleGroup (grp : string)
| SelectStation (station : string).

Definition act (st : Filters) (a : Action) : Filters :=
  match a with
  | ToggleGroup grp =>
      mkFilters (selectedStation st) (toggleGroupSelection (selectedGroups st) grp)
  | SelectStation station =>
      if String.eqb station (selectedStation st) then st
      else mkFilters station ["All"]
  end.

(** [availableGroups]: the groups of the dataset, or those of the records
    of the selected station, sorted. *)
Definition availableGroups (primaryData : ProcessedData.t) (selectedStation : string)
    : list string :=
  if String.eqb selectedStation "All" then ProcessedData.groups primaryData
  else
    sorted
      (fold_left
         (fun groupsInStation r =>
            if String.eqb (RentalRecord.station r) selectedStation
            then setAdd (RentalRecord.group r) groupsInStation
            else groupsInStation)
         (ProcessedData.records primaryData) []).

End Dashboard.

(** ** The two ingestion flows side by side *)

Module FlowTerms.
Import JS Worker.

(** What the callback of the first flow pushes for one row: one record or
    none. *)
Definition pushed (h : Host) (cols : Columns) (row : Row) (index : nat)
    : list Legacy.RentalRecord :=
  Legacy.accRecords (Legacy.processRow h cols (Legacy.mkAcc [] [] [] []) row index).

Fixpoint pushedFrom (h : Host) (cols : Columns) (index : nat) (data : list Row)
    : list Legacy.RentalRecord :=
  match data with
  | [] => []
  | row :: rest => (pushed h cols row index ++ pushedFrom h cols (S index) rest)%list
  end.

(** A record of the first flow and a record of the worker that agree in
    every field both have, except, possibly, the group: where the group
    cell is empty the worker writes "Unknown". *)
Definition sameRental (old : Legacy.RentalRecord) (r : RentalRecord.t) : Prop :=
  Legacy.id old = RentalRecord.id r
  /\ Legacy.station old = RentalRecord.station r
  /\ Legacy.date old = RentalRecord.date r
  /\ Legacy.monthKey old = RentalRecord.monthKey r
  /\ Legacy.displayDate old = RentalRecord.displayDate r
  /\ Legacy.day old = RentalRecord.day r
  /\ Legacy.days old = RentalRecord.days r
  /\ Legacy.charge old = RentalRecord.charge r
  /\ (Legacy.group old = RentalRecord.group r \/ RentalRecord.group r = "Unknown").

End FlowTerms.

(* ===================================================================== *)
(** * The storage server ([server.js]) and the upload client ([api.ts]) *)
(* ===================================================================== *)

(** The bucket is kept as the server sees it: [metadata.json], absent or
    present with its content and its generation number, and the names of
    the data objects in the order in which the storage service lists them
    (ascending).  The content of [metadata.json] is the JSON text of a
    metadata object as [finalize] writes it, the only writer of the file in
    this repository, or text that [JSON.parse] rejects.  Request bodies are
    JSON objects whose fields, where present, are strings, as the client
    sends them, and the cookies of a request are what [cookie-parser] has
    made of its [Cookie] header.  A signed URL is kept as the access it
    grants.  Storage calls succeed, but for the precondition of [save];
    [download] resolves to the content of the object and to nothing else.
    Time stamps and the verification of the session token are given from
    outside. *)

Module YearEntry.
Record t : Type := mk {
  status : string;
  version : float;
  hash : string
}.
End YearEntry.

Module Request.
Record t : Type := mk {
  method : string;
  xsrfCookie : option string;
  xsrfHeader : option string;
  jwtCookie : option string;
  year : option string;
  type : option string;
  hash : option string
}.
End Request.

Module Server.
Import JS.

Record Meta : Type := mkMeta {
  years : gmap string YearEntry.t;
  lastUpdated : string
}.

Inductive Content : Type :=
| Valid (meta : Meta)
| Invalid.

Record Bucket : Type := mkBucket {
  metadata : option (Content * Z);
  objects : list string
}.

Inductive Access : Type := write | read.

Record SignedUrl : Type := mkUrl {
  action : Access;
  name : string
}.

Inductive Response : Type :=
| Error (code : Z) (error : string)
| UploadExists
| UploadOk (signedUrl : SignedUrl) (path : string)
| Success
| ReadUrl (url : SignedUrl)
| Page.

(** [res.ok]: the routes answer errors with 400, 401, 403, 404 or 500. *)
Definition ok (r : Response) : bool :=
  match r with
  | Error _ _ => false
  | _ => true
  end.

(** A field that is there and not the empty string. *)
Definition given (field : option string) : bool :=
  match field with
  | Some s => negb (isEmpty s)
  | None => false
  end.

(** [a !== b] on two fields, negated. *)
Definition same (a b : option string) : bool :=
  match a, b with
  | Some x, Some y => String.eqb x y
  | None, None => true
  | _, _ => false
  end.

(** The check of the double-submit cookie.  (The cookie that the
    middleware sets on the answer when the request has none is not
    modelled.) *)
Definition csrfInvalid (req : Request.t) : bool :=
  existsb (String.eqb (Request.method req)) ["POST"; "PUT"; "DELETE"]
  && (negb (given (Request.xsrfCookie req))
      || negb (same (Request.xsrfHeader req) (Request.xsrfCookie req))).

Fixpoint allChars (p : ascii -> bool) (s : string) : bool :=
  match s with
  | EmptyString => true
  | String c r => p c && allChars p r
  end.

(** [/^[a-f0-9]{64}$/] *)
Definition hashPattern (s : string) : bool :=
  (String.length s =? 64)%nat
  && allChars (fun c => between 97 102 c || isDigit c) s.

Definition generation (b : Bucket) : Z :=
  match metadata b with
  | Some (_, g) => g
  | None => 0
  end.

(** A write to [metadata.json]: the object gets a new generation. *)
Definition overwrite (b : Bucket) (content : Content) : Bucket :=
  mkBucket (Some (content, generation b + 1)) (objects b).

(** [metaFile.save(text, { ifGenerationMatch })]: the storage service
    refuses, with 412, unless the object has the generation expected, 0
    standing for no object. *)
Definition save (b : Bucket) (content : Content) (ifGenerationMatch : Z)
    : option Bucket :=
  if generation b =? ifGenerationMatch then Some (overwrite b content) else None.

(** [(meta.years[year]?.version || 0) + 1] *)
Definition nextVersion (previous : option YearEntry.t) : float :=
  match previous with
  | Some entry =>
      let v := YearEntry.version entry in
      ((if is_nan v || (v =? 0)%float then 0 else v) + 1)%float
  | None => (0 + 1)%float
  end.

(** The update of the metadata object.  The assignment [meta.years[year] =
    ...] creates or replaces the property [year], except for the key
    [__proto__], which sets the prototype and leaves the properties, and so
    the JSON text of [years], as they are. *)
Definition register (meta : Meta) (year hash now : string) : Meta :=
  let entry := YearEntry.mk "active" (nextVersion (years meta !! year)) hash in
  mkMeta
    (if String.eqb year "__proto__" then years meta
     else <[year := entry]> (years meta))
    now.

Definition emptyMeta : Meta := mkMeta ∅ "".

(** The [while (retries > 0)] loop of [finalize]: whether the loop is left
    in the ordinary way (by [break], or with no retry left) or by an
    exception, and the bucket then.  A round that finds [metadata.json]
    downloads it with [const [content, metadata] = await
    metaFile.download()]; [File.download] resolves to the content alone, so
    [metadata] is undefined and [metadata.generation] throws a [TypeError],
    which the [catch] of the loop, finding no [code] 412 on it, throws on.
    A round that finds no file makes a fresh metadata object and saves it
    on condition that there is still no file; [others] tells, round by
    round, what another writer puts in between.  A save that is refused
    counts [retries] down. *)
Fixpoint attempt (retries : nat) (b : Bucket) (others : list (option Content))
    (year hash : string) (now : nat -> string) : bool * Bucket :=
  match retries with
  | O => (true, b)
  | S retries' =>
      match metadata b with
      | Some _ => (false, b)
      | None =>
          let ifGenerationMatch := 0 in
          let updated := register emptyMeta year hash (now retries) in
          let b' :=
            match others with
            | Some content :: _ => overwrite b content
            | _ => b
            end in
          match save b' (Valid updated) ifGenerationMatch with
          | Some saved => (true, saved)
          | None => attempt retries' b' (tl others) year hash now
          end
      end
  end.

Section Routes.

(** [jwt.verify(token, JWT_SECRET)] returns, or throws. *)
Variable verify : string -> bool.

Definition requireAuth (req : Request.t) : option Response :=
  match Request.jwtCookie req with
  | None => Some (Error 401 "Unauthorized")
  | Some token =>
      if isEmpty token then Some (Error 401 "Unauthorized")
      else if verify token then None
      else Some (Error 401 "Invalid Token")
  end.

(** [POST /api/upload/init] *)
Definition init (b : Bucket) (timestamp : Z) (req : Request.t) : Response :=
  match Request.year req, Request.type req, Request.hash req with
  | Some year, Some type, Some hash =>
      if negb (existsb (String.eqb year) ["2023"; "2024"; "2025"])
         || negb (String.eqb type "records")
         || negb (hashPattern hash)
      then Error 400 "Invalid input parameters"
      else
        let known :=
          match metadata b with
          | Some (Valid meta, _) =>
              match years meta !! year with
              | Some entry => String.eqb (YearEntry.hash entry) hash
              | None => false
              end
          | _ => false
          end in
        if known then UploadExists
        else
          let fileName :=
            "data/" ++ year ++ "/" ++ intToString timestamp ++ "_" ++ hash
            ++ "_" ++ type ++ ".json" in
          UploadOk (mkUrl write fileName) fileName
  | _, _, _ => Error 400 "Invalid input parameters"
  end.

(** [POST /api/upload/finalize] *)
Definition finalize (b : Bucket) (others : list (option Content))
    (now : nat -> string) (req : Request.t) : Response * Bucket :=
  if negb (given (Request.year req)) || negb (given (Request.hash req))
  then (Error 400 "Missing parameters", b)
  else
    match Request.year req, Request.hash req with
    | Some year, Some hash =>
        match attempt 3 b others year hash now with
        | (true, b') => (Success, b')
        | (false, b') => (Error 500 "Finalization failed", b')
        end
    | _, _ => (Error 400 "Missing parameters", b)
    end.

(** [GET /api/years/:year/records] *)
Definition records (b : Bucket) (year : string) : Response :=
  match metadata b with
  | None => Error 404 "Data not initialized"
  | Some (Invalid, _) => Error 500 "Metadata corruption"
  | Some (Valid meta, _) =>
      match years meta !! year with
      | None => Error 404 "Data not found"
      | Some entry =>
          if isEmpty (YearEntry.hash entry) then Error 404 "Data not found"
          else
            let files :=
              List.filter (fun name => startsWith name ("data/" ++ year ++ "/"))
                (objects b) in
            match find (fun name => includes name (YearEntry.hash entry)) files with
            | None => Error 404 "File object missing"
            | Some name => ReadUrl (mkUrl read name)
            end
      end
  end.

(** The three routes behind the two middlewares.  A request whose method
    is not the route's falls through to the static application; a route
    registered with [app.get] answers [HEAD] as well. *)
Inductive Route : Type :=
| UploadInit
| UploadFinalize
| YearRecords (year : string).

Definition getOrHead (method : string) : bool :=
  String.eqb method "GET" || String.eqb method "HEAD".

Record Outside : Type := mkOutside {
  timestamp : Z;
  now : nat -> string;
  others : list (option Content)
}.

Definition serve (route : Route) (env : Outside) (b : Bucket) (req : Request.t)
    : Response * Bucket :=
  if csrfInvalid req then (Error 403 "CSRF Token Invalid", b)
  else
    let fallback :=
      if getOrHead (Request.method req) then (Page, b)
      else (Error 404 "Not Found", b) in
    match route with
    | UploadInit =>
        if String.eqb (Request.method req) "POST" then
          match requireAuth req with
          | Some refusal => (refusal, b)
          | None => (init b (timestamp env) req, b)
          end
        else fallback
    | UploadFinalize =>
        if String.eqb (Request.method req) "POST" then
          match requireAuth req with
          | Some refusal => (refusal, b)
          | None => finalize b (others env) (now env) req
          end
        else fallback
    | YearRecords year =>
        if getOrHead (Request.method req) then
          match requireAuth req with
          | Some refusal => (refusal, b)
          | None => (records b year, b)
          end
        else fallback
    end.

End Routes.

(** A [PUT] to a signed URL that grants [write]: the object is there
    afterwards, listed at its place. *)
Definition put (b : Bucket) (url : SignedUrl) : Bucket :=
  match action url with
  | write =>
      mkBucket (metadata b)
        (if existsb (String.eqb (name url)) (objects b) then objects b
         else Worker.insertSorted (name url) (objects b))
  | read => b
  end.

End Server.

Module Client.
Import JS Server.

(** What the requests of a browser carry, as the server reads them: the
    [XSRF-TOKEN] cookie and the session cookie as [cookie-parser] hands
    them to the middlewares ([req.cookies], decoded), and the header
    [X-XSRF-TOKEN] that [headers()] sends, which is made of the text of
    [document.cookie] as it stands. *)
Record Browser : Type := mkBrowser {
  xsrfCookie : option string;
  xsrfHeader : string;
  jwtCookie : option string
}.

(** The body [{ year: String(year), type: 'records', hash }], posted. *)
Definition post (browser : Browser) (year : Z) (hash : string) : Request.t :=
  Request.mk "POST" (xsrfCookie browser) (Some (xsrfHeader browser))
    (jwtCookie browser) (Some (intToString year)) (Some "records") (Some hash).

(** How a call of [uploadDataset] ends: the message of the [Error] thrown,
    if any, the progress messages in order, and the bucket. *)
Record Outcome : Type := mkOutcome {
  thrown : option string;
  progress : list string;
  bucket : Bucket
}.

Section Upload.

Variable verify : string -> bool.

(** [uploadDataset]; [storageAccepts] tells whether the storage service
    takes the [PUT].  (The route answers [ok] with [status: 'exists'] or
    with a signed URL only; any other body would send the [PUT] astray.) *)
Definition uploadDataset (browser : Browser) (env : Outside) (storageAccepts : bool)
    (b : Bucket) (year : Z) (hash : string) : Outcome :=
  let request := post browser year hash in
  let log1 := ["Initiating secure upload..."] in
  let log2 := (log1 ++ ["Uploading to secure storage (GCS)..."])%list in
  let log3 := (log2 ++ ["Verifying and finalizing..."])%list in
  let (initRes, b1) := serve verify UploadInit env b request in
  if negb (ok initRes) then mkOutcome (Some "Upload initialization failed") log1 b1
  else
    match initRes with
    | UploadExists => mkOutcome None (log1 ++ ["Data is already up to date."]) b1
    | UploadOk signedUrl _ =>
        if storageAccepts then
          let b2 := put b1 signedUrl in
          let (finalRes, b3) := serve verify UploadFinalize env b2 request in
          if negb (ok finalRes) then mkOutcome (Some "Finalization failed") log3 b3
          else mkOutcome None (log3 ++ ["Success!"]) b3
        else mkOutcome (Some "Storage upload failed") log2 b1
    | _ => mkOutcome (Some "Storage upload failed") log2 b1
    end.

(** [[2023, 2024, 2025].includes(data.year)]: the years for which
    [handleLocalFileUpload] offers the upload. *)
Definition offersUpload (year : Z) : bool :=
  existsb (Z.eqb year) [2023; 2024; 2025].

End Upload.

End Client.

(* ===================================================================== *)
(** * Loading a year from the cloud ([api.fetchYearData]) *)
(* ===================================================================== *)

(** A record as [dataRes.json()] yields it for a dataset that this
    application has written: the date is its ISO text, and the two keys are
    missing in datasets written before the keys were introduced. *)
Module Stored.
Record t : Type := mk {
  id : nat;
  station : string;
  stationKey : option string;
  group : string;
  groupKey : option string;
  date : string;
  monthKey : string;
  displayDate : string;
  day : Z;
  days : float;
  charge : float;
  year : Z
}.
End Stored.

Module Fetch.
Import JS Worker Server.

(** [r.stationKey || (r.station ? r.station.toLowerCase().trim() : '')] *)
Definition keyOf (key : option string) (name : string) : string :=
  let fallback := if isEmpty name then "" else trim (toLowerCase name) in
  match key with
  | Some k => if isEmpty k then fallback else k
  | None => fallback
  end.

(** [Array.from(new Set(records.map(field))).sort()] *)
Definition index (field : RentalRecord.t -> string) (records : list RentalRecord.t)
    : list string :=
  sorted (fold_left (fun set r => setAdd (field r) set) records []).

(** [parseInt(text)] without a radix: white space is skipped, a sign is
    read, and then the longest run of decimal digits, or of hexadecimal
    digits after [0x] or [0X]; [None] is NaN. *)
Definition hexValue (c : ascii) : option Z :=
  if isDigit c then Some (digitValue c)
  else if between 97 102 c then Some (Z.of_N (code c) - 87)
  else if between 65 70 c then Some (Z.of_N (code c) - 55)
  else None.

Fixpoint hexDigitsFrom (acc : option Z) (s : string) : option Z :=
  match s with
  | String c r =>
      match hexValue c with
      | Some v =>
          hexDigitsFrom
            (Some (16 * match acc with Some a => a | None => 0 end + v)) r
      | None => acc
      end
  | EmptyString => acc
  end.

Definition decimalDigitsOf (s : string) : option Z :=
  let '(ds, _) := span isDigit s in
  if isEmpty ds then None else Some (digitsValue ds).

Definition parseInt (text : string) : option Z :=
  let s := trimStart text in
  let '(negative, body) :=
    match s with
    | String c r =>
        if Ascii.eqb c "-" then (true, r)
        else if Ascii.eqb c "+" then (false, r)
        else (false, s)
    | EmptyString => (false, s)
    end in
  let magnitude :=
    match body with
    | String c (String x r) =>
        if Ascii.eqb c "0" && (Ascii.eqb x "x" || Ascii.eqb x "X")
        then hexDigitsFrom None r
        else decimalDigitsOf body
    | _ => decimalDigitsOf body
    end in
  match magnitude with
  | Some m => Some (if negative then - m else m)
  | None => None
  end.

Section WithHost.

Variable h : Host.

Definition revive (r : Stored.t) : RentalRecord.t :=
  RentalRecord.mk (Stored.id r) (Stored.station r)
    (keyOf (Stored.stationKey r) (Stored.station r))
    (Stored.group r)
    (keyOf (Stored.groupKey r) (Stored.group r))
    (dateParse h (Stored.date r))
    (Stored.monthKey r) (Stored.displayDate r) (Stored.day r) (Stored.days r)
    (Stored.charge r) (Stored.year r).

(** The third step of [fetchYearData]; [None] stands for the dataset whose
    year is NaN, which a record of the model cannot hold. *)
Definition reconstruct (records : list Stored.t) (year : string)
    : option ProcessedData.t :=
  let recordsWithDates := map revive records in
  match parseInt year with
  | Some y =>
      Some (ProcessedData.mk recordsWithDates
              (index RentalRecord.station recordsWithDates)
              (index RentalRecord.group recordsWithDates)
              (index RentalRecord.monthKey recordsWithDates)
              (length recordsWithDates) y)
  | None => None
  end.

Variable verify : string -> bool.

(** [fetch(url, { headers: headers() })] *)
Definition get (browser : Client.Browser) : Request.t :=
  Request.mk "GET" (Client.xsrfCookie browser) (Some (Client.xsrfHeader browser))
    (Client.jwtCookie browser) None None None.

(** [fetchYearData]: the link, the download, the reconstruction.
    [download] tells what the object of a name holds, [None] when the body
    is not JSON; the result is [None] when the function throws, and also
    when the year it is asked for reads as NaN (see [reconstruct]). *)
Definition fetchYearData (browser : Client.Browser) (env : Outside) (b : Bucket)
    (download : string -> option (list Stored.t)) (year : string)
    : option ProcessedData.t :=
  match fst (serve verify (YearRecords year) env b (get browser)) with
  | ReadUrl url =>
      match download (name url) with
      | Some records => reconstruct records year
      | None => None
      end
  | _ => None
  end.

End WithHost.

(** Every fetch ends with a dataset of the year it was asked for, which is
    what [fetchYearData] delivers. *)
Fixpoint fetchedByYear (st : Registry.State) (evs : list Registry.Event) : Prop :=
  match evs with
  | [] => True
  | ev :: rest =>
      match ev with
      | Registry.FetchResolves p data =>
          match Registry.fetches st !! p with
          | Some year => ProcessedData.year data = year
          | None => True
          end
      | _ => True
      end
      /\ fetchedByYear (Registry.step st ev) rest
  end.

End Fetch.

(* ===================================================================== *)
(** * The filter of the first dashboard ([components/Dashboard.tsx]) *)
(* ===================================================================== *)

Module FirstDashboard.
Import JS Comparison.

Section Selection.

Variable selectedStation : string.
Variable selectedGroups : list string.
Variable selectedDateRange : DateRangeType.

Definition stationMatch (r : Legacy.RentalRecord) : bool :=
  String.eqb selectedStation "All" || String.eqb (Legacy.station r) selectedStation.

Definition groupMatch (r : Legacy.RentalRecord) : bool :=
  existsb (String.eqb "All") selectedGroups
  || existsb (String.eqb (Legacy.group r)) selectedGroups.

Definition dateMatch (r : Legacy.RentalRecord) : bool :=
  let day := Legacy.day r in
  match selectedDateRange with
  | All => true
  | Range_1_10 => (1 <=? day) && (day <=? 10)
  | Range_11_20 => (11 <=? day) && (day <=? 20)
  | Range_21_End => 21 <=? day
  end.

(** [filteredRecords] *)
Definition filteredRecords (data : Legacy.ProcessedData) : list Legacy.RentalRecord :=
  List.filter (fun r => stationMatch r && groupMatch r && dateMatch r)
    (Legacy.records data).

End Selection.

End FirstDashboard.

(* ===================================================================== *)
(** * The CSRF token of the client ([getCsrfToken], [headers]) *)
(* ===================================================================== *)

Module Cookie.
Import JS.

(** [s.split('; ')] *)
Fixpoint splitRows (s : string) : list string :=
  match s with
  | EmptyString => [EmptyString]
  | String c r =>
      let more :=
        match splitRows r with
        | p :: ps => String c p :: ps
        | [] => [String c EmptyString]
        end in
      if Ascii.eqb c ";" then
        match r with
        | String c' r' => if Ascii.eqb c' " " then EmptyString :: splitRows r' else more
        | EmptyString => more
        end
      else more
  end.

(** [getCsrfToken], on the text of [document.cookie]. *)
Definition getCsrfToken (cookie : string) : option string :=
  match find (fun row => startsWith row "XSRF-TOKEN=") (splitRows cookie) with
  | Some row => nth_error (split "=" row) 1
  | None => None
  end.

(** The header [X-XSRF-TOKEN] of [headers()]: [getCsrfToken() || '']. *)
Definition xsrfHeader (cookie : string) : string :=
  match getCsrfToken cookie with
  | Some token => token
  | None => EmptyString
  end.

(** [document.cookie] for the cookies that scripts can see, each written
    [name=value]. *)
Definition documentCookie (rows : list string) : string := Worker.join "; " rows.

End Cookie.
(* ===================================================================== *)
(** * Vocabulary for the content hash *)
(* ===================================================================== *)

Module HashTerms.
Import JS Worker Spec.

(** Two numbers that are the same value to JavaScript: equal under [===],
    which equates the two zeros, or both NaN. *)
Definition sameNumber (x y : float) : Prop :=
  (x =? y)%float = true \/ (is_nan x = true /\ is_nan y = true).

(** Two numbers that [JSON.stringify] writes alike: the same value, or two
    numbers that are not finite, all of which it writes [null]. *)
Definition writtenAlike (x y : float) : Prop :=
  sameNumber x y \/ (is_finite x = false /\ is_finite y = false).

(** Two records that agree field by field, the two numbers up to
    [number]. *)
Definition agreeUpTo (number : float -> float -> Prop) (r1 r2 : RentalRecord.t)
    : Prop :=
  RentalRecord.id r1 = RentalRecord.id r2
  /\ RentalRecord.station r1 = RentalRecord.station r2
  /\ RentalRecord.stationKey r1 = RentalRecord.stationKey r2
  /\ RentalRecord.group r1 = RentalRecord.group r2
  /\ RentalRecord.groupKey r1 = RentalRecord.groupKey r2
  /\ RentalRecord.date r1 = RentalRecord.date r2
  /\ RentalRecord.monthKey r1 = RentalRecord.monthKey r2
  /\ RentalRecord.displayDate r1 = RentalRecord.displayDate r2
  /\ RentalRecord.day r1 = RentalRecord.day r2
  /\ number (RentalRecord.days r1) (RentalRecord.days r2)
  /\ number (RentalRecord.charge r1) (RentalRecord.charge r2)
  /\ RentalRecord.year r1 = RentalRecord.year r2.

(** Semantically identical records, and records that differ at most in
    which non-finite number a duration or a charge is. *)
Definition identical : RentalRecord.t -> RentalRecord.t -> Prop :=
  agreeUpTo sameNumber.

Definition indistinct : RentalRecord.t -> RentalRecord.t -> Prop :=
  agreeUpTo writtenAlike.

(** A record with another charge. *)
Definition withCharge (r : RentalRecord.t) (charge : float) : RentalRecord.t :=
  RentalRecord.mk (RentalRecord.id r) (RentalRecord.station r)
    (RentalRecord.stationKey r) (RentalRecord.group r) (RentalRecord.groupKey r)
    (RentalRecord.date r) (RentalRecord.monthKey r) (RentalRecord.displayDate r)
    (RentalRecord.day r) (RentalRecord.days r) charge (RentalRecord.year r).

(** The characters of a number as [Number::toString] writes it, and those
    of any token that is not a string: a number or [null]. *)
Definition numberChar (c : ascii) : bool :=
  isDigit c || Ascii.eqb c "." || Ascii.eqb c "e" || Ascii.eqb c "+"
  || Ascii.eqb c "-".

Definition tokenChar (c : ascii) : bool :=
  numberChar c || Ascii.eqb c "n" || Ascii.eqb c "u" || Ascii.eqb c "l".

Fixpoint everyChar (p : ascii -> bool) (s : string) : bool :=
  match s with
  | EmptyString => true
  | String c r => p c && everyChar p r
  end.

(** The text does not go on with a character of the class. *)
Definition stops (p : ascii -> bool) (s : string) : bool :=
  match s with
  | EmptyString => true
  | String c _ => negb (p c)
  end.

Definition positiveFinite (x : float) : bool := is_finite x && (0 <? x)%float.

(** What the standard fixes of the two conversions that [JSON.stringify]
    uses.  [Number::toString] writes a positive finite number with digits,
    a point, an exponent mark and signs only, starting with a digit, never
    as ["0"], and so that the number can be read back; [toISOString] tells
    the time value of a valid date. *)
Definition conforming (h : Host) : Prop :=
  (forall x, positiveFinite x = true ->
     everyChar numberChar (digitsOf h x) = true
     /\ (exists c r, digitsOf h x = String c r /\ isDigit c = true)
     /\ digitsOf h x <> "0")
  /\ (forall x y, positiveFinite x = true -> positiveFinite y = true ->
        digitsOf h x = digitsOf h y -> x = y)
  /\ (forall t1 t2,
        toISOString h (DateAt t1) = toISOString h (DateAt t2) -> t1 = t2).

(** Two hosts with the same standard conversions and the same digest; they
    may differ in locale and in their date parsers. *)
Definition agree (h1 h2 : Host) : Prop :=
  (forall x, digitsOf h1 x = digitsOf h2 x)
  /\ (forall d, toISOString h1 d = toISOString h2 d)
  /\ (forall text, sha256Hex h1 text = sha256Hex h2 text).

(** Reading a JSON string back: the text after the opening quote, up to the
    closing one, with the escapes of [QuoteJSONString] undone; the result is
    the string and the text that follows it. *)
Definition hexOf (c : ascii) : N :=
  if isDigit c then (code c - 48)%N else (code c - 87)%N.

Definition unescapeLetter (x : ascii) : ascii :=
  if Ascii.eqb x "b" then ascii_of_N 8
  else if Ascii.eqb x "t" then ascii_of_N 9
  else if Ascii.eqb x "n" then ascii_of_N 10
  else if Ascii.eqb x "f" then ascii_of_N 12
  else if Ascii.eqb x "r" then ascii_of_N 13
  else x.

Definition push (c : ascii) (read : option (string * string))
    : option (string * string) :=
  match read with
  | Some (text, rest) => Some (String c text, rest)
  | None => None
  end.

Fixpoint readString (s : string) : option (string * string) :=
  match s with
  | EmptyString => None
  | String c r =>
      if Ascii.eqb c quoteChar then Some (EmptyString, r)
      else if Ascii.eqb c backslash then
        match r with
        | String x r1 =>
            if Ascii.eqb x "u" then
              match r1 with
              | String _ (String _ (String hi (String lo r2))) =>
                  push (ascii_of_N (16 * hexOf hi + hexOf lo)) (readString r2)
              | _ => None
              end
            else push (unescapeLetter x) (readString r1)
        | EmptyString => None
        end
      else push c (readString r)
  end.

(** A host that writes a positive number by its binary mantissa and
    exponent, and a date by its time value; its digest is the text
    itself. *)
Definition plainDigits (x : float) : string :=
  match Prim2SF x with
  | S754_finite _ m e => intToString (Z.pos m) ++ "e" ++ intToString e
  | _ => "1"
  end.

Definition plainHost : Host :=
  {| digitsOf := plainDigits;
     dateToString := fun _ => "";
     dateParse := fun _ => InvalidDate;
     monthYearLabel := fun _ => "";
     toISOString := fun d => match d with DateAt t => intToString t | InvalidDate => "" end;
     sha256Hex := fun text => text |}.

(** Two tables that differ in one charge, a numeric cell that holds NaN in
    the one and Infinity in the other. *)
Definition chargeNaN : list Row :=
  [[("Station", VStr "ATH"); ("Check-out Date", VStr "05/03/2024");
    ("Days", VNum 2); ("Rental Charge", VNum nan)]].

Definition chargeInfinity : list Row :=
  [[("Station", VStr "ATH"); ("Check-out Date", VStr "05/03/2024");
    ("Days", VNum 2); ("Rental Charge", VNum infinity)]].

(** Two records that differ in their charge, 100 against 101. *)
Definition charged (charge : float) : RentalRecord.t :=
  withCharge (sampleRecord 0 "ATH" "Economy" 2024 0 5 2 100) charge.

End HashTerms.

(* ===================================================================== *)
(** * Properties *)
(* ===================================================================== *)

(** ** The variance rule *)

Module ComparisonFacts.
Import JS Comparison.

(** C1: [calcVariance] gives the undefined marker [None] when the comparison
    side has no data; [Some 0] when the comparison value is zero, the primary
    side has data and its value is zero too; [None] for any other primary
    against a zero comparison; [None] when the comparison is present and not
    zero but the primary side has no data; and the signed fraction
    [(p - c) / c] otherwise.  The three metrics of a pair of metric sets are
    each put through this rule, and [calcVariance 12 10 true true] is
    [0.2]. *)
Theorem calcVariance_rules :
  (forall p c pHasData cHasData,
      (cHasData = false -> calcVariance p c pHasData cHasData = None)
      /\ (cHasData = true -> (c =? 0)%float = true -> pHasData = true ->
          (p =? 0)%float = true ->
          calcVariance p c pHasData cHasData = Some 0%float)
      /\ (cHasData = true -> (c =? 0)%float = true ->
          pHasData = false \/ (p =? 0)%float = false ->
          calcVariance p c pHasData cHasData = None)
      /\ (cHasData = true -> (c =? 0)%float = false -> pHasData = false ->
          calcVariance p c pHasData cHasData = None)
      /\ (cHasData = true -> (c =? 0)%float = false -> pHasData = true ->
          calcVariance p c pHasData cHasData = Some ((p - c) / c)%float))
  /\ (forall P C,
        VarianceSet.revenue (varianceOf P C)
          = calcVariance (MetricSet.revenue P) (MetricSet.revenue C)
              (MetricSet.hasData P) (MetricSet.hasData C)
        /\ VarianceSet.days (varianceOf P C)
          = calcVariance (MetricSet.days P) (MetricSet.days C)
              (MetricSet.hasData P) (MetricSet.hasData C)
        /\ VarianceSet.rate (varianceOf P C)
          = calcVariance (MetricSet.rate P) (MetricSet.rate C)
              (MetricSet.hasData P) (MetricSet.hasData C))
  /\ calcVariance 12 10 true true = Some 0.2%float
  /\ calcVariance 0 0 true true = Some 0%float
  /\ calcVariance 5 0 true true = None
  /\ calcVariance 12 10 true false = None
  /\ calcVariance 0 10 false true = None.
Proof.
  split; [| split; [| repeat split ]].
  - intros p c pHasData cHasData. unfold calcVariance.
    repeat split.
    + intros ->. reflexivity.
    + intros -> -> -> ->. reflexivity.
    + intros -> -> [-> | ->]; simpl; [reflexivity |].
      destruct pHasData; reflexivity.
    + intros -> -> ->. reflexivity.
    + intros -> -> ->. reflexivity.
  - intros P C. repeat split.
Qed.

End ComparisonFacts.

(** ** Facts about binary64 values *)

Module FloatFacts.
Import Spec.

#[local] Open Scope float_scope.

Lemma SFcompare_refl (f : spec_float) :
  isNaNSpec f = false -> SFcompare f f = Some Eq.
Proof.
  destruct f as [s | s | | s m e]; simpl; try discriminate; intros _.
  - reflexivity.
  - destruct s; reflexivity.
  - rewrite Z.compare_refl, Pos.compare_cont_refl. destruct s; reflexivity.
Qed.

Lemma is_nan_spec (x : float) : is_nan x = isNaNSpec (Prim2SF x).
Proof.
  unfold is_nan. rewrite FloatAxioms.eqb_spec. unfold SFeqb.
  destruct (isNaNSpec (Prim2SF x)) eqn:E.
  - destruct (Prim2SF x); try discriminate. reflexivity.
  - rewrite (SFcompare_refl _ E). reflexivity.
Qed.

Lemma is_nan_opp (x : float) : is_nan (- x) = is_nan x.
Proof.
  rewrite !is_nan_spec, opp_spec. destruct (Prim2SF x); reflexivity.
Qed.

Lemma is_nan_zero : is_nan 0 = false.
Proof. reflexivity. Qed.

(** A number that is not NaN and not at most zero is greater than zero. *)
Lemma positive_of_not_leb (x : float) :
  is_nan x = false -> (x <=? 0) = false -> (0 <? x) = true.
Proof.
  rewrite is_nan_spec, leb_spec, ltb_spec.
  change (Prim2SF 0) with (S754_zero false).
  unfold SFleb, SFltb.
  destruct (Prim2SF x) as [s | s | | s m e]; cbn; try discriminate;
    destruct s; cbn; congruence.
Qed.

Lemma not_leb_of_positive (x : float) : (0 <? x) = true -> (x <=? 0) = false.
Proof.
  rewrite leb_spec, ltb_spec.
  change (Prim2SF 0) with (S754_zero false).
  unfold SFleb, SFltb.
  destruct (Prim2SF x) as [s | s | | s m e]; cbn; try discriminate;
    destruct s; cbn; congruence.
Qed.

End FloatFacts.

(** ** The scalar parsers *)

Module ParserFacts.
Import JS Worker.

Lemma parseNumberText_not_nan (str : string) : is_nan (parseNumberText str) = false.
Proof.
  unfold parseNumberText.
  destruct (isEmpty str); [reflexivity |].
  set (neg := startsWith str "(" && endsWithChar str ")").
  set (num := parseFloat _).
  destruct (is_nan num) eqn:E; [reflexivity |].
  destruct neg; [rewrite FloatFacts.is_nan_opp |]; exact E.
Qed.

(** [parseNumber] never yields NaN unless it is handed NaN as a number. *)
Lemma parseNumber_not_nan (h : Host) (val : Value) :
  (forall x, val = VNum x -> is_nan x = false) ->
  is_nan (parseNumber h val) = false.
Proof.
  intros Hnum. destruct val; simpl;
    try (destruct (negb _); [reflexivity | apply parseNumberText_not_nan]).
  - reflexivity.
  - reflexivity.
  - apply Hnum. reflexivity.
  - apply parseNumberText_not_nan.
Qed.

(** C7: [parseNumber] is a total function; on text it never yields NaN, and
    text whose cleaned form [parseFloat] cannot read yields 0.  It maps
    ["1.234,56"] to 1234.56, ["54.11"] to 54.11, ["1.200"] to 1200, ["(42)"]
    to -42, and the empty text and ["abc"] to 0.  A value that is already a
    number is returned as it is. *)
Theorem parseNumber_table (h : Host) :
  parseNumber h (VStr "1.234,56") = 1234.56%float
  /\ parseNumber h (VStr "54.11") = 54.11%float
  /\ parseNumber h (VStr "1.200") = 1200%float
  /\ parseNumber h (VStr "(42)") = (-42)%float
  /\ parseNumber h (VStr "") = 0%float
  /\ parseNumber h (VStr "abc") = 0%float
  /\ (forall s, is_nan (parseNumber h (VStr s)) = false)
  /\ (forall s,
        let str := trim s in
        let inner :=
          if startsWith str "(" && endsWithChar str ")" then slice_1_m1 str else str in
        is_nan (parseFloat (normalizeSeparators inner)) = true ->
        parseNumber h (VStr s) = 0%float)
  /\ (forall x, parseNumber h (VNum x) = x).
Proof.
  do 6 (split; [vm_compute; reflexivity |]).
  split; [| split].
  - intros s. apply parseNumber_not_nan. discriminate.
  - intros s str inner Hnan. unfold parseNumber.
    destruct (negb (truthy (VStr s))); [reflexivity |].
    simpl toString. fold str. unfold parseNumberText.
    destruct (isEmpty str); [reflexivity |].
    fold inner. rewrite Hnan. reflexivity.
  - reflexivity.
Qed.

End ParserFacts.

(** ** Dates *)

Module DateFacts.
Import JS Worker.

Lemma digit_value_range (a : ascii) : isDigit a = true -> 0 <= digitValue a <= 9.
Proof.
  unfold isDigit, between, digitValue. intros H.
  apply andb_true_iff in H as [H1 H2].
  apply N.leb_le in H1, H2. lia.
Qed.

Lemma digit_not_space (a : ascii) : isDigit a = true -> isWhiteSpace a = false.
Proof.
  unfold isDigit, isWhiteSpace, between. intros H.
  apply andb_true_iff in H as [H1 H2].
  apply N.leb_le in H1, H2.
  repeat (apply orb_false_iff; split).
  - apply andb_false_iff. right. apply N.leb_gt. lia.
  - apply N.eqb_neq. lia.
  - apply N.eqb_neq. lia.
Qed.

Lemma separator_char (c : ascii) :
  (Ascii.eqb c "/" || Ascii.eqb c "-" || Ascii.eqb c ".") = true ->
  isWhiteSpace c = false /\ isDigit c = false.
Proof.
  intros H. repeat (apply orb_true_iff in H as [H | H]);
    apply Ascii.eqb_eq in H; subst c; split; reflexivity.
Qed.

Lemma trimEnd_cons (a : ascii) (r : string) :
  isWhiteSpace a = false -> trimEnd (String a r) = String a (trimEnd r).
Proof.
  intros H. simpl. rewrite H. destruct (trimEnd r); reflexivity.
Qed.

(** The first character of [trimEnd r], when there is one, is that of [r]. *)
Lemma trimEnd_head (b : ascii) (r : string) :
  trimEnd (String b r) = EmptyString
  \/ exists r', trimEnd (String b r) = String b r'.
Proof.
  simpl. destruct (trimEnd r).
  - destruct (isWhiteSpace b); [left | right; eexists]; reflexivity.
  - right. eexists. reflexivity.
Qed.

Lemma oneOrTwoDigits_trimEnd (s d r : string) :
  oneOrTwoDigits s = Some (d, r) ->
  oneOrTwoDigits (trimEnd s) = Some (d, trimEnd r).
Proof.
  destruct s as [| a s]; [discriminate |].
  unfold oneOrTwoDigits at 1.
  destruct (isDigit a) eqn:Ha; [| discriminate].
  rewrite (trimEnd_cons a s (digit_not_space a Ha)).
  destruct s as [| b s].
  - intros [= <- <-]. simpl. rewrite Ha. reflexivity.
  - destruct (isDigit b) eqn:Hb; intros [= <- <-].
    + rewrite (trimEnd_cons b s (digit_not_space b Hb)).
      simpl. rewrite Ha, Hb. reflexivity.
    + destruct (trimEnd_head b s) as [E | [r' E]]; rewrite E; simpl; rewrite Ha.
      * reflexivity.
      * rewrite Hb. reflexivity.
Qed.

Lemma separator_trimEnd (s r : string) :
  separator s = Some r -> separator (trimEnd s) = Some (trimEnd r).
Proof.
  destruct s as [| c s]; [discriminate |].
  unfold separator at 1.
  destruct (Ascii.eqb c "/" || Ascii.eqb c "-" || Ascii.eqb c ".") eqn:Hc;
    [| discriminate].
  intros [= <-].
  rewrite (trimEnd_cons c s (proj1 (separator_char c Hc))).
  simpl. rewrite Hc. reflexivity.
Qed.

Lemma fourDigits_trimEnd (s y : string) :
  fourDigits s = Some y -> fourDigits (trimEnd s) = Some y.
Proof.
  destruct s as [| a [| b [| c [| d s]]]]; try discriminate.
  unfold fourDigits at 1.
  destruct (isDigit a) eqn:Ha; [| discriminate].
  destruct (isDigit b) eqn:Hb; [| discriminate].
  destruct (isDigit c) eqn:Hc; [| discriminate].
  destruct (isDigit d) eqn:Hd; [| discriminate].
  intros [= <-].
  rewrite (trimEnd_cons a _ (digit_not_space a Ha)).
  rewrite (trimEnd_cons b _ (digit_not_space b Hb)).
  rewrite (trimEnd_cons c _ (digit_not_space c Hc)).
  rewrite (trimEnd_cons d _ (digit_not_space d Hd)).
  simpl. rewrite Ha, Hb, Hc, Hd. reflexivity.
Qed.

(** Text that matches the pattern still matches it, with the same groups,
    after [trim]. *)
Lemma dmyMatch_trim (s : string) (g : string * string * string) :
  dmyMatch s = Some g -> dmyMatch (trim s) = Some g.
Proof.
  intros H.
  assert (Hstart : trimStart s = s).
  { destruct s as [| a s]; [reflexivity |].
    unfold dmyMatch, oneOrTwoDigits in H.
    destruct (isDigit a) eqn:Ha; [| discriminate].
    simpl. rewrite (digit_not_space a Ha). reflexivity. }
  unfold trim. rewrite Hstart.
  unfold dmyMatch in *.
  destruct (oneOrTwoDigits s) as [[d r1] |] eqn:E1; [| discriminate].
  rewrite (oneOrTwoDigits_trimEnd _ _ _ E1).
  destruct (separator r1) as [r2 |] eqn:E2; [| discriminate].
  rewrite (separator_trimEnd _ _ E2).
  destruct (oneOrTwoDigits r2) as [[m r3] |] eqn:E3; [| discriminate].
  rewrite (oneOrTwoDigits_trimEnd _ _ _ E3).
  destruct (separator r3) as [r4 |] eqn:E4; [| discriminate].
  rewrite (separator_trimEnd _ _ E4).
  destruct (fourDigits r4) as [y |] eqn:E5; [| discriminate].
  rewrite (fourDigits_trimEnd _ _ E5). exact H.
Qed.

Lemma digitsValue_cons (acc : Z) (a : ascii) (s : string) :
  digitsValueFrom acc (String a s) = digitsValueFrom (10 * acc + digitValue a) s.
Proof. reflexivity. Qed.

Ltac read_digits :=
  unfold parseInt; cbn [trimStart];
  repeat match goal with
         | H : isWhiteSpace ?a = false |- context [isWhiteSpace ?a] => rewrite H
         end;
  cbn [span];
  repeat match goal with
         | H : isDigit ?a = true |- context [isDigit ?a] => rewrite H; cbn [span]
         end;
  cbn [isEmpty]; unfold digitsValue;
  rewrite ?digitsValue_cons; cbn [digitsValueFrom].

Lemma parseInt_oneOrTwoDigits (s d r : string) :
  oneOrTwoDigits s = Some (d, r) ->
  exists v, parseInt d = Some v /\ 0 <= v <= 99.
Proof.
  destruct s as [| a s]; [discriminate |].
  unfold oneOrTwoDigits.
  destruct (isDigit a) eqn:Ha; [| discriminate].
  pose proof (digit_value_range a Ha) as Ra.
  pose proof (digit_not_space a Ha) as Wa.
  destruct s as [| b s].
  - intros [= <- <-]. exists (digitValue a).
    read_digits. split; [f_equal |]; lia.
  - destruct (isDigit b) eqn:Hb; intros [= <- <-].
    + pose proof (digit_value_range b Hb) as Rb.
      exists (10 * digitValue a + digitValue b).
      read_digits. split; [f_equal |]; lia.
    + exists (digitValue a).
      read_digits. split; [f_equal |]; lia.
Qed.

Lemma parseInt_fourDigits (s y : string) :
  fourDigits s = Some y -> exists v, parseInt y = Some v /\ 0 <= v <= 9999.
Proof.
  destruct s as [| a [| b [| c [| d s]]]]; try discriminate.
  unfold fourDigits.
  destruct (isDigit a) eqn:Ha; [| discriminate].
  destruct (isDigit b) eqn:Hb; [| discriminate].
  destruct (isDigit c) eqn:Hc; [| discriminate].
  destruct (isDigit d) eqn:Hd; [| discriminate].
  cbn [andb]. intros [= <-].
  pose proof (digit_value_range a Ha). pose proof (digit_value_range b Hb).
  pose proof (digit_value_range c Hc). pose proof (digit_value_range d Hd).
  pose proof (digit_not_space a Ha) as Wa.
  exists (10 * (10 * (10 * digitValue a + digitValue b) + digitValue c) + digitValue d).
  read_digits. split; [f_equal |]; lia.
Qed.

(** [YearFromDay] meets its definition in the standard: the year of a day
    starts on or before it, and the next year after it. *)
Lemma YearFromDay_spec (d : Z) :
  DayFromYear (YearFromDay d) <= d < DayFromYear (YearFromDay d + 1).
Proof.
  unfold YearFromDay.
  set (y := 1970 + d * 400 / 146097).
  assert (Hy : 146097 * (y - 1970) <= d * 400 < 146097 * (y - 1970) + 146097).
  { subst y. pose proof (Z.div_mod (d * 400) 146097 ltac:(lia)).
    pose proof (Z.mod_pos_bound (d * 400) 146097 ltac:(lia)). lia. }
  clearbody y.
  destruct (d <? DayFromYear y) eqn:E1.
  - apply Z.ltb_lt in E1. replace (y - 1 + 1) with y by lia.
    split; [| exact E1].
    unfold DayFromYear in *. Z.div_mod_to_equations. lia.
  - apply Z.ltb_ge in E1.
    destruct (DayFromYear (y + 1) <=? d) eqn:E2.
    + apply Z.leb_le in E2. split; [exact E2 |].
      unfold DayFromYear in *. Z.div_mod_to_equations. lia.
    + apply Z.leb_gt in E2. lia.
Qed.

Lemma monthStart_range (y m : Z) : 0 <= m <= 11 -> 0 <= monthStart y m <= 335.
Proof.
  intros Hm. unfold monthStart, leapDay.
  assert (C : m = 0 \/ m = 1 \/ m = 2 \/ m = 3 \/ m = 4 \/ m = 5 \/ m = 6
              \/ m = 7 \/ m = 8 \/ m = 9 \/ m = 10 \/ m = 11) by lia.
  destruct (InLeapYear y);
    repeat (destruct C as [-> | C]; [vm_compute; split; discriminate |]);
    subst m; vm_compute; split; discriminate.
Qed.

Lemma findMonth_range (y w : Z) (fuel : nat) (k : Z) :
  k <= findMonth y w fuel k <= k + Z.of_nat fuel.
Proof.
  revert k. induction fuel as [| fuel IH]; intros k; cbn [findMonth]; [lia |].
  destruct (w <? monthStart y (k + 1)); [lia |].
  specialize (IH (k + 1)). lia.
Qed.

Lemma MonthFromDay_range (d : Z) : 0 <= MonthFromDay d <= 11.
Proof.
  unfold MonthFromDay.
  pose proof (findMonth_range (YearFromDay d) (d - DayFromYear (YearFromDay d)) 11 0).
  lia.
Qed.

(** The date built from a year of at most four digits and a month and a day
    of at most two digits lies well inside the range of time values. *)
Lemma newDate_valid (y m d : Z) :
  0 <= y <= 9999 -> 0 <= m <= 99 -> 0 <= d <= 99 ->
  exists t, newDate y (m - 1) d = DateAt t.
Proof.
  intros Hy Hm Hd. unfold newDate, TimeClip.
  set (yr := if (0 <=? y) && (y <=? 99) then 1900 + y else y).
  assert (Hyr : 100 <= yr <= 9999).
  { subst yr. destruct ((0 <=? y) && (y <=? 99)) eqn:E.
    - apply andb_true_iff in E as [E1 E2]. apply Z.leb_le in E1, E2. lia.
    - apply andb_false_iff in E as [E | E]; apply Z.leb_gt in E; lia. }
  clearbody yr.
  assert (B : Z.abs (MakeDay yr (m - 1) d * msPerDay) <= 8640000000000000).
  { unfold MakeDay, msPerDay.
    pose proof (monthStart_range (yr + (m - 1) / 12) ((m - 1) mod 12)
                  ltac:(pose proof (Z.mod_pos_bound (m - 1) 12); lia)) as Hs.
    set (ms := monthStart _ _) in *. clearbody ms.
    unfold DayFromYear. Z.div_mod_to_equations. lia. }
  apply Z.leb_le in B. rewrite B. eexists. reflexivity.
Qed.

(** The groups of a match are digit runs within the bounds of the pattern,
    and the date built from them is valid. *)
Lemma dmyMatch_valid (str d m y : string) :
  dmyMatch str = Some (d, m, y) ->
  exists y' m' d' t,
    parseInt y = Some y' /\ parseInt m = Some m' /\ parseInt d = Some d'
    /\ newDate y' (m' - 1) d' = DateAt t.
Proof.
  unfold dmyMatch.
  destruct (oneOrTwoDigits str) as [[d0 r1] |] eqn:E1; [| discriminate].
  destruct (separator r1) as [r2 |]; [| discriminate].
  destruct (oneOrTwoDigits r2) as [[m0 r3] |] eqn:E3; [| discriminate].
  destruct (separator r3) as [r4 |]; [| discriminate].
  destruct (fourDigits r4) as [y0 |] eqn:E5; [| discriminate].
  intros [= <- <- <-].
  destruct (parseInt_oneOrTwoDigits _ _ _ E1) as (d' & Hd & Rd).
  destruct (parseInt_oneOrTwoDigits _ _ _ E3) as (m' & Hm & Rm).
  destruct (parseInt_fourDigits _ _ E5) as (y' & Hy & Ry).
  destruct (newDate_valid y' m' d' Ry Rm Rd) as (t & Ht).
  exists y', m', d', t. auto.
Qed.

(** C10: text that starts with the day-month-year pattern always parses to
    a date, whatever the day and the month say: the date is the one
    [new Date(y, m - 1, d)] builds, where a day or a month outside the
    calendar rolls over (["31/02/2024"] is the 2nd of March 2024, and
    ["00/00/2024"] the 30th of November 2023).  [null] comes back only for
    an invalid [Date] and for text that neither matches the pattern nor is
    read by the engine's own parser (which the empty text never reaches). *)
Theorem parseDate_rolls_over (h : Host) :
  (forall s d m y,
      dmyMatch s = Some (d, m, y) ->
      exists y' m' d' t,
        parseInt y = Some y' /\ parseInt m = Some m' /\ parseInt d = Some d'
        /\ newDate y' (m' - 1) d' = DateAt t
        /\ parseDate h (VStr s) = Some t)
  /\ (exists t,
        parseDate h (VStr "31/02/2024") = Some t
        /\ getFullYear (DateAt t) = Some 2024
        /\ getMonth (DateAt t) = Some 2
        /\ getDate (DateAt t) = Some 2)
  /\ (exists t,
        parseDate h (VStr "00/00/2024") = Some t
        /\ getFullYear (DateAt t) = Some 2023
        /\ getMonth (DateAt t) = Some 10
        /\ getDate (DateAt t) = Some 30)
  /\ (forall d, parseDate h (VDate d) = None <-> d = InvalidDate)
  /\ (forall s,
        parseDate h (VStr s) = None ->
        dmyMatch (trim s) = None
        /\ (s = EmptyString \/ dateParse h (trim s) = InvalidDate)).
Proof.
  split; [| split; [| split; [| split]]].
  - intros s d m y H.
    pose proof (dmyMatch_trim s _ H) as Ht.
    destruct (dmyMatch_valid _ _ _ _ Ht) as (y' & m' & d' & t & Hy & Hm & Hd & Hn).
    exists y', m', d', t. repeat (split; [assumption |]).
    unfold parseDate.
    assert (Hs : truthy (VStr s) = true) by (destruct s; [discriminate | reflexivity]).
    rewrite Hs. cbn [negb toString]. rewrite Ht, Hy, Hm, Hd, Hn. reflexivity.
  - eexists. split; [vm_compute; reflexivity |]. vm_compute. auto.
  - eexists. split; [vm_compute; reflexivity |]. vm_compute. auto.
  - intros d. destruct d; simpl; split; congruence.
  - intros s. unfold parseDate.
    destruct s as [| a s]; [intros _; split; [reflexivity | left; reflexivity] |].
    cbn [truthy isEmpty negb toString].
    destruct (dmyMatch (trim (String a s))) as [[[d m] y] |] eqn:E.
    + destruct (dmyMatch_valid _ _ _ _ E) as (y' & m' & d' & t & Hy & Hm & Hd & Hn).
      rewrite Hy, Hm, Hd, Hn. discriminate.
    + intros H. split; [reflexivity | right].
      destruct (dateParse h (trim (String a s))); [reflexivity | discriminate].
Qed.

End DateFacts.

(** ** Ingestion *)

Module IngestFacts.
Import JS Worker Spec.

Section WithHost.

Variable h : Host.

Lemma forEach_records (cols : Columns) (data : list Row) (index : nat) (st : Acc) :
  records (forEachFrom (processRow h cols) index data st)
  = (records st ++ collected h cols index data)%list.
Proof.
  revert index st. induction data as [| row rest IH]; intros index st; simpl.
  - rewrite app_nil_r. reflexivity.
  - rewrite IH. unfold processRow.
    destruct (makeRecord h cols row index) as [r |]; simpl; [| reflexivity].
    rewrite <- app_assoc. reflexivity.
Qed.

(** Only the row of index 0 can set [dataYear]. *)
Lemma forEach_dataYear_later (cols : Columns) (data : list Row) (index : nat) (st : Acc) :
  dataYear (forEachFrom (processRow h cols) (S index) data st) = dataYear st.
Proof.
  revert index st. induction data as [| row rest IH]; intros index st; simpl;
    [reflexivity |].
  rewrite IH. unfold processRow.
  destruct (makeRecord h cols row (S index)); reflexivity.
Qed.

Lemma records_collected (data : list Row) :
  ProcessedData.records (processRawData h data) = collected h (columnsOf data) 0 data.
Proof.
  destruct data as [| firstRow rest]; [reflexivity |].
  unfold processRawData, columnsOf. cbn [ProcessedData.records hd].
  rewrite forEach_records. reflexivity.
Qed.

(** The dataset's year is that of the record of row 0, and 0 when row 0
    is skipped, whatever the later rows hold. *)
Lemma year_from_row_zero (firstRow : Row) (rest : list Row) :
  ProcessedData.year (processRawData h (firstRow :: rest))
  = match makeRecord h (resolveColumns firstRow) firstRow 0 with
    | Some r => RentalRecord.year r
    | None => 0
    end.
Proof.
  unfold processRawData. cbn [ProcessedData.year forEachFrom].
  rewrite forEach_dataYear_later. unfold processRow.
  destruct (makeRecord h (resolveColumns firstRow) firstRow 0); reflexivity.
Qed.

(** What a record says about the row it was built from. *)
Lemma makeRecord_Some (cols : Columns) (row : Row) (index : nat) (r : RentalRecord.t) :
  makeRecord h cols row index = Some r ->
  requiredMissing cols = false
  /\ RentalRecord.id r = index
  /\ RentalRecord.station r = stationOf h cols row
  /\ isEmpty (stationOf h cols row) = false
  /\ (exists t, dateOf h cols row = Some t
                /\ RentalRecord.date r = DateAt t
                /\ RentalRecord.year r = YearFromDay (Day t)
                /\ RentalRecord.day r = DateFromDay (Day t))
  /\ RentalRecord.days r = daysOf h cols row
  /\ (daysOf h cols row <=? 0)%float = false
  /\ RentalRecord.charge r = chargeOf h cols row.
Proof.
  unfold makeRecord.
  destruct (requiredMissing cols); [discriminate |].
  destruct (isEmpty (stationOf h cols row)) eqn:Es; [discriminate |].
  destruct (dateOf h cols row) as [t |]; [| discriminate].
  destruct (daysOf h cols row <=? 0)%float eqn:Ed; [discriminate |].
  intros [= <-]. cbn. repeat split; try reflexivity.
  exists t. repeat split; reflexivity.
Qed.

Lemma makeRecord_defective (cols : Columns) (row : Row) (index : nat) :
  defective h cols row = true -> makeRecord h cols row index = None.
Proof.
  unfold defective, makeRecord. intros H.
  destruct (requiredMissing cols); [reflexivity |].
  destruct (isEmpty (stationOf h cols row)); [reflexivity |].
  destruct (dateOf h cols row); [| reflexivity].
  destruct (daysOf h cols row <=? 0)%float; [reflexivity | discriminate].
Qed.

(** Every collected record comes from the row whose index it carries. *)
Lemma collected_In (cols : Columns) (data : list Row) (index : nat) (r : RentalRecord.t) :
  In r (collected h cols index data) ->
  exists row,
    nth_error data (RentalRecord.id r - index) = Some row
    /\ (index <= RentalRecord.id r)%nat
    /\ makeRecord h cols row (RentalRecord.id r) = Some r.
Proof.
  revert index. induction data as [| row rest IH]; intros index; simpl; [tauto |].
  intros Hin.
  assert (Hrest : In r (collected h cols (S index) rest) ->
                  exists row0,
                    nth_error (row :: rest) (RentalRecord.id r - index) = Some row0
                    /\ (index <= RentalRecord.id r)%nat
                    /\ makeRecord h cols row0 (RentalRecord.id r) = Some r).
  { intros Hr. destruct (IH _ Hr) as (row0 & Hn & Hle & Hm).
    exists row0. replace (RentalRecord.id r - index)%nat
      with (S (RentalRecord.id r - S index)) by lia.
    repeat split; [exact Hn | lia | exact Hm]. }
  destruct (makeRecord h cols row index) as [r0 |] eqn:E; [| auto].
  destruct Hin as [<- | Hin]; [| auto].
  destruct (makeRecord_Some _ _ _ _ E) as (_ & Hid & _).
  exists row. rewrite Hid, Nat.sub_diag. repeat split; [lia | exact E].
Qed.

Lemma get_defined (row : Row) (key : string) :
  forallb (fun kv => cellDefined (snd kv)) row = true ->
  cellDefined (get row key) = true.
Proof.
  intros Hrow. unfold get.
  destruct (find (fun kv => String.eqb (fst kv) key) row) as [kv |] eqn:E;
    [| reflexivity].
  apply find_some in E as [Hin _].
  rewrite forallb_forall in Hrow. exact (Hrow kv Hin).
Qed.

Lemma daysOf_not_nan (cols : Columns) (row : Row) :
  forallb (fun kv => cellDefined (snd kv)) row = true ->
  is_nan (daysOf h cols row) = false.
Proof.
  intros Hrow. unfold daysOf.
  apply ParserFacts.parseNumber_not_nan. intros x Hx.
  pose proof (get_defined row (keyOr (daysKey cols)) Hrow) as Hd.
  rewrite Hx in Hd. simpl in Hd. apply negb_true_iff in Hd. exact Hd.
Qed.

(** When a required column is missing no row yields a record. *)
Lemma collected_missing (cols : Columns) (data : list Row) (index : nat) :
  requiredMissing cols = true -> collected h cols index data = [].
Proof.
  intros Hm. revert index. induction data as [| row rest IH]; intros index; simpl;
    [reflexivity |].
  unfold makeRecord. rewrite Hm. apply IH.
Qed.

Lemma forEach_missing (cols : Columns) (data : list Row) (index : nat) (st : Acc) :
  requiredMissing cols = true ->
  forEachFrom (processRow h cols) index data st = st.
Proof.
  intros Hm. revert index st. induction data as [| row rest IH]; intros index st;
    simpl; [reflexivity |].
  unfold processRow at 2, makeRecord. rewrite Hm. apply IH.
Qed.

Lemma legacy_forEach_missing (cols : Columns) (data : list Row) (index : nat)
    (st : Legacy.Acc) :
  requiredMissing cols = true ->
  forEachFrom (Legacy.processRow h cols) index data st = st.
Proof.
  intros Hm. revert index st. induction data as [| row rest IH]; intros index st;
    simpl; [reflexivity |].
  unfold Legacy.processRow at 2. rewrite Hm. apply IH.
Qed.

End WithHost.

(** In a table whose numeric cells hold numbers, not NaN, every record of
    the ingested dataset comes from the row whose index it carries, and
    that row has a station that is not blank, a date that parsed and a
    duration above zero, all three carried into the record; a row with a
    blank station, an unparseable date or a duration of zero or less has no
    record; the records are exactly those of the accepted rows, in order,
    and [totalRecords] is their number. *)
Theorem ingested_records_valid (h : Host) (data : list Row) :
  numbersDefined data = true ->
  let processed := processRawData h data in
  let cols := columnsOf data in
  (forall r, In r (ProcessedData.records processed) ->
     exists row t,
       nth_error data (RentalRecord.id r) = Some row
       /\ RentalRecord.station r = stationOf h cols row
       /\ isEmpty (RentalRecord.station r) = false
       /\ dateOf h cols row = Some t
       /\ RentalRecord.date r = DateAt t
       /\ RentalRecord.days r = daysOf h cols row
       /\ (0 <? RentalRecord.days r)%float = true)
  /\ (forall i row,
        nth_error data i = Some row ->
        defective h cols row = true ->
        forall r, In r (ProcessedData.records processed) -> RentalRecord.id r <> i)
  /\ ProcessedData.records processed = collected h cols 0 data
  /\ ProcessedData.totalRecords processed = length (collected h cols 0 data).
Proof.
  intros Hnum processed cols.
  assert (Hrec : ProcessedData.records processed = collected h cols 0 data)
    by apply records_collected.
  assert (Hfrom : forall r, In r (ProcessedData.records processed) ->
            exists row, nth_error data (RentalRecord.id r) = Some row
                        /\ makeRecord h cols row (RentalRecord.id r) = Some r).
  { intros r Hin. rewrite Hrec in Hin.
    destruct (collected_In h _ _ _ _ Hin) as (row & Hn & _ & Hm).
    rewrite Nat.sub_0_r in Hn. eauto. }
  repeat split.
  - intros r Hin. destruct (Hfrom r Hin) as (row & Hn & Hm).
    destruct (makeRecord_Some h _ _ _ _ Hm)
      as (_ & _ & Hs & Hne & (t & Hd & Hdate & _) & Hdays & Hpos & _).
    exists row, t. repeat split; try assumption.
    + rewrite Hs. exact Hne.
    + rewrite Hdays. apply FloatFacts.positive_of_not_leb; [| exact Hpos].
      apply daysOf_not_nan.
      unfold numbersDefined in Hnum. rewrite forallb_forall in Hnum.
      apply Hnum. eapply nth_error_In. exact Hn.
  - intros i row Hn Hdef r Hin Hid.
    destruct (Hfrom r Hin) as (row' & Hn' & Hm).
    rewrite Hid, Hn in Hn'. injection Hn' as <-.
    rewrite (makeRecord_defective h _ _ _ Hdef) in Hm. discriminate.
  - exact Hrec.
  - subst processed. destruct data as [| firstRow rest]; [reflexivity |].
    unfold processRawData. cbn [ProcessedData.totalRecords].
    rewrite forEach_records. reflexivity.
Qed.

(** The sample table meets the hypothesis: its fourth row, of zero days, is
    the only one without a record. *)
Lemma ingested_records_valid_witness :
  numbersDefined sampleTable = true
  /\ forall h,
       map RentalRecord.id (ProcessedData.records (processRawData h sampleTable))
         = [0; 1; 2]%nat
       /\ ProcessedData.totalRecords (processRawData h sampleTable) = 3%nat.
Proof.
  split; [reflexivity |].
  intros h.
  destruct (ingested_records_valid h sampleTable eq_refl) as (_ & _ & Hrec & Htot).
  rewrite Hrec, Htot. split; vm_compute; reflexivity.
Defined.

(** C6 (not met by the code): every record is meant to have a duration
    above zero.  [processRawData] drops a row under the test [days <= 0],
    which NaN does not meet, and [parseNumber] hands a numeric cell on as it
    is, turning NaN into 0 for text cells only.  In the table whose first
    three rows have a blank station, no date and a duration of zero, and
    whose last row has a numeric duration cell holding NaN, the three are
    dropped and the last row is ingested: the dataset has one record, of
    station "ATH" and with a valid date, whose duration is NaN, neither
    above zero nor at most zero, and [totalRecords] is 1. *)
Theorem nan_duration_is_ingested (h : Host) :
  let processed := processRawData h durationNaN in
  map RentalRecord.id (ProcessedData.records processed) = [3%nat]
  /\ map RentalRecord.station (ProcessedData.records processed) = ["ATH"]
  /\ map RentalRecord.date (ProcessedData.records processed) = [newDate 2024 2 5]
  /\ map (fun r => is_nan (RentalRecord.days r)) (ProcessedData.records processed)
     = [true]
  /\ map (fun r => (0 <? RentalRecord.days r)%float) (ProcessedData.records processed)
     = [false]
  /\ map (fun r => (RentalRecord.days r <=? 0)%float) (ProcessedData.records processed)
     = [false]
  /\ ProcessedData.totalRecords processed = 1%nat.
Proof.
  cbv zeta.
  split; [vm_compute; reflexivity |]. split; [vm_compute; reflexivity |].
  split; [vm_compute; reflexivity |]. split; [vm_compute; reflexivity |].
  split; [vm_compute; reflexivity |]. split; [vm_compute; reflexivity |].
  vm_compute; reflexivity.
Qed.

(** C5 (not met by the code): the dataset's year is meant to be the year of
    the first accepted record.  [processRawData] assigns it under the test
    [index === 0], that is from row 0 alone: in the table whose first row is
    skipped for its blank station, the only record is row 1, of 2024, and the
    dataset's year stays at 0. *)
Theorem year_zero_when_first_row_skipped (h : Host) :
  map RentalRecord.id (ProcessedData.records (processRawData h firstRowSkipped)) = [1%nat]
  /\ map RentalRecord.year (ProcessedData.records (processRawData h firstRowSkipped))
     = [2024]
  /\ ProcessedData.year (processRawData h firstRowSkipped) = 0.
Proof.
  repeat split; vm_compute; reflexivity.
Qed.

(** A table without a station column is ingested without any error: the
    worker answers [SUCCESS], with the empty dataset. *)
Lemma missing_column_is_not_an_error :
  requiredMissing (columnsOf tableWithoutStation) = true
  /\ (forall h, onmessage h (Readable tableWithoutStation)
                = SUCCESS noData (hashHex h []))
  /\ (forall h message, onmessage h (Readable tableWithoutStation) <> ERROR message).
Proof.
  split; [reflexivity |]. split.
  - intros h. reflexivity.
  - intros h message. discriminate.
Qed.

(** C4, as the code has it: when the first row does not resolve the
    station, date, duration or charge column, every row is skipped and no
    error is raised: [processRawData] returns the empty dataset (no records,
    [totalRecords] 0, year 0) and the worker answers [SUCCESS] with it; the
    first upload flow then reports its one error for an empty result, "No
    valid records found in the uploaded file.", and keeps the dataset it
    had, while the registry flow stores the empty dataset it is handed
    under year 0. *)
Theorem missing_column_yields_empty_dataset
    (h : Host) (firstRow : Row) (rest : list Row) :
  requiredMissing (resolveColumns firstRow) = true ->
  processRawData h (firstRow :: rest) = noData
  /\ onmessage h (Readable (firstRow :: rest)) = SUCCESS noData (hashHex h [])
  /\ (forall st,
        Legacy.handleFileUpload h st (Readable (firstRow :: rest))
        = Legacy.mkApp (Legacy.data st) Legacy.UploadStatus.error
            (Some "No valid records found in the uploaded file."))
  /\ (forall st,
        Registry.datasetRegistry (Registry.handleLocalFileUpload st noData) !! 0
        = Some noData).
Proof.
  intros Hm.
  assert (Hp : processRawData h (firstRow :: rest) = noData).
  { unfold processRawData. rewrite (forEach_missing h _ _ _ _ Hm). reflexivity. }
  split; [exact Hp |]. split; [| split].
  - unfold onmessage. rewrite Hp. reflexivity.
  - intros st. unfold Legacy.handleFileUpload, Legacy.parseExcelFile,
      Legacy.processRawData.
    rewrite (legacy_forEach_missing h _ _ _ _ Hm). reflexivity.
  - intros st. apply lookup_insert_eq.
Qed.

Lemma missing_column_yields_empty_dataset_witness :
  requiredMissing (columnsOf tableWithoutStation) = true
  /\ forall h, processRawData h tableWithoutStation = noData.
Proof.
  split; [reflexivity |].
  intros h.
  exact (proj1 (missing_column_yields_empty_dataset h
                  (hd [] tableWithoutStation) (tl tableWithoutStation) eq_refl)).
Defined.

(** The two zeros of binary64 are different values. *)
Lemma zero_signs_differ : 0%float <> (-0)%float.
Proof.
  intros H. apply (f_equal (fun x => (0 <? 1 / x)%float)) in H.
  vm_compute in H. discriminate.
Qed.

(** Two ingestions whose records differ in one charge, 0 against -0 (read
    from ["0"] and from the accounting form ["(0)"]), report the same hash,
    whatever the digest. *)
Lemma hash_blind_to_sign_of_zero :
  (forall h, map RentalRecord.charge
               (ProcessedData.records (processRawData h chargeZero)) = [0%float])
  /\ (forall h, map RentalRecord.charge
                  (ProcessedData.records (processRawData h chargeMinusZero))
                = [(-0)%float])
  /\ (forall h, ProcessedData.records (processRawData h chargeZero)
                <> ProcessedData.records (processRawData h chargeMinusZero))
  /\ (forall h, ingestHash h chargeZero = ingestHash h chargeMinusZero).
Proof.
  assert (H0 : forall h, map RentalRecord.charge
             (ProcessedData.records (processRawData h chargeZero)) = [0%float])
    by (intros h; vm_compute; reflexivity).
  assert (H1 : forall h, map RentalRecord.charge
             (ProcessedData.records (processRawData h chargeMinusZero)) = [(-0)%float])
    by (intros h; vm_compute; reflexivity).
  split; [exact H0 | split; [exact H1 | split]].
  - intros h E. specialize (H0 h). specialize (H1 h).
    rewrite E, H1 in H0. apply (f_equal (hd 0%float)) in H0.
    apply zero_signs_differ. symmetry. exact H0.
  - intros h. unfold ingestHash, hashHex. f_equal.
Qed.

(** The hash is the digest of the JSON text of the record sequence and of
    nothing else, so ingestions that yield the same records, or records
    with the same JSON text, report the same hash, whatever the encoding of
    the cells they were read from (a table given in text cells and in
    number cells); and two ingestions that report different hashes have
    different JSON texts. *)
Theorem hash_determined_by_serialization (h : Host) :
  (forall data,
      onmessage h (Readable data)
      = SUCCESS (processRawData h data)
          (sha256Hex h (JSON_stringify h (ProcessedData.records (processRawData h data)))))
  /\ (forall data1 data2,
        ProcessedData.records (processRawData h data1)
        = ProcessedData.records (processRawData h data2) ->
        ingestHash h data1 = ingestHash h data2)
  /\ (forall records1 records2,
        JSON_stringify h records1 = JSON_stringify h records2 ->
        hashHex h records1 = hashHex h records2)
  /\ (forall records1 records2,
        hashHex h records1 <> hashHex h records2 ->
        JSON_stringify h records1 <> JSON_stringify h records2)
  /\ ProcessedData.records (processRawData h asText)
     = ProcessedData.records (processRawData h asNumbers)
  /\ ingestHash h asText = ingestHash h asNumbers.
Proof.
  split; [| split; [| split; [| split; [| split]]]].
  - intros data. reflexivity.
  - intros data1 data2 E. unfold ingestHash. rewrite E. reflexivity.
  - intros records1 records2 E. unfold hashHex. rewrite E. reflexivity.
  - intros records1 records2 Hne E. apply Hne. unfold hashHex. rewrite E. reflexivity.
  - reflexivity.
  - unfold ingestHash. f_equal.
Qed.

End IngestFacts.

(** ** Aggregation *)

Module AggregationFacts.
Import JS Comparison Spec.

Lemma rejectedByStation_spec (station : string) (r : RentalRecord.t) :
  stationNamed station = true ->
  rejectedByStation station r = negb (stationPasses station r).
Proof.
  unfold stationNamed, rejectedByStation, targetStationKey, stationPasses.
  destruct (String.eqb station "All"); [reflexivity |].
  cbn [orb]. intros ->. reflexivity.
Qed.

Lemma key_in_set (k : string) (f : string -> string) (l : list string) :
  bool_decide (k ∈ (list_to_set (map f l) : gset string))
  = existsb (fun g => String.eqb k (f g)) l.
Proof.
  apply Bool.eq_iff_eq_true.
  rewrite bool_decide_eq_true, elem_of_list_to_set, list_elem_of_In,
    in_map_iff, existsb_exists.
  split; intros (g & H1 & H2).
  - exists g. split; [exact H2 |]. apply String.eqb_eq. congruence.
  - exists g. apply String.eqb_eq in H2. split; [congruence | exact H1].
Qed.

Lemma rejectedByGroup_spec (groups : list string) (r : RentalRecord.t) :
  rejectedByGroup groups r = negb (groupPasses groups r).
Proof.
  unfold rejectedByGroup, targetGroupKeys, groupPasses.
  destruct (existsb (String.eqb "All") groups); [reflexivity |].
  cbn [orb]. rewrite key_in_set. reflexivity.
Qed.

Lemma rejectedByRange_spec (range : DateRangeType) (r : RentalRecord.t) :
  rejectedByRange range r = negb (rangePasses range r).
Proof.
  unfold rejectedByRange, rangePasses.
  destruct range; try reflexivity;
    rewrite ?negb_andb, <- ?Z.ltb_antisym; reflexivity.
Qed.

(** The running sums after a run of records. *)
Lemma fold_addRecord (l : list RentalRecord.t) (m : MetricSet.t) :
  fold_left addRecord l m
  = MetricSet.mk
      (fold_left PrimFloat.add (map RentalRecord.charge l) (MetricSet.revenue m))
      (fold_left PrimFloat.add (map RentalRecord.days l) (MetricSet.days m))
      (MetricSet.count m + Z.of_nat (length l))
      (MetricSet.rate m)
      (MetricSet.hasData m || negb (Nat.eqb (length l) 0)).
Proof.
  revert m. induction l as [| r l IH]; intros m.
  - destruct m. cbn. rewrite Z.add_0_r, orb_false_r. reflexivity.
  - cbn [fold_left]. rewrite IH. cbn.
    rewrite orb_true_r. f_equal. lia.
Qed.

Lemma withRate_total (station : string) (groups : list string)
    (range : DateRangeType) (i : Z) (records : list RentalRecord.t) :
  withRate (fold_left addRecord
              (List.filter (contributes station groups range i) records) emptyMetrics)
  = monthTotal station groups range i records.
Proof.
  rewrite fold_addRecord. unfold monthTotal, withRate, sumFloats. cbn.
  destruct (0 <? _)%float; reflexivity.
Qed.

(** The grand total: the months that hold data, added up, and the rate
    taken anew from the sums. *)
Lemma fold_addMonth (months : list MetricSet.t) (acc : MetricSet.t) :
  let held := List.filter MetricSet.hasData months in
  fold_left addMonth months acc
  = MetricSet.mk
      (fold_left PrimFloat.add (map MetricSet.revenue held) (MetricSet.revenue acc))
      (fold_left PrimFloat.add (map MetricSet.days held) (MetricSet.days acc))
      (fold_left Z.add (map MetricSet.count held) (MetricSet.count acc))
      (MetricSet.rate acc)
      (MetricSet.hasData acc || negb (Nat.eqb (length held) 0)).
Proof.
  revert acc. induction months as [| m months IH]; intros acc.
  - destruct acc. cbn. rewrite orb_false_r. reflexivity.
  - cbn [fold_left List.filter]. cbv zeta in IH. rewrite IH. unfold addMonth.
    destruct (MetricSet.hasData m); [| reflexivity].
    cbn. rewrite orb_true_r. reflexivity.
Qed.

Section Fold.

Variable station : string.
Variable groups : list string.
Variable range : DateRangeType.
Hypothesis named : stationNamed station = true.

Lemma visit_rejected (months : list MetricSet.t) (r : RentalRecord.t) :
  selected station groups range r = false ->
  visit station groups range months r = Some months.
Proof.
  unfold selected, visit.
  rewrite (rejectedByStation_spec _ _ named), rejectedByGroup_spec,
    rejectedByRange_spec.
  destruct (stationPasses station r); [| reflexivity].
  destruct (groupPasses groups r); [| reflexivity].
  destruct (rangePasses range r); [discriminate | reflexivity].
Qed.

Lemma visit_selected (months : list MetricSet.t) (r : RentalRecord.t) (t : Z) :
  selected station groups range r = true ->
  RentalRecord.date r = DateAt t ->
  visit station groups range months r
  = match months !! Z.to_nat (MonthFromDay (Day t)) with
    | Some m => Some (<[Z.to_nat (MonthFromDay (Day t)) := addRecord m r]> months)
    | None => None
    end.
Proof.
  unfold selected, visit.
  rewrite (rejectedByStation_spec _ _ named), rejectedByGroup_spec,
    rejectedByRange_spec.
  intros Hs Hd. apply andb_true_iff in Hs as [Hs Hr].
  apply andb_true_iff in Hs as [Hs Hg].
  rewrite Hs, Hg, Hr, Hd. reflexivity.
Qed.

(** The loop over the records: it runs to its end, keeps twelve months, and
    adds to month [i] the records that count for it, in their order. *)
Lemma forEach_spec (records : list RentalRecord.t) (months : list MetricSet.t) :
  length months = 12%nat ->
  forallb (fun r => negb (isInvalid (RentalRecord.date r))) records = true ->
  exists months',
    forEach station groups range records months = Some months'
    /\ length months' = 12%nat
    /\ forall (i : nat) (m : MetricSet.t),
         months !! i = Some m ->
         months' !! i
         = Some (fold_left addRecord
                   (List.filter (contributes station groups range (Z.of_nat i)) records) m).
Proof.
  revert months. induction records as [| r rest IH]; intros months Hlen Hvalid.
  - exists months. repeat split; [exact Hlen | intros i m Hm; exact Hm].
  - cbn [forallb] in Hvalid. apply andb_true_iff in Hvalid as [Hr Hrest].
    cbn [forEach].
    destruct (selected station groups range r) eqn:Hsel.
    + destruct (RentalRecord.date r) as [| t] eqn:Hd; [discriminate |].
      rewrite (visit_selected months r t Hsel Hd).
      pose proof (DateFacts.MonthFromDay_range (Day t)) as Hk.
      set (k := Z.to_nat (MonthFromDay (Day t))) in *.
      assert (Hk12 : (k < 12)%nat) by (subst k; lia).
      destruct (lookup_lt_is_Some_2 months k ltac:(lia)) as [mk Hmk].
      rewrite Hmk.
      destruct (IH (<[k := addRecord mk r]> months)
                  ltac:(rewrite length_insert; exact Hlen) Hrest)
        as (months' & Hrun & Hlen' & Hsum).
      exists months'. repeat split; [exact Hrun | exact Hlen' |].
      intros i m Hm. cbn [List.filter].
      unfold contributes at 1. rewrite Hsel, Hd. cbn [getMonth andb].
      destruct (MonthFromDay (Day t) =? Z.of_nat i) eqn:Ei.
      * apply Z.eqb_eq in Ei. assert (i = k) by (subst k; lia). subst i.
        rewrite Hmk in Hm. injection Hm as <-.
        cbn [fold_left]. apply Hsum.
        apply list_lookup_insert_eq. lia.
      * apply Z.eqb_neq in Ei. apply Hsum.
        rewrite list_lookup_insert_ne; [exact Hm | subst k; lia].
    + rewrite (visit_rejected months r Hsel).
      destruct (IH months Hlen Hrest) as (months' & Hrun & Hlen' & Hsum).
      exists months'. repeat split; [exact Hrun | exact Hlen' |].
      intros i m Hm. cbn [List.filter].
      unfold contributes at 1. rewrite Hsel. cbn [andb]. apply Hsum. exact Hm.
Qed.

End Fold.

(** C2: for a dataset whose records carry valid dates and any selection of
    a station (a name or ["All"]), of groups and of a part of the month,
    [processYear] yields exactly twelve metric sets, and the one of month
    [i] is the hand-made total of the records that count for month [i]:
    those whose station key is the selected one, whose group key is among
    the selected ones and whose day lies in the selected range, and whose
    date falls in month [i].  Revenue and days are the sums of their
    charges and durations, count is their number, hasData tells whether
    there is any, and rate is revenue by days when days is above zero and
    0 otherwise.  Without a dataset the twelve sets are empty. *)
Theorem processYear_month_totals
    (station : string) (groups : list string) (range : DateRangeType)
    (data : ProcessedData.t) :
  stationNamed station = true ->
  datesValid data = true ->
  exists months,
    processYear station groups range (Some data) = Some months
    /\ length months = 12%nat
    /\ (forall i : nat, (i < 12)%nat ->
          months !! i
          = Some (monthTotal station groups range (Z.of_nat i)
                    (ProcessedData.records data)))
    /\ processYear station groups range None = Some (replicate 12 emptyMetrics).
Proof.
  intros Hnamed Hvalid. unfold processYear.
  destruct (forEach_spec station groups range Hnamed (ProcessedData.records data)
              (replicate 12 emptyMetrics) (length_replicate _ _) Hvalid)
    as (months' & Hrun & Hlen & Hsum).
  rewrite Hrun. exists (withRate <$> months').
  split; [reflexivity |]. split; [rewrite length_fmap; exact Hlen |].
  split; [| reflexivity].
  intros i Hi. rewrite list_lookup_fmap.
  rewrite (Hsum i emptyMetrics (lookup_replicate_2 _ _ _ Hi)).
  cbn [fmap option_fmap option_map]. rewrite withRate_total. reflexivity.
Qed.

(** The scenario of the specification: January holds two rentals worth 200
    over 4 days, February one worth 50 over 1 day, both at a rate of 50. *)
Lemma processYear_month_totals_witness :
  stationNamed "All" = true
  /\ datesValid sampleData = true
  /\ exists months,
       processYear "All" ["All"] All (Some sampleData) = Some months
       /\ months !! 0%nat = Some (MetricSet.mk 200 4 2 50 true)
       /\ months !! 1%nat = Some (MetricSet.mk 50 1 1 50 true)
       /\ months !! 2%nat = Some emptyMetrics.
Proof.
  split; [reflexivity |]. split; [reflexivity |].
  destruct (processYear_month_totals "All" ["All"] All sampleData eq_refl eq_refl)
    as (months & Hrun & _ & Hsum & _).
  exists months. split; [exact Hrun |].
  rewrite (Hsum 0%nat ltac:(lia)), (Hsum 1%nat ltac:(lia)), (Hsum 2%nat ltac:(lia)).
  repeat split; vm_compute; reflexivity.
Defined.

End AggregationFacts.

(** ** The registry *)

Module RegistryFacts.
Import JS Registry.

Lemma initial_consistent : consistent initial.
Proof.
  split; [| split].
  - intros y p. cbn. rewrite !lookup_empty. split; discriminate.
  - intros p y. cbn. rewrite lookup_empty. discriminate.
  - intros y [d H]. cbn in H. rewrite lookup_empty in H. discriminate.
Qed.

Lemma loadYear_consistent (st : State) (year : Z) :
  consistent st -> consistent (snd (loadYear st year)).
Proof.
  intros Hc. pose proof Hc as (Hmap & Hnext & Hview). unfold loadYear.
  destruct (rendered st !! year) eqn:Er; [exact Hc |].
  destruct (inflightRequests st !! year) as [p |] eqn:Ei; [exact Hc |].
  split; [| split]; cbn.
  - intros y q. split; intros H.
    + destruct (decide (year = y)) as [<- | Hne].
      * rewrite lookup_insert_eq in H. injection H as <-.
        apply lookup_insert_eq.
      * rewrite lookup_insert_ne in H by exact Hne.
        assert (nextPromise st <> q).
        { intros <-. apply Hmap, Hnext in H. lia. }
        rewrite lookup_insert_ne by assumption. apply Hmap. exact H.
    + destruct (decide (nextPromise st = q)) as [<- | Hne].
      * rewrite lookup_insert_eq in H. injection H as <-.
        apply lookup_insert_eq.
      * rewrite lookup_insert_ne in H by exact Hne.
        apply Hmap in H.
        assert (year <> y) by congruence.
        rewrite lookup_insert_ne by assumption. exact H.
  - intros q y H. destruct (decide (nextPromise st = q)) as [<- | Hne]; [lia |].
    rewrite lookup_insert_ne in H by exact Hne. apply Hnext in H. lia.
  - exact Hview.
Qed.

Lemma finish_consistent (st : State) (p : nat) (year : Z)
    (registry : gmap Z ProcessedData.t) (alerts' : list string) :
  consistent st ->
  fetches st !! p = Some year ->
  (forall y, is_Some (rendered st !! y) -> is_Some (registry !! y)) ->
  consistent
    (finish (mkState registry (rendered st) (loadingYears st) (inflightRequests st)
               (fetches st) (fetchLog st) alerts' (nextPromise st)) p year).
Proof.
  intros (Hmap & Hnext & Hview) Ef Hreg.
  split; [| split]; cbn.
  - intros y q. split; intros H.
    + destruct (decide (year = y)) as [<- | Hne].
      * rewrite lookup_delete_eq in H. discriminate.
      * rewrite lookup_delete_ne in H by exact Hne.
        assert (p <> q) by (intros <-; apply Hmap in H; congruence).
        rewrite lookup_delete_ne by assumption. apply Hmap. exact H.
    + destruct (decide (p = q)) as [<- | Hne].
      * rewrite lookup_delete_eq in H. discriminate.
      * rewrite lookup_delete_ne in H by exact Hne.
        assert (year <> y).
        { intros <-. apply Hmap in H. apply Hmap in Ef. congruence. }
        rewrite lookup_delete_ne by assumption. apply Hmap. exact H.
  - intros q y H. destruct (decide (p = q)) as [<- | Hne].
    + rewrite lookup_delete_eq in H. discriminate.
    + rewrite lookup_delete_ne in H by exact Hne. eapply Hnext. exact H.
  - exact Hreg.
Qed.

Lemma settle_consistent (st : State) (p : nat) (result : option ProcessedData.t) :
  consistent st -> consistent (settle st p result).
Proof.
  intros Hc. pose proof Hc as (Hmap & Hnext & Hview). unfold settle.
  destruct (fetches st !! p) as [year |] eqn:Ef; [| exact Hc].
  destruct result as [data |]; apply finish_consistent; try assumption.
  intros y Hy. destruct (decide (year = y)) as [<- | Hne].
  - rewrite lookup_insert_eq. eauto.
  - rewrite lookup_insert_ne by exact Hne. apply Hview. exact Hy.
Qed.

Lemma step_consistent (st : State) (ev : Event) :
  consistent st -> consistent (step st ev).
Proof.
  intros Hc. destruct ev as [year | p data | p | data |]; cbn [step].
  - apply loadYear_consistent. exact Hc.
  - apply settle_consistent. exact Hc.
  - apply settle_consistent. exact Hc.
  - destruct Hc as (Hmap & Hnext & Hview). split; [| split]; cbn;
      [exact Hmap | exact Hnext |].
    intros y Hy. destruct (decide (ProcessedData.year data = y)) as [<- | Hne].
    + rewrite lookup_insert_eq. eauto.
    + rewrite lookup_insert_ne by exact Hne. apply Hview. exact Hy.
  - destruct Hc as (Hmap & Hnext & Hview). split; [| split]; cbn;
      [exact Hmap | exact Hnext |].
    intros y Hy. exact Hy.
Qed.

Lemma run_consistent (evs : list Event) (st : State) :
  consistent st -> consistent (run st evs).
Proof.
  revert st. induction evs as [| ev evs IH]; intros st H; [exact H |].
  change (run st (ev :: evs)) with (run (step st ev) evs).
  apply IH, step_consistent, H.
Qed.

Lemma reachable_consistent (st : State) : reachable st -> consistent st.
Proof.
  intros [evs ->]. apply run_consistent, initial_consistent.
Qed.

(** A year that the closures see stays seen, and no later event fetches
    it. *)
Lemma step_cached (st : State) (ev : Event) (year : Z) :
  consistent st ->
  is_Some (rendered st !! year) ->
  is_Some (rendered (step st ev) !! year)
  /\ fetchCount (step st ev) year = fetchCount st year.
Proof.
  intros (Hmap & Hnext & Hview) Hy.
  destruct ev as [y | p data | p | data |]; cbn [step].
  - unfold loadYear. destruct (rendered st !! y) eqn:Er; [auto |].
    destruct (inflightRequests st !! y); [auto |].
    cbn. split; [exact Hy |].
    unfold fetchCount, countOf. cbn. rewrite List.filter_app, length_app. cbn.
    assert (year <> y) by (intros ->; rewrite Er in Hy; destruct Hy; discriminate).
    destruct (Z.eqb_spec year y); [contradiction | cbn; lia].
  - unfold settle. destruct (fetches st !! p); [| auto]. cbn. auto.
  - unfold settle. destruct (fetches st !! p); [| auto]. cbn. auto.
  - cbn. auto.
  - cbn. split; [apply Hview; exact Hy | reflexivity].
Qed.

Lemma run_cached (evs : list Event) (st : State) (year : Z) :
  consistent st ->
  is_Some (rendered st !! year) ->
  is_Some (rendered (run st evs) !! year)
  /\ fetchCount (run st evs) year = fetchCount st year.
Proof.
  revert st. induction evs as [| ev evs IH]; intros st Hc Hy; [split; auto |].
  change (run st (ev :: evs)) with (run (step st ev) evs).
  destruct (step_cached st ev year Hc Hy) as [Hy' Hn].
  destruct (IH (step st ev) (step_consistent _ _ Hc) Hy') as [Hy'' Hn'].
  split; [exact Hy'' | rewrite Hn'; exact Hn].
Qed.

(** What the closures see matters: a call made after the fetch has resolved
    but before the next render does not see the year yet, and fetches it
    again (one fetch at a time, all the same). *)
Remark call_before_render_fetches_again (data : ProcessedData.t) :
  let st := run initial [Call 2024; FetchResolves 0 data] in
  is_Some (datasetRegistry st !! 2024)
  /\ rendered st !! 2024 = None
  /\ inflightRequests st !! 2024 = None
  /\ fetchCount st 2024 = 1%nat
  /\ fetchCount (step st (Call 2024)) 2024 = 2%nat
  /\ fetchCount (step (render st) (Call 2024)) 2024 = 1%nat.
Proof.
  cbv zeta. split; [exists data; vm_compute; reflexivity |].
  repeat split; vm_compute; reflexivity.
Qed.

End RegistryFacts.

Module RegistryProperties.
Import JS Registry RegistryFacts.

(** The deduplication of [loadYear], in every state of a session and for
    every year: a call for a year that the last render handed to
    [loadYear] with the registry returns at once and changes nothing, so it
    fetches nothing; a call for a year that is being loaded returns the
    pending operation already registered and changes nothing, so no second
    fetch starts; no two fetches under way are for the same year; when the
    pending operation of a year resolves, the registry holds under that
    year the one dataset it fetched, which is what every caller awaiting
    that operation finds there; and once a render has seen a year, no later
    event of the session, whatever calls it makes, fetches that year
    again. *)
Theorem loadYear_single_flight (st : State) (year : Z) :
  reachable st ->
  (is_Some (rendered st !! year) -> loadYear st year = (Resolved, st))
  /\ (forall p,
        rendered st !! year = None ->
        inflightRequests st !! year = Some p ->
        loadYear st year = (Pending p, st) /\ fetches st !! p = Some year)
  /\ (forall p q,
        fetches st !! p = Some year -> fetches st !! q = Some year -> p = q)
  /\ (forall p, fetches st !! p = Some year -> inflightRequests st !! year = Some p)
  /\ (fetchCount (snd (loadYear st year)) year <> fetchCount st year ->
      rendered st !! year = None /\ forall p, fetches st !! p <> Some year)
  /\ (forall p data,
        fetches st !! p = Some year ->
        datasetRegistry (settle st p (Some data)) !! year = Some data
        /\ rendered (render (settle st p (Some data))) !! year = Some data)
  /\ (is_Some (rendered st !! year) ->
      forall evs,
        is_Some (rendered (run st evs) !! year)
        /\ fetchCount (run st evs) year = fetchCount st year
        /\ loadYear (run st evs) year = (Resolved, run st evs)).
Proof.
  intros Hreach. pose proof (reachable_consistent st Hreach) as Hc.
  pose proof Hc as (Hmap & Hnext & Hview).
  assert (Hcached : forall s, is_Some (rendered s !! year) ->
                              loadYear s year = (Resolved, s)).
  { intros s [d Hd]. unfold loadYear. rewrite Hd. reflexivity. }
  split; [apply Hcached |].
  split.
  { intros p Hr Hi. unfold loadYear. rewrite Hr, Hi.
    split; [reflexivity | apply Hmap; exact Hi]. }
  split.
  { intros p q Hp Hq. apply Hmap in Hp, Hq. congruence. }
  split.
  { intros p Hp. apply Hmap. exact Hp. }
  split.
  { intros Hnew. unfold loadYear in Hnew.
    destruct (rendered st !! year) eqn:Er; [contradiction Hnew; reflexivity |].
    destruct (inflightRequests st !! year) as [q |] eqn:Ei;
      [contradiction Hnew; reflexivity |].
    split; [reflexivity |].
    intros p Hp. apply Hmap in Hp. congruence. }
  split.
  { intros p data Hp. unfold settle. rewrite Hp. cbn.
    split; apply lookup_insert_eq. }
  intros Hy evs.
  destruct (run_cached evs st year Hc Hy) as [Hy' Hn].
  repeat split; [exact Hy' | exact Hn | apply Hcached; exact Hy'].
Qed.

(** While 2024 is being loaded, a second call returns the first promise. *)
Lemma loadYear_single_flight_witness :
  reachable loading2024
  /\ loadYear loading2024 2024 = (Pending 0, loading2024).
Proof.
  assert (R : reachable loading2024) by (exists [Call 2024]; reflexivity).
  split; [exact R |].
  destruct (loadYear_single_flight loading2024 2024 R) as (_ & Hdedup & _).
  exact (proj1 (Hdedup 0%nat eq_refl eq_refl)).
Defined.

(** C3 (not met by the code): once the registry holds a year, [loadYear]
    is meant to return at once, without a remote fetch.  Its cache check
    reads the registry that the last render captured, not the registry
    itself, whereas the in-flight map, a ref, is always current.  When the
    fetch of a year completes, the registry holds the year and no fetch for
    it is under way; a call of [loadYear] for the year placed before the
    component renders again finds neither a cached dataset nor a pending
    operation, and starts a second remote fetch under a new promise.  After
    the render the same call returns at once. *)
Theorem loadYear_refetches_before_render (st : State) (p : nat) (year : Z)
    (data : ProcessedData.t) :
  reachable st ->
  fetches st !! p = Some year ->
  rendered st !! year = None ->
  let st' := settle st p (Some data) in
  datasetRegistry st' !! year = Some data
  /\ inflightRequests st' !! year = None
  /\ (forall q, fetches st' !! q <> Some year)
  /\ fst (loadYear st' year) = Pending (nextPromise st)
  /\ fetches (snd (loadYear st' year)) !! nextPromise st = Some year
  /\ fetchLog (snd (loadYear st' year)) = (fetchLog st ++ [year])%list
  /\ fetchCount (snd (loadYear st' year)) year = S (fetchCount st year)
  /\ loadYear (render st') year = (Resolved, render st').
Proof.
  intros Hreach Hp Hr st'.
  pose proof (reachable_consistent st Hreach) as (Hmap & Hnext & Hview).
  assert (E : st' = finish
                (mkState (<[year := data]> (datasetRegistry st)) (rendered st)
                   (loadingYears st) (inflightRequests st) (fetches st) (fetchLog st)
                   (if verifyYearMode data year then alerts st
                    else (alerts st ++
                          [("Warning: The data for " ++ intToString year
                            ++ " appears to contain mostly records from another year.")%string])%list)
                   (nextPromise st)) p year).
  { subst st'. unfold settle. rewrite Hp. reflexivity. }
  clearbody st'. subst st'.
  split; [apply lookup_insert_eq |].
  split; [apply lookup_delete_eq |].
  split.
  { intros q Hq. cbn [finish fetches] in Hq.
    destruct (Nat.eq_dec q p) as [-> | Hne].
    - rewrite lookup_delete_eq in Hq. discriminate.
    - rewrite lookup_delete_ne in Hq by congruence.
      apply Hmap in Hp, Hq. congruence. }
  assert (Hcall : forall s,
            rendered s !! year = None -> inflightRequests s !! year = None ->
            loadYear s year
            = (Pending (nextPromise s),
               mkState (datasetRegistry s) (rendered s)
                 ({[year]} ∪ loadingYears s)
                 (<[year := nextPromise s]> (inflightRequests s))
                 (<[nextPromise s := year]> (fetches s))
                 (fetchLog s ++ [year])
                 (alerts s)
                 (S (nextPromise s)))).
  { intros s Hs Hi. unfold loadYear. rewrite Hs, Hi. reflexivity. }
  rewrite Hcall; [| exact Hr | apply lookup_delete_eq].
  cbn [fst snd finish fetches fetchLog nextPromise].
  split; [reflexivity |]. split; [apply lookup_insert_eq |].
  split; [reflexivity |].
  split.
  { unfold fetchCount, countOf. cbn [fetchLog].
    rewrite List.filter_app, List.length_app. cbn [List.filter].
    rewrite Z.eqb_refl. cbn [length]. lia. }
  unfold loadYear, render. cbn [rendered finish datasetRegistry].
  rewrite lookup_insert_eq. reflexivity.
Qed.

(** The fetch of 2024 completes while it is the only load under way, and
    [loadYear] is called for 2024 before the next render. *)
Lemma loadYear_refetches_before_render_witness :
  let data := ProcessedData.mk [] [] [] [] 0 2024 in
  let st := run initial [Call 2024; FetchResolves 0 data] in
  reachable loading2024
  /\ datasetRegistry st !! 2024 = Some data
  /\ fetchLog (run initial [Call 2024; FetchResolves 0 data; Call 2024])
     = [2024; 2024].
Proof.
  cbv zeta.
  assert (R : reachable loading2024) by (exists [Call 2024]; reflexivity).
  split; [exact R |].
  destruct (loadYear_refetches_before_render loading2024 0 2024
              (ProcessedData.mk [] [] [] [] 0 2024) R eq_refl eq_refl)
    as (Hheld & _ & _ & _ & _ & Hlog & _).
  split; [exact Hheld | exact Hlog].
Defined.

(** C8: when the fetch of a year fails, the registry is what it was (no
    entry is written, and the entries of all years stay), the in-flight
    marker of the year is cleared, as it is when the fetch succeeds, the
    markers of the other years stay, the failure is reported once, and a
    further call of [loadYear] for the year, still not in the registry,
    starts a fresh fetch under a new promise. *)
Theorem failed_load_keeps_registry (st : State) (p : nat) (year : Z) :
  reachable st ->
  fetches st !! p = Some year ->
  let st' := settle st p None in
  datasetRegistry st' = datasetRegistry st
  /\ rendered st' = rendered st
  /\ inflightRequests st' !! year = None
  /\ fetches st' !! p = None
  /\ (year ∉ loadingYears st')
  /\ (forall data, inflightRequests (settle st p (Some data)) !! year = None)
  /\ (forall y, y <> year -> inflightRequests st' !! y = inflightRequests st !! y)
  /\ alerts st' = (alerts st ++ [("Failed to download data for " ++ intToString year)%string])%list
  /\ (rendered st !! year = None ->
      fst (loadYear st' year) = Pending (nextPromise st)
      /\ fetches (snd (loadYear st' year)) !! nextPromise st = Some year
      /\ fetchLog (snd (loadYear st' year)) = (fetchLog st ++ [year])%list
      /\ (forall q, fetches st !! q = Some year -> q <> nextPromise st)).
Proof.
  intros Hreach Hp st'.
  pose proof (reachable_consistent st Hreach) as (Hmap & Hnext & Hview).
  assert (E : st' = finish
                (mkState (datasetRegistry st) (rendered st) (loadingYears st)
                   (inflightRequests st) (fetches st) (fetchLog st)
                   (alerts st ++ [("Failed to download data for " ++ intToString year)%string])
                   (nextPromise st)) p year).
  { subst st'. unfold settle. rewrite Hp. reflexivity. }
  rewrite E. cbn.
  split; [reflexivity |]. split; [reflexivity |].
  split; [apply lookup_delete_eq |]. split; [apply lookup_delete_eq |].
  split; [apply not_elem_of_difference; right; apply elem_of_singleton; reflexivity |].
  split; [intros data; unfold settle; rewrite Hp; cbn; apply lookup_delete_eq |].
  split; [intros y Hy; apply lookup_delete_ne; congruence |].
  split; [reflexivity |].
  intros Hr. unfold loadYear. cbn. rewrite Hr, lookup_delete_eq. cbn.
  split; [reflexivity |]. split; [apply lookup_insert_eq |].
  split; [reflexivity |].
  intros q Hq. apply Hnext in Hq. lia.
Qed.

(** The fetch of 2024 fails while it is the only load under way. *)
Lemma failed_load_keeps_registry_witness :
  reachable loading2024
  /\ fetches loading2024 !! 0%nat = Some 2024
  /\ datasetRegistry (settle loading2024 0 None) = datasetRegistry loading2024
  /\ inflightRequests (settle loading2024 0 None) !! 2024 = None.
Proof.
  assert (R : reachable loading2024) by (exists [Call 2024]; reflexivity).
  assert (F : fetches loading2024 !! 0%nat = Some 2024) by reflexivity.
  split; [exact R |]. split; [exact F |].
  destruct (failed_load_keeps_registry loading2024 0 2024 R F)
    as (Hreg & _ & Hin & _).
  split; [exact Hreg | exact Hin].
Defined.

End RegistryProperties.

(** ** Worked examples *)

Module Scenarios.
Import JS Worker Comparison Spec.

Example parseFloat_rounds_to_nearest :
  parseFloat "0.1" = 0.1%float
  /\ parseFloat "0.30000000000000004" = (0.1 + 0.2)%float
  /\ parseFloat "9007199254740993" = 9007199254740992%float
  /\ parseFloat "9007199254740995" = 9007199254740996%float
  /\ parseFloat "1.7976931348623159e308" = infinity
  /\ parseFloat "5e-324" = 5e-324%float
  /\ parseFloat "2.4e-324" = 0%float
  /\ parseFloat "-0" = (-0)%float
  /\ parseFloat ".5x" = 0.5%float
  /\ is_nan (parseFloat ".") = true.
Proof. repeat split; vm_compute; reflexivity. Qed.

Example strings :
  trim "  a b  " = "a b"
  /\ split "." "1.200" = ["1"; "200"]
  /\ toLowerCase "Check-Out DATE" = "check-out date"
  /\ includes "check-out date" "date" = true
  /\ intToString 2024 = "2024"
  /\ padStart2 (intToString 3) = "03"
  /\ sorted ["SKG"; "ATH"; "HER"] = ["ATH"; "HER"; "SKG"].
Proof. repeat split; vm_compute; reflexivity. Qed.

Example calendar :
  newDate 1970 0 1 = DateAt 0
  /\ newDate 2024 0 1 = DateAt 1704067200000
  /\ newDate 24 0 1 = newDate 1924 0 1
  /\ getDate (newDate 2000 1 29) = Some 29
  /\ getMonth (newDate 1900 1 29) = Some 2
  /\ getFullYear (DateAt (-1)) = Some 1969
  /\ newDate 275760 8 13 = DateAt 8640000000000000
  /\ newDate 275760 8 14 = InvalidDate.
Proof. repeat split; vm_compute; reflexivity. Qed.

Example parseDate_day_first (h : Host) :
  exists t,
    parseDate h (VStr "05/03/2024") = Some t
    /\ getDate (DateAt t) = Some 5
    /\ getMonth (DateAt t) = Some 2
    /\ parseDate h (VDate InvalidDate) = None.
Proof. eexists. repeat split; vm_compute; reflexivity. Qed.

Example columns :
  resolveColumns (rental "" "" "" "")
  = mkColumns (Some "Station") (Some "Check-out Date") (Some "Days")
      (Some "Rental Charge") None.
Proof. vm_compute. reflexivity. Qed.

(** The end-to-end scenario of the specification: three valid rows in
    January, February and January 2024 and one row of zero days. *)
Example end_to_end (h : Host) :
  ProcessedData.totalRecords (processRawData h sampleTable) = 3%nat
  /\ ProcessedData.year (processRawData h sampleTable) = 2024
  /\ ProcessedData.stations (processRawData h sampleTable) = ["ATH"; "SKG"]
  /\ ProcessedData.months (processRawData h sampleTable) = ["2024-01"; "2024-02"]
  /\ processYear "All" ["All"] All (Some (processRawData h sampleTable))
     = Some (MetricSet.mk 200 4 2 50 true :: MetricSet.mk 50 1 1 50 true
             :: replicate 10 emptyMetrics)
  /\ processYear "skg" ["Unknown"] Range_11_20 (Some (processRawData h sampleTable))
     = Some (MetricSet.mk 100 2 1 50 true :: replicate 11 emptyMetrics)
  /\ processYear "ATH" ["Economy"] All (Some (processRawData h sampleTable))
     = Some (replicate 12 emptyMetrics).
Proof. repeat split; vm_compute; reflexivity. Qed.

(** Against no comparison dataset every variance is undefined. *)
Example variance_without_comparison (h : Host) :
  match
    useComparisonData "All" ["All"] All (Some (processRawData h sampleTable)) None
  with
  | Some result =>
      map variance (alignedMonths result) = replicate 12 (VarianceSet.mk None None None)
      /\ totalPrimary (totals result) = MetricSet.mk 250 5 3 50 true
      /\ totalVariance (totals result) = VarianceSet.mk None None None
  | None => False
  end.
Proof. vm_compute. repeat split. Qed.

End Scenarios.

(** ** Column resolution *)

Module ColumnFacts.
Import JS Worker Terms.

Lemma prefix_refl (s : string) : String.prefix s s = true.
Proof.
  induction s as [| a s IH]; [reflexivity |].
  cbn. destruct (ascii_dec a a); [exact IH | contradiction].
Qed.

Lemma includes_refl (s : string) : includes s s = true.
Proof.
  destruct s as [| a s]; [reflexivity |].
  cbn [includes]. unfold startsWith. rewrite prefix_refl. reflexivity.
Qed.

(** The test of [findColumnKey], equality or inclusion, is inclusion. *)
Lemma equal_or_includes (k c : string) :
  String.eqb k c || includes k c = includes k c.
Proof.
  destruct (String.eqb k c) eqn:E; [| reflexivity].
  apply String.eqb_eq in E. subst c. rewrite includes_refl. reflexivity.
Qed.

Lemma find_first {A : Type} (p : A -> bool) (l : list A) (x : A) :
  find p l = Some x ->
  exists l1 l2, l = (l1 ++ x :: l2)%list /\ p x = true
                /\ forall y, In y l1 -> p y = false.
Proof.
  induction l as [| a l IH]; [discriminate |].
  cbn. destruct (p a) eqn:E.
  - intros [= <-]. exists [], l. repeat split; [exact E | intros y []].
  - intros H. destruct (IH H) as (l1 & l2 & -> & Hx & Hl1).
    exists (a :: l1), l2. repeat split; [exact Hx |].
    intros y [<- | Hy]; [exact E | apply Hl1, Hy].
Qed.

Lemma find_agree {A : Type} (p q : A -> bool) (l : list A) :
  (forall x, p x = q x) -> find p l = find q l.
Proof.
  intros H. induction l as [| a l IH]; [reflexivity |].
  cbn. rewrite H, IH. reflexivity.
Qed.

Lemma findColumnKey_step (row : Row) (candidate : string) (rest : list string) :
  findColumnKey row (candidate :: rest)
  = match find (headerMatches candidate) (keys row) with
    | Some foundKey =>
        if isEmpty foundKey then findColumnKey row rest else Some foundKey
    | None => findColumnKey row rest
    end.
Proof.
  cbn [findColumnKey].
  rewrite (find_agree _ (headerMatches candidate) (keys row)); [reflexivity |].
  intros key. apply equal_or_includes.
Qed.

Lemma empty_header_never_matches (c : string) :
  nonEmpty c = true -> headerMatches c EmptyString = false.
Proof. destruct c; [discriminate | reflexivity]. Qed.

(** X1: with candidates that are not empty, [findColumnKey] returns the
    first column of the row whose header contains the first candidate that
    any header contains: no earlier candidate matches any header, no
    earlier header matches that candidate, and the header returned is not
    empty.  It returns nothing exactly when no header contains any
    candidate. *)
Theorem findColumnKey_first_match (row : Row) (candidates : list string) :
  forallb nonEmpty candidates = true ->
  match findColumnKey row candidates with
  | Some key =>
      nonEmpty key = true
      /\ exists before candidate after left right,
           candidates = (before ++ candidate :: after)%list
           /\ keys row = (left ++ key :: right)%list
           /\ headerMatches candidate key = true
           /\ (forall k, In k left -> headerMatches candidate k = false)
           /\ (forall c k, In c before -> In k (keys row) -> headerMatches c k = false)
  | None =>
      forall c k, In c candidates -> In k (keys row) -> headerMatches c k = false
  end.
Proof.
  induction candidates as [| c rest IH]; intros Hne.
  - cbn. intros c k [].
  - cbn [forallb] in Hne. apply andb_true_iff in Hne as [Hc Hrest].
    specialize (IH Hrest). rewrite findColumnKey_step.
    destruct (find (headerMatches c) (keys row)) as [found |] eqn:Ef.
    + destruct (find_first _ _ _ Ef) as (left & right & Hkeys & Hm & Hleft).
      destruct (isEmpty found) eqn:Ee.
      * destruct found; [| discriminate].
        rewrite (empty_header_never_matches c Hc) in Hm. discriminate.
      * split; [unfold nonEmpty; rewrite Ee; reflexivity |].
        exists [], c, rest, left, right.
        repeat split; [exact Hkeys | exact Hm | exact Hleft | intros c' k []].
    + pose proof (find_none _ _ Ef) as Hnone.
      destruct (findColumnKey row rest) as [key |].
      * destruct IH as (Hkey & before & c0 & after & left & right
                        & -> & Hkeys & Hm & Hleft & Hbefore).
        split; [exact Hkey |].
        exists (c :: before), c0, after, left, right.
        repeat split; [exact Hkeys | exact Hm | exact Hleft |].
        intros c' k [<- | Hc'] Hk; [apply Hnone, Hk | apply (Hbefore c' k Hc' Hk)].
      * intros c' k [<- | Hc'] Hk; [apply Hnone, Hk | apply (IH c' k Hc' Hk)].
Qed.

(** The date candidates hold no empty text; in a sheet that has a return
    date before the check-out date, the check-out date is the one resolved,
    since its candidate comes before the plain "date". *)
Lemma findColumnKey_first_match_witness :
  forallb nonEmpty dateCandidates = true
  /\ findColumnKey (hd [] twoDates) dateCandidates = Some "Check-out Date"
  /\ match findColumnKey (hd [] twoDates) dateCandidates with
     | Some key => nonEmpty key = true
     | None => False
     end.
Proof.
  split; [reflexivity |]. split; [reflexivity |].
  pose proof (findColumnKey_first_match (hd [] twoDates) dateCandidates eq_refl) as H.
  change (findColumnKey (hd [] twoDates) dateCandidates)
    with (Some "Check-out Date") in H |- *.
  exact (proj1 H).
Defined.

End ColumnFacts.

(** ** The derived indexes *)

Module IndexFacts.
Import JS Worker Spec Terms.

Lemma ascii_compare_lt_trans (a b c : ascii) :
  Ascii.compare a b = Lt -> Ascii.compare b c = Lt -> Ascii.compare a c = Lt.
Proof.
  unfold Ascii.compare. rewrite !N.compare_lt_iff. lia.
Qed.

Lemma compare_lt_trans (s1 s2 s3 : string) :
  String.compare s1 s2 = Lt -> String.compare s2 s3 = Lt ->
  String.compare s1 s3 = Lt.
Proof.
  revert s2 s3. induction s1 as [| a s1 IH]; intros [| b s2] [| c s3]; cbn;
    try discriminate; try reflexivity.
  destruct (Ascii.compare a b) eqn:Eab; try discriminate;
    destruct (Ascii.compare b c) eqn:Ebc; try discriminate.
  - apply Ascii.compare_eq_iff in Eab, Ebc. subst b c.
    replace (Ascii.compare a a) with Eq
      by (symmetry; unfold Ascii.compare; apply N.compare_refl).
    apply IH.
  - apply Ascii.compare_eq_iff in Eab. subst b. rewrite Ebc. reflexivity.
  - apply Ascii.compare_eq_iff in Ebc. subst c. rewrite Eab. reflexivity.
  - rewrite (ascii_compare_lt_trans a b c Eab Ebc). reflexivity.
Qed.

Lemma ltb_trans (s1 s2 s3 : string) :
  String.ltb s1 s2 = true -> String.ltb s2 s3 = true -> String.ltb s1 s3 = true.
Proof.
  unfold String.ltb.
  destruct (String.compare s1 s2) eqn:E12; try discriminate.
  destruct (String.compare s2 s3) eqn:E23; try discriminate.
  rewrite (compare_lt_trans _ _ _ E12 E23). reflexivity.
Qed.

Lemma ltb_of_leb (s1 s2 : string) :
  String.leb s1 s2 = true -> s1 <> s2 -> String.ltb s1 s2 = true.
Proof.
  unfold String.leb, String.ltb.
  destruct (String.compare s1 s2) eqn:E; try discriminate; [| reflexivity].
  intros _ Hne. apply String.compare_eq_iff in E. contradiction.
Qed.

Lemma ltb_of_not_leb (s1 s2 : string) :
  String.leb s1 s2 = false -> String.ltb s2 s1 = true.
Proof.
  unfold String.leb, String.ltb. rewrite (String.compare_antisym s2 s1).
  destruct (String.compare s1 s2); try discriminate. reflexivity.
Qed.

Lemma In_insertSorted (s y : string) (l : list string) :
  In y (insertSorted s l) <-> y = s \/ In y l.
Proof.
  induction l as [| x l IH]; cbn.
  - intuition.
  - destruct (String.leb s x); cbn; [intuition | rewrite IH; intuition].
Qed.

Lemma insertSorted_ascending (s : string) (l : list string) :
  ascending l -> ~ In s l -> ascending (insertSorted s l).
Proof.
  unfold ascending. induction l as [| x l IH]; intros Hl Hs; cbn.
  - repeat constructor.
  - apply StronglySorted_inv in Hl as [Hl Hx].
    destruct (String.leb s x) eqn:E.
    + assert (Hsx : String.ltb s x = true).
      { apply ltb_of_leb; [exact E |]. intros ->. apply Hs. left. reflexivity. }
      constructor; [constructor; assumption |].
      constructor; [exact Hsx |].
      rewrite List.Forall_forall in Hx |- *. intros y Hy.
      eapply ltb_trans; [exact Hsx | apply Hx, Hy].
    + constructor.
      * apply IH; [exact Hl |]. intros H. apply Hs. right. exact H.
      * rewrite List.Forall_forall in Hx |- *. intros y Hy.
        apply In_insertSorted in Hy as [-> | Hy];
          [apply ltb_of_not_leb, E | apply Hx, Hy].
Qed.

Lemma In_sorted (y : string) (l : list string) : In y (sorted l) <-> In y l.
Proof.
  unfold sorted. induction l as [| x l IH]; cbn; [tauto |].
  rewrite In_insertSorted, IH. intuition.
Qed.

Lemma sorted_ascending (l : list string) : List.NoDup l -> ascending (sorted l).
Proof.
  unfold sorted. induction l as [| x l IH]; intros Hnd; cbn.
  - constructor.
  - apply List.NoDup_cons_iff in Hnd as [Hx Hnd].
    apply insertSorted_ascending; [apply IH, Hnd |].
    intros H. apply Hx. apply (In_sorted x l). exact H.
Qed.

Lemma In_setAdd (s y : string) (l : list string) :
  In y (setAdd s l) <-> y = s \/ In y l.
Proof.
  unfold setAdd. destruct (existsb (String.eqb s) l) eqn:E.
  - split; [auto |]. intros [-> | H]; [| exact H].
    apply existsb_exists in E as (x & Hx & Ex).
    apply String.eqb_eq in Ex. subst x. exact Hx.
  - rewrite in_app_iff. cbn. intuition.
Qed.

Lemma NoDup_setAdd (s : string) (l : list string) :
  List.NoDup l -> List.NoDup (setAdd s l).
Proof.
  intros Hnd. unfold setAdd. destruct (existsb (String.eqb s) l) eqn:E; [exact Hnd |].
  assert (Hs : ~ In s l).
  { intros H. assert (existsb (String.eqb s) l = true); [| congruence].
    apply existsb_exists. exists s. split; [exact H | apply String.eqb_refl]. }
  clear E. induction l as [| x l IH]; cbn.
  - constructor; [intros [] | constructor].
  - apply List.NoDup_cons_iff in Hnd as [Hx Hnd]. constructor.
    + rewrite in_app_iff. cbn. intros [H | [H | []]]; [contradiction |].
      apply Hs. left. symmetry. exact H.
    + apply IH; [exact Hnd |]. intros H. apply Hs. right. exact H.
Qed.

Section WithHost.

Variable h : Host.
Variable cols : Columns.

(** One of the three sets of [processRawData]: the part [set] of the
    accumulator in which the callback enters the field [field] of a
    record. *)
Variable set : Acc -> list string.
Variable field : RentalRecord.t -> string.
Hypothesis enters :
  forall st row index,
    set (processRow h cols st row index)
    = match makeRecord h cols row index with
      | Some r => setAdd (field r) (set st)
      | None => set st
      end.

Lemma forEach_set (data : list Row) (index : nat) (st : Acc) :
  (List.NoDup (set st) ->
   List.NoDup (set (forEachFrom (processRow h cols) index data st)))
  /\ forall s,
       In s (set (forEachFrom (processRow h cols) index data st))
       <-> In s (set st)
           \/ exists r, In r (collected h cols index data) /\ field r = s.
Proof.
  revert index st. induction data as [| row rest IH]; intros index st.
  - cbn. split; [auto |]. intros s. split; [auto |].
    intros [H | (r & [] & _)]. exact H.
  - cbn [forEachFrom collected].
    destruct (IH (S index) (processRow h cols st row index)) as [Hnd Hin].
    rewrite enters in Hnd, Hin.
    destruct (makeRecord h cols row index) as [r |].
    + split.
      * intros H. apply Hnd, NoDup_setAdd, H.
      * intros s. rewrite Hin, In_setAdd. cbn. split.
        -- intros [[-> | H] | (r' & Hr' & E)]; eauto.
        -- intros [H | (r' & [<- | Hr'] & E)]; eauto.
    + split; [exact Hnd | exact Hin].
Qed.

End WithHost.

(** One index of a dataset made from at least one row. *)
Lemma index_spec (h : Host) (firstRow : Row) (rest : list Row)
    (set : Acc -> list string) (field : RentalRecord.t -> string) :
  set initial = [] ->
  (forall st row index,
      set (processRow h (resolveColumns firstRow) st row index)
      = match makeRecord h (resolveColumns firstRow) row index with
        | Some r => setAdd (field r) (set st)
        | None => set st
        end) ->
  let l := set (forEachFrom (processRow h (resolveColumns firstRow)) 0
                  (firstRow :: rest) initial) in
  ascending (sorted l)
  /\ forall s, In s (sorted l)
               <-> exists r, In r (collected h (resolveColumns firstRow) 0
                                     (firstRow :: rest))
                             /\ field r = s.
Proof.
  intros Hinit Henters l.
  destruct (forEach_set h (resolveColumns firstRow) set field Henters
              (firstRow :: rest) 0 initial) as [Hnd Hin].
  split.
  - apply sorted_ascending, Hnd. rewrite Hinit. constructor.
  - intros s. rewrite In_sorted. subst l. rewrite Hin, Hinit. cbn [In]. tauto.
Qed.

(** Every station the index lists is the station of a record. *)
Lemma listed_station_has_record (h : Host) (data : list Row) (s : string) :
  In s (ProcessedData.stations (processRawData h data)) ->
  exists r, In r (collected h (columnsOf data) 0 data) /\ RentalRecord.station r = s.
Proof.
  destruct data as [| firstRow rest]; [intros [] |].
  unfold processRawData, columnsOf. cbn [ProcessedData.stations hd].
  intros Hs.
  apply (index_spec h firstRow rest stationSet RentalRecord.station eq_refl); [| exact Hs].
  intros st row index. unfold processRow.
  destruct (makeRecord h (resolveColumns firstRow) row index); reflexivity.
Qed.

(** X2: the three indexes of an ingested dataset are sorted in strictly
    ascending order of the code units, so that none holds a value twice,
    and hold exactly the stations, the groups and the month keys of its
    records. *)
Theorem indexes_sorted_and_exact (h : Host) (data : list Row) :
  let processed := processRawData h data in
  (ascending (ProcessedData.stations processed)
   /\ forall s, In s (ProcessedData.stations processed)
                <-> exists r, In r (ProcessedData.records processed)
                              /\ RentalRecord.station r = s)
  /\ (ascending (ProcessedData.groups processed)
      /\ forall s, In s (ProcessedData.groups processed)
                   <-> exists r, In r (ProcessedData.records processed)
                                 /\ RentalRecord.group r = s)
  /\ (ascending (ProcessedData.months processed)
      /\ forall s, In s (ProcessedData.months processed)
                   <-> exists r, In r (ProcessedData.records processed)
                                 /\ RentalRecord.monthKey r = s).
Proof.
  intros processed.
  pose proof (IngestFacts.records_collected h data) as Hrec.
  fold processed in Hrec. rewrite Hrec.
  destruct data as [| firstRow rest].
  { cbn.
    assert (A : ascending []) by constructor.
    assert (B : forall (field : RentalRecord.t -> string) s,
               In s [] <-> exists r, In r [] /\ field r = s)
      by (intros field s; split; [intros [] | intros (r & [] & _)]).
    split; [split; [exact A | apply B] |].
    split; split; [exact A | apply B | exact A | apply B]. }
  subst processed. unfold processRawData, columnsOf.
  cbn [ProcessedData.stations ProcessedData.groups ProcessedData.months hd].
  split; [| split].
  - apply (index_spec h firstRow rest stationSet RentalRecord.station eq_refl).
    intros st row index. unfold processRow.
    destruct (makeRecord h (resolveColumns firstRow) row index); reflexivity.
  - apply (index_spec h firstRow rest groupSet RentalRecord.group eq_refl).
    intros st row index. unfold processRow.
    destruct (makeRecord h (resolveColumns firstRow) row index); reflexivity.
  - apply (index_spec h firstRow rest monthSet RentalRecord.monthKey eq_refl).
    intros st row index. unfold processRow.
    destruct (makeRecord h (resolveColumns firstRow) row index); reflexivity.
Qed.

Lemma collected_ids (h : Host) (cols : Columns) (data : list Row) (index : nat) :
  StronglySorted lt (map RentalRecord.id (collected h cols index data))
  /\ Forall (fun i => (index <= i < index + length data)%nat)
       (map RentalRecord.id (collected h cols index data)).
Proof.
  revert index. induction data as [| row rest IH]; intros index; cbn [collected].
  - split; constructor.
  - destruct (IH (S index)) as [Hs Hb].
    assert (Hb' : Forall (fun i => (index <= i < index + length (row :: rest))%nat)
                    (map RentalRecord.id (collected h cols (S index) rest))).
    { eapply List.Forall_impl; [| exact Hb]. cbn. intros i Hi. lia. }
    destruct (makeRecord h cols row index) as [r |] eqn:E; [| split; assumption].
    destruct (IngestFacts.makeRecord_Some h _ _ _ _ E) as (_ & Hid & _).
    cbn [map]. rewrite Hid. split.
    + constructor; [exact Hs |].
      eapply List.Forall_impl; [| exact Hb]. cbn. intros i Hi. lia.
    + constructor; [cbn; lia | exact Hb'].
Qed.

(** X3: the records of an ingested dataset keep the order of the rows: their
    ids, the row indexes, increase strictly along the sequence and stay
    below the number of rows, so that no two records share an id. *)
Theorem record_ids_increase (h : Host) (data : list Row) :
  let ids := map RentalRecord.id (ProcessedData.records (processRawData h data)) in
  StronglySorted lt ids
  /\ Forall (fun i => (i < length data)%nat) ids
  /\ List.NoDup ids.
Proof.
  intros ids. subst ids. rewrite IngestFacts.records_collected.
  destruct (collected_ids h (columnsOf data) data 0) as [Hs Hb].
  split; [exact Hs |]. split.
  - eapply List.Forall_impl; [| exact Hb]. cbn. intros i Hi. lia.
  - clear Hb. induction Hs as [| i l Hs IH Hi]; constructor; [| exact IH].
    intros Hin. rewrite List.Forall_forall in Hi. specialize (Hi i Hin). lia.
Qed.

End IndexFacts.

(** ** The calendar *)

Module CalendarFacts.
Import JS Worker Spec Terms.

Lemma DayFromYear_succ (y : Z) :
  DayFromYear (y + 1) = DayFromYear y + 365 + leapDay y.
Proof.
  unfold DayFromYear, leapDay, InLeapYear.
  destruct (Z.eqb_spec (y mod 4) 0), (Z.eqb_spec (y mod 100) 0),
    (Z.eqb_spec (y mod 400) 0); cbn; Z.div_mod_to_equations; lia.
Qed.

Lemma DayFromYear_mono (y1 y2 : Z) : y1 <= y2 -> DayFromYear y1 <= DayFromYear y2.
Proof.
  intros H. unfold DayFromYear. Z.div_mod_to_equations. lia.
Qed.

(** The year of a day is the only year that holds it. *)
Lemma YearFromDay_unique (d y : Z) :
  DayFromYear y <= d < DayFromYear (y + 1) -> YearFromDay d = y.
Proof.
  intros Hy. pose proof (DateFacts.YearFromDay_spec d) as HY.
  set (Y := YearFromDay d) in *. clearbody Y.
  destruct (Z.lt_trichotomy Y y) as [Hlt | [Heq | Hgt]]; [| exact Heq |].
  - pose proof (DayFromYear_mono (Y + 1) y ltac:(lia)). lia.
  - pose proof (DayFromYear_mono (y + 1) Y ltac:(lia)). lia.
Qed.

Lemma leapDay_range (y : Z) : 0 <= leapDay y <= 1.
Proof. unfold leapDay. destruct (InLeapYear y); lia. Qed.

(** The twelve months, one after the other, and the end of the year. *)
Lemma monthStart_table (y : Z) :
  monthStart y 0 = 0 /\ monthStart y 1 = 31
  /\ monthStart y 2 = 59 + leapDay y /\ monthStart y 3 = 90 + leapDay y
  /\ monthStart y 4 = 120 + leapDay y /\ monthStart y 5 = 151 + leapDay y
  /\ monthStart y 6 = 181 + leapDay y /\ monthStart y 7 = 212 + leapDay y
  /\ monthStart y 8 = 243 + leapDay y /\ monthStart y 9 = 273 + leapDay y
  /\ monthStart y 10 = 304 + leapDay y /\ monthStart y 11 = 334 + leapDay y
  /\ monthStart y 12 = 365 + leapDay y.
Proof. repeat split. Qed.

Ltac next_month :=
  repeat match goal with
         | |- context [Z.pos ?a + 1] =>
             let v := eval vm_compute in (Z.pos a + 1) in
             change (Z.pos a + 1) with v
         | |- context [0 + 1] => change (0 + 1) with 1
         | H : context [Z.pos ?a + 1] |- _ =>
             let v := eval vm_compute in (Z.pos a + 1) in
             change (Z.pos a + 1) with v in H
         | H : context [0 + 1] |- _ => change (0 + 1) with 1 in H
         end.

Ltac month_cases m :=
  let C := fresh "C" in
  assert (C : m = 0 \/ m = 1 \/ m = 2 \/ m = 3 \/ m = 4 \/ m = 5 \/ m = 6
              \/ m = 7 \/ m = 8 \/ m = 9 \/ m = 10 \/ m = 11) by lia;
  repeat (destruct C as [-> | C]); [.. | subst m].

Lemma daysInMonth_range (y m : Z) : 0 <= m <= 11 -> 28 <= daysInMonth y m <= 31.
Proof.
  intros Hm. pose proof (leapDay_range y) as Hl.
  destruct (monthStart_table y)
    as (E0 & E1 & E2 & E3 & E4 & E5 & E6 & E7 & E8 & E9 & E10 & E11 & E12).
  unfold daysInMonth. month_cases m; next_month; lia.
Qed.

(** [findMonth] finds the month whose days hold day [w] of the year. *)
Lemma findMonth_spec (y w : Z) :
  0 <= w < 365 + leapDay y ->
  let k := findMonth y w 11 0 in
  0 <= k <= 11 /\ monthStart y k <= w < monthStart y (k + 1).
Proof.
  intros Hw. pose proof (leapDay_range y) as Hl.
  destruct (monthStart_table y)
    as (E0 & E1 & E2 & E3 & E4 & E5 & E6 & E7 & E8 & E9 & E10 & E11 & E12).
  cbn [findMonth]. next_month.
  repeat match goal with
         | |- context [?a <? ?b] =>
             destruct (Z.ltb_spec a b); [next_month; lia |]
         end.
  next_month. lia.
Qed.

Lemma findMonth_unique (y w m : Z) :
  0 <= m <= 11 -> monthStart y m <= w < monthStart y (m + 1) ->
  findMonth y w 11 0 = m.
Proof.
  intros Hm Hw. pose proof (leapDay_range y) as Hl.
  destruct (monthStart_table y)
    as (E0 & E1 & E2 & E3 & E4 & E5 & E6 & E7 & E8 & E9 & E10 & E11 & E12).
  assert (Hy : 0 <= w < 365 + leapDay y)
    by (month_cases m; next_month; lia).
  destruct (findMonth_spec y w Hy) as [Hk Hkw].
  set (k := findMonth y w 11 0) in *. clearbody k.
  month_cases m; next_month;
    month_cases k; next_month; lia.
Qed.

(** Every day has a day of the month between 1 and 31 and a month between
    0 and 11, and the three getters give back the day. *)
Lemma civil_of_day (d : Z) :
  let y := YearFromDay d in
  let m := MonthFromDay d in
  let dt := DateFromDay d in
  0 <= m <= 11 /\ 1 <= dt <= daysInMonth y m /\ 1 <= dt <= 31
  /\ d = DayFromYear y + monthStart y m + dt - 1.
Proof.
  intros y m dt. pose proof (DateFacts.YearFromDay_spec d) as HY. fold y in HY.
  rewrite DayFromYear_succ in HY.
  destruct (findMonth_spec y (d - DayFromYear y) ltac:(lia)) as [Hk Hkw].
  change (findMonth y (d - DayFromYear y) 11 0) with m in Hk, Hkw.
  pose proof (daysInMonth_range y m Hk) as Hr.
  subst dt. unfold DateFromDay. fold y. fold m. unfold daysInMonth in *.
  repeat split; lia.
Qed.

(** A date of the calendar, made into a day, is read back as it was. *)
Lemma MakeDay_read_back (y m dt : Z) :
  0 <= m <= 11 -> 1 <= dt <= daysInMonth y m ->
  YearFromDay (MakeDay y m dt) = y
  /\ MonthFromDay (MakeDay y m dt) = m
  /\ DateFromDay (MakeDay y m dt) = dt.
Proof.
  intros Hm Hdt. unfold MakeDay.
  replace (m / 12) with 0 by (symmetry; apply Z.div_small; lia).
  replace (m mod 12) with m by (symmetry; apply Z.mod_small; lia).
  rewrite Z.add_0_r.
  pose proof (leapDay_range y) as Hl.
  assert (Hms : 0 <= monthStart y m /\ monthStart y (m + 1) <= 365 + leapDay y).
  { destruct (monthStart_table y)
      as (E0 & E1 & E2 & E3 & E4 & E5 & E6 & E7 & E8 & E9 & E10 & E11 & E12).
    month_cases m; next_month; lia. }
  unfold daysInMonth in Hdt.
  set (D := DayFromYear y + monthStart y m + dt - 1).
  assert (HY : YearFromDay D = y).
  { apply YearFromDay_unique. rewrite DayFromYear_succ. subst D. lia. }
  assert (HM : MonthFromDay D = m).
  { unfold MonthFromDay. rewrite HY. apply findMonth_unique; [exact Hm |].
    subst D. lia. }
  repeat split; [exact HY | exact HM |].
  unfold DateFromDay. rewrite HM, HY. subst D. lia.
Qed.

Lemma Day_of_midnight (d : Z) : Day (d * msPerDay) = d.
Proof. unfold Day, msPerDay. apply Z.div_mul. lia. Qed.

End CalendarFacts.

Module CalendarProperties.
Import JS Worker Spec Terms CalendarFacts.

Lemma newDate_time (year month day t : Z) :
  newDate year month day = DateAt t ->
  t = MakeDay (if (0 <=? year) && (year <=? 99) then 1900 + year else year)
        month day * msPerDay.
Proof.
  unfold newDate, TimeClip.
  destruct (Z.abs _ <=? 8640000000000000); [| discriminate].
  intros [= <-]. reflexivity.
Qed.

(** X4: text that starts with day, month and year of a date of the calendar
    is read day first: the date parsed has that day of the month, that month
    and that year, where a year written 0000 to 0099 stands for 1900 to
    1999. *)
Theorem parseDate_reads_day_month_year (h : Host) (s d m y : string) (d' m' y' : Z) :
  dmyMatch s = Some (d, m, y) ->
  parseInt d = Some d' -> parseInt m = Some m' -> parseInt y = Some y' ->
  1 <= m' <= 12 ->
  1 <= d' <= daysInMonth
               (if (0 <=? y') && (y' <=? 99) then 1900 + y' else y') (m' - 1) ->
  exists t,
    parseDate h (VStr s) = Some t
    /\ getFullYear (DateAt t)
       = Some (if (0 <=? y') && (y' <=? 99) then 1900 + y' else y')
    /\ getMonth (DateAt t) = Some (m' - 1)
    /\ getDate (DateAt t) = Some d'.
Proof.
  intros Hmatch Hd Hm Hy Rm Rd.
  pose proof (DateFacts.dmyMatch_trim s _ Hmatch) as Htrim.
  destruct (DateFacts.dmyMatch_valid _ _ _ _ Hmatch)
    as (y0 & m0 & d0 & t & Hy0 & Hm0 & Hd0 & Hnew).
  rewrite Hy in Hy0. rewrite Hm in Hm0. rewrite Hd in Hd0.
  injection Hy0 as <-. injection Hm0 as <-. injection Hd0 as <-.
  exists t. split.
  - unfold parseDate.
    assert (Hs : truthy (VStr s) = true) by (destruct s; [discriminate | reflexivity]).
    rewrite Hs. cbn [negb toString]. rewrite Htrim, Hy, Hm, Hd, Hnew. reflexivity.
  - apply newDate_time in Hnew. subst t. cbn [getFullYear getMonth getDate].
    rewrite Day_of_midnight.
    destruct (MakeDay_read_back _ (m' - 1) d' ltac:(lia) Rd) as (E1 & E2 & E3).
    rewrite E1, E2, E3. repeat split.
Qed.

Lemma parseDate_reads_day_month_year_witness :
  dmyMatch "05/03/2024 10:30" = Some ("05", "03", "2024")
  /\ parseInt "05" = Some 5 /\ parseInt "03" = Some 3 /\ parseInt "2024" = Some 2024
  /\ forall h, exists t,
       parseDate h (VStr "05/03/2024 10:30") = Some t
       /\ getFullYear (DateAt t) = Some 2024
       /\ getMonth (DateAt t) = Some 2
       /\ getDate (DateAt t) = Some 5.
Proof.
  repeat (split; [reflexivity |]).
  intros h.
  apply (parseDate_reads_day_month_year h "05/03/2024 10:30" "05" "03" "2024" 5 3 2024);
    try reflexivity; vm_compute; split; discriminate.
Defined.

Lemma month_text_length (month : Z) :
  0 <= month <= 11 -> String.length (padStart2 (intToString (month + 1))) = 2%nat.
Proof.
  intros Hm. month_cases month; reflexivity.
Qed.

(** X5: the derived fields of every ingested record agree with one another:
    the two keys are the lower-case, trimmed forms of station and group;
    year and day are those of the date, the day lying between 1 and 31; and
    the month key is the year, a dash and the month of the date, from 01 to
    12, in two digits. *)
Theorem record_fields_agree (h : Host) (data : list Row) :
  Forall
    (fun r =>
       RentalRecord.stationKey r = normalized (RentalRecord.station r)
       /\ RentalRecord.groupKey r = normalized (RentalRecord.group r)
       /\ getFullYear (RentalRecord.date r) = Some (RentalRecord.year r)
       /\ getDate (RentalRecord.date r) = Some (RentalRecord.day r)
       /\ 1 <= RentalRecord.day r <= 31
       /\ exists month,
            getMonth (RentalRecord.date r) = Some month
            /\ 0 <= month <= 11
            /\ RentalRecord.monthKey r
               = (intToString (RentalRecord.year r) ++ "-"
                  ++ padStart2 (intToString (month + 1)))%string
            /\ String.length (padStart2 (intToString (month + 1))) = 2%nat)
    (ProcessedData.records (processRawData h data)).
Proof.
  apply List.Forall_forall. intros r Hin.
  rewrite IngestFacts.records_collected in Hin.
  destruct (IngestFacts.collected_In h _ _ _ _ Hin) as (row & _ & _ & Hm).
  unfold makeRecord in Hm.
  destruct (requiredMissing (columnsOf data)); [discriminate |].
  destruct (isEmpty (stationOf h (columnsOf data) row)); [discriminate |].
  destruct (dateOf h (columnsOf data) row) as [t |]; [| discriminate].
  destruct (daysOf h (columnsOf data) row <=? 0)%float; [discriminate |].
  injection Hm as <-. cbn.
  destruct (civil_of_day (Day t)) as (Hmonth & _ & Hday & _).
  repeat split; try lia.
  exists (MonthFromDay (Day t)).
  repeat split; try lia. apply month_text_length. exact Hmonth.
Qed.

End CalendarProperties.

(** ** Ingestion and filtering together *)

Module FilterFacts.
Import JS Worker Comparison Spec Terms FilterTerms.

Lemma lower_keeps_blankness (c : ascii) :
  isWhiteSpace (lowerChar c) = isWhiteSpace c.
Proof.
  destruct c as [b0 b1 b2 b3 b4 b5 b6 b7].
  destruct b0, b1, b2, b3, b4, b5, b6, b7; reflexivity.
Qed.

Lemma trimStart_head (s : string) :
  trimStart s = EmptyString
  \/ exists a r, trimStart s = String a r /\ isWhiteSpace a = false.
Proof.
  induction s as [| a s IH]; [left; reflexivity |].
  cbn. destruct (isWhiteSpace a) eqn:E; [exact IH |].
  right. exists a, s. split; [reflexivity | exact E].
Qed.

(** Trimmed text is empty or starts with a character that is not blank. *)
Lemma trim_head (s : string) :
  trim s = EmptyString
  \/ exists a r, trim s = String a r /\ isWhiteSpace a = false.
Proof.
  unfold trim. destruct (trimStart_head s) as [-> | (a & r & -> & Ha)].
  - left. reflexivity.
  - right. exists a, (trimEnd r). split; [| exact Ha].
    apply DateFacts.trimEnd_cons. exact Ha.
Qed.

Lemma normalized_head (a : ascii) (r : string) :
  isWhiteSpace a = false -> isEmpty (normalized (String a r)) = false.
Proof.
  intros Ha. unfold normalized, trim, toLowerCase. cbn [mapStr trimStart].
  rewrite lower_keeps_blankness, Ha.
  rewrite DateFacts.trimEnd_cons by (rewrite lower_keeps_blankness; exact Ha).
  reflexivity.
Qed.

Lemma forEach_total (station : string) (groups : list string)
    (range : DateRangeType) (records : list RentalRecord.t)
    (months : list MetricSet.t) :
  length months = 12%nat ->
  forallb (fun r => negb (isInvalid (RentalRecord.date r))) records = true ->
  exists months',
    forEach station groups range records months = Some months'
    /\ length months' = 12%nat
    /\ forall (i : nat) (m : MetricSet.t),
         months !! i = Some m ->
         months' !! i
         = Some (fold_left addRecord
                   (List.filter (keptIn station groups range (Z.of_nat i)) records) m).
Proof.
  revert months. induction records as [| r rest IH]; intros months Hlen Hvalid.
  - exists months. repeat split; [exact Hlen | intros i m Hm; exact Hm].
  - cbn [forallb] in Hvalid. apply andb_true_iff in Hvalid as [Hr Hrest].
    cbn [forEach List.filter]. unfold visit, keptIn, kept.
    destruct (rejectedByStation station r);
      [destruct (IH months Hlen Hrest) as (months' & H1 & H2 & H3);
       exists months'; repeat split; assumption |].
    destruct (rejectedByGroup groups r);
      [destruct (IH months Hlen Hrest) as (months' & H1 & H2 & H3);
       exists months'; repeat split; assumption |].
    destruct (rejectedByRange range r);
      [destruct (IH months Hlen Hrest) as (months' & H1 & H2 & H3);
       exists months'; repeat split; assumption |].
    cbn [negb andb].
    destruct (RentalRecord.date r) as [| t] eqn:Hd; [discriminate |].
    cbn [getMonth].
    pose proof (DateFacts.MonthFromDay_range (Day t)) as Hk.
    set (k := Z.to_nat (MonthFromDay (Day t))) in *.
    assert (Hk12 : (k < 12)%nat) by (subst k; lia).
    destruct (lookup_lt_is_Some_2 months k ltac:(lia)) as [mk Hmk].
    rewrite Hmk.
    destruct (IH (<[k := addRecord mk r]> months)
                ltac:(rewrite length_insert; exact Hlen) Hrest)
      as (months' & Hrun & Hlen' & Hsum).
    exists months'. repeat split; [exact Hrun | exact Hlen' |].
    intros i m Hm.
    destruct (MonthFromDay (Day t) =? Z.of_nat i) eqn:Ei.
    + apply Z.eqb_eq in Ei. assert (i = k) by (subst k; lia). subst i.
      rewrite Hmk in Hm. injection Hm as <-.
      cbn [fold_left]. apply Hsum. apply list_lookup_insert_eq. lia.
    + apply Z.eqb_neq in Ei. apply Hsum.
      rewrite list_lookup_insert_ne; [exact Hm | subst k; lia].
Qed.

Lemma ingested_dates_valid (h : Host) (data : list Row) :
  datesValid (processRawData h data) = true.
Proof.
  unfold datesValid. apply forallb_forall. intros r Hin.
  rewrite IngestFacts.records_collected in Hin.
  destruct (IngestFacts.collected_In h _ _ _ _ Hin) as (row & _ & _ & Hm).
  destruct (IngestFacts.makeRecord_Some h _ _ _ _ Hm)
    as (_ & _ & _ & _ & (t & _ & Hd & _) & _).
  rewrite Hd. reflexivity.
Qed.

(** X6: an ingested dataset can always be aggregated: its dates are valid,
    so [processYear] runs to its end and yields twelve metric sets for
    every selection; and every station its index lists, unless it is
    called "All", is a selection that the station filter does not skip and
    that selects at least one record. *)
Theorem ingested_dataset_aggregates (h : Host) (data : list Row) :
  let processed := processRawData h data in
  datesValid processed = true
  /\ (forall station groups range,
        exists months,
          processYear station groups range (Some processed) = Some months
          /\ length months = 12%nat)
  /\ Forall
       (fun s =>
          s = "All"
          \/ (stationNamed s = true
              /\ exists r, In r (ProcessedData.records processed)
                           /\ RentalRecord.station r = s
                           /\ rejectedByStation s r = false
                           /\ stationPasses s r = true))
       (ProcessedData.stations processed).
Proof.
  intros processed. pose proof (ingested_dates_valid h data) as Hvalid.
  fold processed in Hvalid.
  split; [exact Hvalid |]. split.
  - intros station groups range. unfold processYear.
    destruct (forEach_total station groups range (ProcessedData.records processed)
                (replicate 12 emptyMetrics) (length_replicate _ _) Hvalid)
      as (months' & Hrun & Hlen & _).
    rewrite Hrun. exists (withRate <$> months').
    split; [reflexivity | rewrite length_fmap; exact Hlen].
  - apply List.Forall_forall. intros s Hs.
    destruct (String.eqb s "All") eqn:Eall;
      [left; apply String.eqb_eq; exact Eall | right].
    apply IndexFacts.listed_station_has_record in Hs as (r & Hr & Hrs).
    destruct (IngestFacts.collected_In h _ _ _ _ Hr) as (row & _ & _ & Hm).
    assert (Hkey : RentalRecord.stationKey r = normalized (RentalRecord.station r)).
    { clear - Hm. unfold makeRecord in Hm.
      destruct (requiredMissing (columnsOf data)); [discriminate |].
      destruct (isEmpty (stationOf h (columnsOf data) row)); [discriminate |].
      destruct (dateOf h (columnsOf data) row) as [t |]; [| discriminate].
      destruct (daysOf h (columnsOf data) row <=? 0)%float; [discriminate |].
      injection Hm as <-. reflexivity. }
    rewrite <- IngestFacts.records_collected in Hr.
    assert (Hne : isEmpty (normalized s) = false).
    { destruct (IngestFacts.makeRecord_Some h _ _ _ _ Hm)
        as (_ & _ & Hstation & Hfull & _).
      rewrite <- Hrs, Hstation. unfold stationOf in *.
      destruct (trim_head (toString h (orElse (get row (keyOr (stationKey (columnsOf data))))
                                         (VStr ""))))
        as [E | (a & rest & E & Ha)].
      - rewrite E in Hfull. discriminate.
      - rewrite E. apply normalized_head. exact Ha. }
    assert (Hnamed : stationNamed s = true).
    { unfold stationNamed. fold (normalized s). rewrite Eall, Hne. reflexivity. }
    split; [exact Hnamed |].
    exists r. split; [exact Hr |]. split; [exact Hrs |].
    assert (Hpass : stationPasses s r = true).
    { unfold stationPasses. fold (normalized s). rewrite Hkey, Hrs, String.eqb_refl.
      apply orb_true_r. }
    split; [| exact Hpass].
    rewrite (AggregationFacts.rejectedByStation_spec s r Hnamed), Hpass. reflexivity.
Qed.

End FilterFacts.

(** ** Counting what the filter keeps *)

Module CountFacts.
Import JS Worker Comparison Spec Terms FilterTerms.

Lemma withRate_count (m : MetricSet.t) :
  MetricSet.count (withRate m) = MetricSet.count m
  /\ MetricSet.hasData (withRate m) = MetricSet.hasData m.
Proof. unfold withRate. destruct (0 <? MetricSet.days m)%float; split; reflexivity. Qed.

Lemma monthMetrics_count (station : string) (groups : list string)
    (range : DateRangeType) (records : list RentalRecord.t) (i : nat) :
  MetricSet.count (monthMetrics station groups range records i)
  = keptCount station groups range (Z.of_nat i) records
  /\ MetricSet.hasData (monthMetrics station groups range records i)
     = (0 <? keptCount station groups range (Z.of_nat i) records).
Proof.
  unfold monthMetrics, keptCount.
  destruct (withRate_count
              (fold_left addRecord
                 (List.filter (keptIn station groups range (Z.of_nat i)) records)
                 emptyMetrics)) as [-> ->].
  rewrite AggregationFacts.fold_addRecord. cbn.
  split; [reflexivity |].
  destruct (length _); [reflexivity |]. cbn. reflexivity.
Qed.

(** The twelve months that [processYear] yields, for valid dates. *)
Lemma processYear_months (station : string) (groups : list string)
    (range : DateRangeType) (data : ProcessedData.t) :
  datesValid data = true ->
  processYear station groups range (Some data)
  = Some (map (monthMetrics station groups range (ProcessedData.records data))
            (seq 0 12)).
Proof.
  intros Hvalid. unfold processYear.
  destruct (FilterFacts.forEach_total station groups range (ProcessedData.records data)
              (replicate 12 emptyMetrics) (length_replicate _ _) Hvalid)
    as (months' & Hrun & Hlen & Hsum).
  rewrite Hrun. f_equal. apply list_eq. intros i.
  rewrite list_lookup_fmap.
  destruct (Nat.lt_ge_cases i 12) as [Hi | Hi].
  - rewrite (Hsum i emptyMetrics (lookup_replicate_2 _ _ _ Hi)).
    do 12 (destruct i as [| i]; [reflexivity |]). lia.
  - rewrite (lookup_ge_None_2 months' i) by lia.
    rewrite (lookup_ge_None_2 _ i); [reflexivity |].
    rewrite length_map, length_seq. exact Hi.
Qed.

Lemma keptCount_cons (station : string) (groups : list string)
    (range : DateRangeType) (i : Z) (r : RentalRecord.t)
    (rest : list RentalRecord.t) :
  keptCount station groups range i (r :: rest)
  = (if keptIn station groups range i r then 1 else 0)
    + keptCount station groups range i rest.
Proof.
  unfold keptCount. cbn [List.filter].
  destruct (keptIn station groups range i r); cbn [length]; lia.
Qed.

Lemma keptCount_nonneg (station : string) (groups : list string)
    (range : DateRangeType) (i : Z) (records : list RentalRecord.t) :
  0 <= keptCount station groups range i records.
Proof. unfold keptCount. lia. Qed.

Lemma keptTotal_nonneg (station : string) (groups : list string)
    (range : DateRangeType) (idx : list nat) (records : list RentalRecord.t) :
  0 <= keptTotal station groups range idx records.
Proof.
  unfold keptTotal. induction idx as [| i idx IH]; cbn [fold_right]; [lia |].
  pose proof (keptCount_nonneg station groups range (Z.of_nat i) records). lia.
Qed.

(** The accumulator of the grand total after some months. *)
Lemma fold_months (station : string) (groups : list string)
    (range : DateRangeType) (records : list RentalRecord.t)
    (idx : list nat) (acc : MetricSet.t) :
  let total :=
    fold_left addMonth (map (monthMetrics station groups range records) idx) acc in
  MetricSet.count total
  = MetricSet.count acc + keptTotal station groups range idx records
  /\ MetricSet.hasData total
     = MetricSet.hasData acc || (0 <? keptTotal station groups range idx records).
Proof.
  revert acc. induction idx as [| i idx IH]; intros acc; cbv zeta.
  - cbn [map fold_left]. change (keptTotal station groups range [] records) with 0.
    rewrite Z.add_0_r, orb_false_r. split; reflexivity.
  - cbn [map fold_left].
    destruct (IH (addMonth acc (monthMetrics station groups range records i)))
      as [Hc Hd].
    cbv zeta in Hc, Hd. rewrite Hc, Hd. clear Hc Hd IH.
    change (keptTotal station groups range (i :: idx) records)
      with (keptCount station groups range (Z.of_nat i) records
            + keptTotal station groups range idx records).
    destruct (monthMetrics_count station groups range records i) as [Ec Ed].
    pose proof (keptCount_nonneg station groups range (Z.of_nat i) records) as Hi.
    pose proof (keptTotal_nonneg station groups range idx records) as Ht.
    unfold addMonth. rewrite Ed.
    destruct (Z.ltb_spec 0 (keptCount station groups range (Z.of_nat i) records))
      as [Hpos | Hzero].
    + cbn [MetricSet.count MetricSet.hasData]. rewrite Ec. split; [lia |].
      destruct (Z.ltb_spec 0 (keptCount station groups range (Z.of_nat i) records
                              + keptTotal station groups range idx records));
        [rewrite orb_true_r; reflexivity | lia].
    + replace (keptCount station groups range (Z.of_nat i) records) with 0 by lia.
      split; reflexivity.
Qed.

(** A kept record with a valid date counts for exactly one of the twelve
    months. *)
Lemma one_month_each (station : string) (groups : list string)
    (range : DateRangeType) (r : RentalRecord.t) :
  isInvalid (RentalRecord.date r) = false ->
  fold_right (fun i total =>
                (if keptIn station groups range (Z.of_nat i) r then 1 else 0) + total)
    0 (seq 0 12)
  = if kept station groups range r then 1 else 0.
Proof.
  intros Hvalid. unfold keptIn.
  destruct (kept station groups range r); [| reflexivity].
  destruct (RentalRecord.date r) as [| t]; [discriminate |].
  cbn [getMonth andb].
  pose proof (DateFacts.MonthFromDay_range (Day t)) as Hk.
  set (k := MonthFromDay (Day t)) in *. clearbody k.
  CalendarFacts.month_cases k; reflexivity.
Qed.

Lemma keptTotal_cons (station : string) (groups : list string)
    (range : DateRangeType) (idx : list nat) (r : RentalRecord.t)
    (rest : list RentalRecord.t) :
  keptTotal station groups range idx (r :: rest)
  = fold_right (fun i total =>
                  (if keptIn station groups range (Z.of_nat i) r then 1 else 0) + total)
      0 idx
    + keptTotal station groups range idx rest.
Proof.
  unfold keptTotal. induction idx as [| i idx IH]; cbn [fold_right]; [reflexivity |].
  rewrite IH, keptCount_cons. lia.
Qed.

Lemma keptTotal_year (station : string) (groups : list string)
    (range : DateRangeType) (records : list RentalRecord.t) :
  forallb (fun r => negb (isInvalid (RentalRecord.date r))) records = true ->
  keptTotal station groups range (seq 0 12) records
  = Z.of_nat (length (List.filter (kept station groups range) records)).
Proof.
  induction records as [| r rest IH]; intros Hvalid; [reflexivity |].
  cbn [forallb] in Hvalid. apply andb_true_iff in Hvalid as [Hr Hrest].
  rewrite keptTotal_cons, (IH Hrest), one_month_each
    by (apply negb_true_iff; exact Hr).
  cbn [List.filter]. destruct (kept station groups range r); cbn [length]; lia.
Qed.

Lemma ingested_days (h : Host) (data : list Row) :
  Forall (fun r => 1 <= RentalRecord.day r <= 31)
    (ProcessedData.records (processRawData h data)).
Proof.
  apply List.Forall_forall. intros r Hin.
  rewrite IngestFacts.records_collected in Hin.
  destruct (IngestFacts.collected_In h _ _ _ _ Hin) as (row & _ & _ & Hm).
  destruct (IngestFacts.makeRecord_Some h _ _ _ _ Hm)
    as (_ & _ & _ & _ & (t & _ & _ & _ & Hday) & _).
  rewrite Hday.
  destruct (CalendarFacts.civil_of_day (Day t)) as (_ & _ & Hd & _). exact Hd.
Qed.

(** A record whose day is at least 1 falls in exactly one of the three
    parts of the month. *)
Lemma one_range_each (station : string) (groups : list string) (i : Z)
    (r : RentalRecord.t) :
  1 <= RentalRecord.day r ->
  (if keptIn station groups All i r then 1 else 0)
  = (if keptIn station groups Range_1_10 i r then 1 else 0)
    + (if keptIn station groups Range_11_20 i r then 1 else 0)
    + (if keptIn station groups Range_21_End i r then 1 else 0).
Proof.
  intros Hday. unfold keptIn, kept, rejectedByRange.
  destruct (rejectedByStation station r); [reflexivity |].
  destruct (rejectedByGroup groups r); [reflexivity |].
  destruct (match getMonth (RentalRecord.date r) with
            | Some m => m =? i
            | None => false
            end); cbn [negb andb];
    [| repeat match goal with
              | |- context [negb ?b] => destruct b; cbn [negb andb]
              end; reflexivity].
  destruct (Z.ltb_spec (RentalRecord.day r) 1); [lia |].
  destruct (Z.ltb_spec 10 (RentalRecord.day r)),
    (Z.ltb_spec (RentalRecord.day r) 11),
    (Z.ltb_spec 20 (RentalRecord.day r)),
    (Z.ltb_spec (RentalRecord.day r) 21); cbn; lia.
Qed.

Lemma keptCount_ranges (station : string) (groups : list string) (i : Z)
    (records : list RentalRecord.t) :
  Forall (fun r => 1 <= RentalRecord.day r <= 31) records ->
  keptCount station groups All i records
  = keptCount station groups Range_1_10 i records
    + keptCount station groups Range_11_20 i records
    + keptCount station groups Range_21_End i records.
Proof.
  induction 1 as [| r rest Hr _ IH]; [reflexivity |].
  rewrite !keptCount_cons, IH, (one_range_each station groups i r) by lia. lia.
Qed.

Lemma countAt_months (station : string) (groups : list string)
    (range : DateRangeType) (records : list RentalRecord.t) (i : nat) :
  (i < 12)%nat ->
  countAt (map (monthMetrics station groups range records) (seq 0 12)) i
  = keptCount station groups range (Z.of_nat i) records.
Proof.
  intros Hi. unfold countAt.
  rewrite <- (proj1 (monthMetrics_count station groups range records i)).
  do 12 (destruct i as [| i]; [reflexivity |]). lia.
Qed.

(** X7: for an ingested dataset and any selection of station and groups,
    the three parts of the month divide the whole month between them: in
    every month the count under "All" is the sum of the counts under
    "1-10", "11-20" and "21-End". *)
Theorem ranges_divide_the_month (h : Host) (data : list Row)
    (station : string) (groups : list string) :
  let processed := Some (processRawData h data) in
  exists whole first second third,
    processYear station groups All processed = Some whole
    /\ processYear station groups Range_1_10 processed = Some first
    /\ processYear station groups Range_11_20 processed = Some second
    /\ processYear station groups Range_21_End processed = Some third
    /\ Forall
         (fun i => countAt whole i
                   = countAt first i + countAt second i + countAt third i)
         (seq 0 12).
Proof.
  intros processed. subst processed.
  pose proof (FilterFacts.ingested_dates_valid h data) as Hvalid.
  set (records := ProcessedData.records (processRawData h data)).
  exists (map (monthMetrics station groups All records) (seq 0 12)),
    (map (monthMetrics station groups Range_1_10 records) (seq 0 12)),
    (map (monthMetrics station groups Range_11_20 records) (seq 0 12)),
    (map (monthMetrics station groups Range_21_End records) (seq 0 12)).
  rewrite !(processYear_months _ _ _ _ Hvalid). fold records.
  repeat (split; [reflexivity |]).
  apply List.Forall_forall. intros i Hi. apply in_seq in Hi.
  rewrite !countAt_months by lia.
  apply keptCount_ranges. apply ingested_days.
Qed.

(** X8: for an ingested dataset and any selection, the grand total counts
    every record the filter keeps exactly once, whatever its month, and
    holds data exactly when the filter keeps some record. *)
Theorem grand_total_counts_kept (h : Host) (data : list Row)
    (station : string) (groups : list string) (range : DateRangeType) :
  let records := ProcessedData.records (processRawData h data) in
  exists months,
    processYear station groups range (Some (processRawData h data)) = Some months
    /\ MetricSet.count (sum months)
       = Z.of_nat (length (List.filter (kept station groups range) records))
    /\ MetricSet.hasData (sum months)
       = negb (Nat.eqb (length (List.filter (kept station groups range) records)) 0).
Proof.
  intros records.
  pose proof (FilterFacts.ingested_dates_valid h data) as Hvalid.
  exists (map (monthMetrics station groups range records) (seq 0 12)).
  split; [apply processYear_months; exact Hvalid |].
  unfold sum.
  destruct (withRate_count
              (fold_left addMonth
                 (map (monthMetrics station groups range records) (seq 0 12))
                 emptyMetrics)) as [-> ->].
  destruct (fold_months station groups range records (seq 0 12) emptyMetrics)
    as [Hc Hd].
  cbv zeta in Hc, Hd. rewrite Hc, Hd.
  rewrite (keptTotal_year station groups range records Hvalid). cbn.
  split; [reflexivity |].
  destruct (length _); reflexivity.
Qed.

End CountFacts.

(** ** The comparison result *)

Module ResultFacts.
Import JS Worker Comparison Spec Terms FilterTerms ResultTerms.

Lemma varianceOf_none (p c : MetricSet.t) :
  MetricSet.hasData p = false \/ MetricSet.hasData c = false ->
  varianceOf p c = noVariance.
Proof.
  unfold varianceOf, calcVariance, noVariance.
  destruct (MetricSet.hasData c); [| reflexivity].
  intros [-> | [=]]. cbn [negb andb].
  destruct (MetricSet.revenue c =? 0)%float, (MetricSet.days c =? 0)%float,
    (MetricSet.rate c =? 0)%float; reflexivity.
Qed.

(** What [processYear] yields for the dataset of the hook, present or not. *)
Lemma processYear_option (station : string) (groups : list string)
    (range : DateRangeType) (data : option ProcessedData.t) :
  forallb (fun r => negb (isInvalid (RentalRecord.date r))) (recordsOf data) = true ->
  processYear station groups range data
  = Some (map (monthMetrics station groups range (recordsOf data)) (seq 0 12)).
Proof.
  destruct data as [data |]; intros Hvalid.
  - apply CountFacts.processYear_months. exact Hvalid.
  - reflexivity.
Qed.

Lemma sum_months (station : string) (groups : list string)
    (range : DateRangeType) (records : list RentalRecord.t) :
  forallb (fun r => negb (isInvalid (RentalRecord.date r))) records = true ->
  let total := sum (map (monthMetrics station groups range records) (seq 0 12)) in
  MetricSet.count total
  = Z.of_nat (length (List.filter (kept station groups range) records))
  /\ MetricSet.hasData total
     = negb (Nat.eqb (length (List.filter (kept station groups range) records)) 0).
Proof.
  intros Hvalid total. subst total. unfold sum.
  destruct (CountFacts.withRate_count
              (fold_left addMonth
                 (map (monthMetrics station groups range records) (seq 0 12))
                 emptyMetrics)) as [-> ->].
  destruct (CountFacts.fold_months station groups range records (seq 0 12)
              emptyMetrics) as [Hc Hd].
  cbv zeta in Hc, Hd. rewrite Hc, Hd.
  rewrite (CountFacts.keptTotal_year station groups range records Hvalid).
  cbn [MetricSet.count MetricSet.hasData emptyMetrics orb Z.add].
  split; [reflexivity |].
  destruct (length _); reflexivity.
Qed.

Lemma nth_months (g : nat -> MetricSet.t) (i : nat) :
  (i < 12)%nat -> nth i (map g (seq 0 12)) emptyMetrics = g i.
Proof. intros Hi. do 12 (destruct i as [| i]; [reflexivity |]). lia. Qed.

(** The rows of the aligned table. *)
Lemma align_rows (primaryMetrics comparisonMetrics : list MetricSet.t) :
  map monthIndex (align primaryMetrics comparisonMetrics) = seq 0 12
  /\ map monthName (align primaryMetrics comparisonMetrics) = MONTH_NAMES
  /\ Forall
       (fun a =>
          (monthIndex a < 12)%nat
          /\ primary a = nth (monthIndex a) primaryMetrics emptyMetrics
          /\ comparison a = nth (monthIndex a) comparisonMetrics emptyMetrics
          /\ variance a = varianceOf (primary a) (comparison a))
       (align primaryMetrics comparisonMetrics).
Proof.
  unfold align, MONTH_NAMES.
  split; [reflexivity |]. split; [reflexivity |].
  cbv [imap compose].
  repeat (apply List.Forall_cons;
          [cbn [monthIndex primary comparison variance];
           split; [lia | split; [reflexivity | split; reflexivity]] |]).
  apply List.Forall_nil.
Qed.

Lemma filter_keptIn_nil (station : string) (groups : list string)
    (range : DateRangeType) (i : Z) (records : list RentalRecord.t) :
  List.filter (kept station groups range) records = [] ->
  keptCount station groups range i records = 0.
Proof.
  unfold keptCount. intros Hnone.
  induction records as [| r rest IH]; [reflexivity |].
  cbn [List.filter] in *. unfold keptIn at 1.
  destruct (kept station groups range r); [discriminate |].
  cbn [andb]. exact (IH Hnone).
Qed.

(** X9: the hook, given an ingested primary dataset and an ingested
    comparison dataset or none, returns the twelve months Jan to Dec in
    order, each with the metric sets of the two years for that month; the
    variances of a month are all undefined as soon as the filter keeps no
    record of that month in one of the two years, and so are the variances
    of the totals when it keeps no record at all in one of them.  Without a
    comparison dataset there is no variance anywhere. *)
Theorem variance_needs_both_years (h : Host) (data : list Row)
    (other : option (list Row)) (station : string) (groups : list string)
    (range : DateRangeType) :
  let primaryData := Some (processRawData h data) in
  let comparisonData := option_map (processRawData h) other in
  let count := keptCount station groups range in
  exists result primaryMetrics comparisonMetrics,
    useComparisonData station groups range primaryData comparisonData = Some result
    /\ processYear station groups range primaryData = Some primaryMetrics
    /\ processYear station groups range comparisonData = Some comparisonMetrics
    /\ map monthName (alignedMonths result) = MONTH_NAMES
    /\ map monthIndex (alignedMonths result) = seq 0 12
    /\ map primary (alignedMonths result) = primaryMetrics
    /\ map comparison (alignedMonths result) = comparisonMetrics
    /\ Forall
         (fun a =>
            count (Z.of_nat (monthIndex a)) (recordsOf primaryData) = 0
            \/ count (Z.of_nat (monthIndex a)) (recordsOf comparisonData) = 0 ->
            variance a = noVariance)
         (alignedMonths result)
    /\ (List.filter (kept station groups range) (recordsOf primaryData) = []
        \/ List.filter (kept station groups range) (recordsOf comparisonData) = [] ->
        totalVariance (totals result) = noVariance)
    /\ (other = None ->
        Forall (fun a => variance a = noVariance) (alignedMonths result)
        /\ totalVariance (totals result) = noVariance).
Proof.
  intros primaryData comparisonData count.
  assert (Hp : forallb (fun r => negb (isInvalid (RentalRecord.date r)))
                 (recordsOf primaryData) = true)
    by exact (FilterFacts.ingested_dates_valid h data).
  assert (Hc : forallb (fun r => negb (isInvalid (RentalRecord.date r)))
                 (recordsOf comparisonData) = true).
  { subst comparisonData. destruct other as [rows |]; [| reflexivity].
    exact (FilterFacts.ingested_dates_valid h rows). }
  set (P := map (monthMetrics station groups range (recordsOf primaryData)) (seq 0 12)).
  set (C := map (monthMetrics station groups range (recordsOf comparisonData))
              (seq 0 12)).
  pose proof (processYear_option station groups range primaryData Hp) as EP.
  pose proof (processYear_option station groups range comparisonData Hc) as EC.
  fold P in EP. fold C in EC.
  destruct (align_rows P C) as (Hidx & Hnames & Hrows).
  assert (Hmonth : Forall
            (fun a =>
               count (Z.of_nat (monthIndex a)) (recordsOf primaryData) = 0
               \/ count (Z.of_nat (monthIndex a)) (recordsOf comparisonData) = 0 ->
               variance a = noVariance) (align P C)).
  { eapply List.Forall_impl; [| exact Hrows].
    intros a (Hi & Ea & Eb & Ev) Hnone. rewrite Ev, Ea, Eb.
    unfold P, C. rewrite !nth_months by exact Hi.
    apply varianceOf_none.
    destruct (CountFacts.monthMetrics_count station groups range
                (recordsOf primaryData) (monthIndex a)) as [_ ->].
    destruct (CountFacts.monthMetrics_count station groups range
                (recordsOf comparisonData) (monthIndex a)) as [_ ->].
    fold count. destruct Hnone as [-> | ->]; [left | right]; reflexivity. }
  assert (Htotal :
            List.filter (kept station groups range) (recordsOf primaryData) = []
            \/ List.filter (kept station groups range) (recordsOf comparisonData) = [] ->
            varianceOf (sum P) (sum C) = noVariance).
  { intros Hnone. apply varianceOf_none.
    destruct (sum_months station groups range _ Hp) as [_ Hdp].
    destruct (sum_months station groups range _ Hc) as [_ Hdc].
    cbv zeta in Hdp, Hdc. fold P in Hdp. fold C in Hdc. rewrite Hdp, Hdc.
    destruct Hnone as [-> | ->]; [left | right]; reflexivity. }
  exists (mkResult (align P C) (grandTotals P C)), P, C.
  split; [unfold useComparisonData; rewrite EP, EC; reflexivity |].
  split; [exact EP |]. split; [exact EC |].
  split; [exact Hnames |]. split; [exact Hidx |].
  cbn [alignedMonths totals totalVariance grandTotals].
  split; [| split; [| split; [exact Hmonth | split; [exact Htotal |]]]].
  - apply list_eq. intros i. rewrite list_lookup_fmap.
    destruct (Nat.lt_ge_cases i 12) as [Hi | Hi].
    + do 12 (destruct i as [| i]; [reflexivity |]). lia.
    + rewrite !lookup_ge_None_2; [reflexivity | |].
      * unfold P. rewrite length_map, length_seq. exact Hi.
      * rewrite <- (length_map monthIndex), Hidx, length_seq. exact Hi.
  - apply list_eq. intros i. rewrite list_lookup_fmap.
    destruct (Nat.lt_ge_cases i 12) as [Hi | Hi].
    + do 12 (destruct i as [| i]; [reflexivity |]). lia.
    + rewrite !lookup_ge_None_2; [reflexivity | |].
      * unfold C. rewrite length_map, length_seq. exact Hi.
      * rewrite <- (length_map monthIndex), Hidx, length_seq. exact Hi.
  - intros ->. split.
    + eapply List.Forall_impl; [| exact Hmonth].
      intros a Ha. apply Ha. right. reflexivity.
    + apply Htotal. right. reflexivity.
Qed.

(** X10: on the unfiltered dashboard (all stations, all groups, the whole
    month) the grand total of an ingested dataset counts every record of
    it: its count is the dataset's [totalRecords]. *)
Theorem unfiltered_total_counts_all (h : Host) (data : list Row)
    (station : string) (groups : list string) (range : DateRangeType) :
  unfiltered station groups range = true ->
  exists months,
    processYear station groups range (Some (processRawData h data)) = Some months
    /\ MetricSet.count (sum months)
       = Z.of_nat (ProcessedData.totalRecords (processRawData h data)).
Proof.
  intros Hall.
  pose proof (FilterFacts.ingested_dates_valid h data) as Hvalid.
  exists (map (monthMetrics station groups range
                 (ProcessedData.records (processRawData h data))) (seq 0 12)).
  split; [apply CountFacts.processYear_months; exact Hvalid |].
  destruct (sum_months station groups range _ Hvalid) as [-> _].
  f_equal.
  unfold unfiltered in Hall.
  apply andb_true_iff in Hall as [Hall Hrange].
  apply andb_true_iff in Hall as [Hstation Hgroups].
  assert (Hkept : forall r, kept station groups range r = true).
  { intros r. unfold kept, rejectedByStation, rejectedByGroup, rejectedByRange,
      targetStationKey, targetGroupKeys.
    rewrite Hstation, Hgroups. destruct range; try discriminate. reflexivity. }
  transitivity (length (ProcessedData.records (processRawData h data))).
  - f_equal. induction (ProcessedData.records (processRawData h data)) as [| r rs IH];
      [reflexivity |].
    cbn [List.filter]. rewrite Hkept, IH. reflexivity.
  - destruct data; reflexivity.
Qed.

Lemma unfiltered_total_counts_all_witness :
  unfiltered "All" ["All"] All = true
  /\ forall h : Host,
       exists months,
         processYear "All" ["All"] All (Some (processRawData h sampleTable))
         = Some months
         /\ MetricSet.count (sum months)
            = Z.of_nat (ProcessedData.totalRecords (processRawData h sampleTable)).
Proof.
  split; [reflexivity |]. intros h.
  apply (unfiltered_total_counts_all h sampleTable "All" ["All"] All). reflexivity.
Defined.

End ResultFacts.

(** ** The registry over a whole session *)

Module SessionFacts.
Import JS Registry.

(** The candidate that [reduce] keeps. *)
Lemma reduce_keeps_most_frequent (ys l : list Z) (a : Z) :
  let r :=
    fold_left (fun a b => if (countOf a ys <? countOf b ys)%nat then b else a) l a in
  (r = a \/ In r l)
  /\ (countOf a ys <= countOf r ys)%nat
  /\ forall b, In b l -> (countOf b ys <= countOf r ys)%nat.
Proof.
  revert a. induction l as [| b l IH]; intros a; cbv zeta; cbn [fold_left].
  - split; [left; reflexivity |]. split; [lia | intros b []].
  - set (a1 := if (countOf a ys <? countOf b ys)%nat then b else a).
    destruct (IH a1) as (Hin & Hge & Hall). cbv zeta in Hin, Hge, Hall.
    assert (Ha1 : (a1 = a \/ a1 = b)
                  /\ (countOf a ys <= countOf a1 ys)%nat
                  /\ (countOf b ys <= countOf a1 ys)%nat).
    { subst a1. destruct (Nat.ltb_spec (countOf a ys) (countOf b ys)).
      - split; [right; reflexivity | lia].
      - split; [left; reflexivity | lia]. }
    destruct Ha1 as (Hor & Hca & Hcb).
    split; [| split; [lia |]].
    + destruct Hin as [-> | Hin]; [| right; right; exact Hin].
      destruct Hor as [-> | ->]; [left; reflexivity | right; left; reflexivity].
    + intros c [<- | Hc]; [lia | apply Hall; exact Hc].
Qed.

Lemma In_distinct (y : Z) (ys : list Z) : In y (distinct ys) <-> In y ys.
Proof.
  induction ys as [| x ys IH]; cbn [distinct In]; [tauto |].
  rewrite filter_In, IH.
  destruct (Z.eqb_spec y x) as [-> | Hne]; cbn [negb]; [tauto |].
  split; [intros [E | [H _]]; [left; exact E | right; exact H] |].
  intros [E | H]; [left; exact E | right; split; [exact H | reflexivity]].
Qed.

Lemma In_insertAscending (y x : Z) (l : list Z) :
  In x (insertAscending y l) <-> x = y \/ In x l.
Proof.
  induction l as [| z l IH]; cbn [insertAscending In]; [intuition |].
  destruct (y <=? z); cbn [In]; [intuition | rewrite IH; intuition].
Qed.

Lemma In_entryYears (y : Z) (ys : list Z) : In y (entryYears ys) <-> In y ys.
Proof.
  unfold entryYears. rewrite in_app_iff, filter_In, In_distinct.
  assert (Hsort : forall l, In y (fold_right insertAscending [] l) <-> In y l).
  { induction l as [| z l IH]; cbn [fold_right In]; [tauto |].
    rewrite In_insertAscending, IH. intuition. }
  rewrite Hsort, filter_In, In_distinct.
  destruct (isIndex y); cbn [negb]; intuition discriminate.
Qed.

Lemma countOf_absent (y : Z) (ys : list Z) : ~ In y ys -> countOf y ys = 0%nat.
Proof.
  unfold countOf. induction ys as [| x ys IH]; intros Hnot; [reflexivity |].
  cbn [List.filter]. destruct (Z.eqb_spec y x) as [-> | Hne].
  - contradiction Hnot. left. reflexivity.
  - apply IH. intros Hin. apply Hnot. right. exact Hin.
Qed.

Lemma countOf_present (y : Z) (ys : list Z) : In y ys -> (0 < countOf y ys)%nat.
Proof.
  unfold countOf. induction ys as [| x ys IH]; intros Hin; [destruct Hin |].
  cbn [List.filter]. destruct (Z.eqb_spec y x) as [-> | Hne]; [cbn; lia |].
  destruct Hin as [-> | Hin]; [contradiction | apply IH; exact Hin].
Qed.

Lemma modeYear_most_frequent (ys : list Z) :
  ys <> [] ->
  In (modeYear ys) ys /\ forall y, (countOf y ys <= countOf (modeYear ys) ys)%nat.
Proof.
  intros Hne. unfold modeYear.
  destruct (entryYears ys) as [| first rest] eqn:E.
  { destruct ys as [| y0 ys']; [contradiction |].
    assert (H : In y0 (entryYears (y0 :: ys')))
      by (apply In_entryYears; left; reflexivity).
    rewrite E in H. destruct H. }
  destruct (reduce_keeps_most_frequent ys rest first) as (Hin & Hfirst & Hall).
  cbv zeta in Hin, Hfirst, Hall.
  set (r := fold_left
              (fun a b => if (countOf a ys <? countOf b ys)%nat then b else a)
              rest first) in *.
  assert (Hkey : forall k, In k (entryYears ys) -> (countOf k ys <= countOf r ys)%nat).
  { intros k. rewrite E. intros [<- | Hk]; [exact Hfirst | apply Hall; exact Hk]. }
  split.
  - apply In_entryYears. rewrite E.
    destruct Hin as [-> | Hin]; [left; reflexivity | right; exact Hin].
  - intros y. destruct (in_dec Z.eq_dec y ys) as [Hy | Hy].
    + apply Hkey, In_entryYears, Hy.
    + rewrite (countOf_absent y _ Hy). lia.
Qed.

(** X11: the year check of a fetched dataset passes whenever fewer than
    ten of its records are dated; with ten or more it passes only if the
    requested year occurs among the records at least as often as every
    other year, and it does pass if the requested year occurs more often
    than every other year. *)
Theorem year_check_follows_majority (data : ProcessedData.t) (requestedYear : Z) :
  let ys := datedYears data in
  ((length ys < 10)%nat -> verifyYearMode data requestedYear = true)
  /\ ((10 <= length ys)%nat ->
      verifyYearMode data requestedYear = true ->
      In requestedYear ys
      /\ forall y, (countOf y ys <= countOf requestedYear ys)%nat)
  /\ ((10 <= length ys)%nat ->
      (forall y, In y ys -> y <> requestedYear ->
                 (countOf y ys < countOf requestedYear ys)%nat) ->
      verifyYearMode data requestedYear = true).
Proof.
  intros ys. unfold verifyYearMode. fold ys.
  split; [| split].
  - intros Hfew. destruct (Nat.ltb_spec (length ys) 10); [reflexivity | lia].
  - intros Hmany Hpass.
    destruct (Nat.ltb_spec (length ys) 10); [lia |].
    apply Z.eqb_eq in Hpass. rewrite <- Hpass.
    apply modeYear_most_frequent. intros E. rewrite E in Hmany. cbn in Hmany. lia.
  - intros Hmany Hmost.
    destruct (Nat.ltb_spec (length ys) 10); [lia |].
    apply Z.eqb_eq.
    assert (Hne : ys <> []) by (intros E; rewrite E in Hmany; cbn in Hmany; lia).
    destruct (modeYear_most_frequent ys Hne) as [Hin Hall].
    destruct (Z.eq_dec (modeYear ys) requestedYear) as [E | E]; [exact E |].
    specialize (Hmost _ Hin E). specialize (Hall requestedYear). lia.
Qed.

(** What a step leaves of the registry, and where a new entry comes from. *)
Lemma step_registry (st : State) (ev : Event) (year : Z) (data : ProcessedData.t) :
  (is_Some (datasetRegistry st !! year) ->
   is_Some (datasetRegistry (step st ev) !! year))
  /\ (datasetRegistry (step st ev) !! year = Some data ->
      datasetRegistry st !! year = Some data
      \/ (exists p, ev = FetchResolves p data /\ fetches st !! p = Some year)
      \/ (ev = LocalUpload data /\ ProcessedData.year data = year)).
Proof.
  destruct ev as [y | p d | p | d |]; cbn [step].
  - unfold loadYear. destruct (rendered st !! y); [auto |].
    destruct (inflightRequests st !! y); cbn; auto.
  - unfold settle. destruct (fetches st !! p) as [y |] eqn:Ep; [| auto].
    cbn. destruct (Z.eq_dec y year) as [-> | Hne].
    + rewrite lookup_insert_eq. split; [eauto |].
      intros [= ->]. right. left. exists p. split; [reflexivity | exact Ep].
    + rewrite lookup_insert_ne by exact Hne. auto.
  - unfold settle. destruct (fetches st !! p); cbn; auto.
  - cbn. destruct (Z.eq_dec (ProcessedData.year d) year) as [E | Hne].
    + rewrite E, lookup_insert_eq. split; [eauto |].
      intros [= ->]. right. right. split; [reflexivity | exact E].
    + rewrite lookup_insert_ne by exact Hne. auto.
  - cbn. auto.
Qed.

(** X12: during a session the registry only grows: a year it holds stays
    in it whatever happens next (calls, fetches that end well or badly,
    uploads, renders), and a dataset found under a year was there before,
    or was delivered by a fetch, or was uploaded from a file that carries
    this year. *)
Theorem registry_only_grows (st : State) (evs : list Event) :
  (forall year,
     is_Some (datasetRegistry st !! year) ->
     is_Some (datasetRegistry (run st evs) !! year))
  /\ (forall year data,
        datasetRegistry (run st evs) !! year = Some data ->
        datasetRegistry st !! year = Some data
        \/ (exists p, In (FetchResolves p data) evs)
        \/ (In (LocalUpload data) evs /\ ProcessedData.year data = year)).
Proof.
  revert st. induction evs as [| ev evs IH]; intros st.
  - split; [auto | intros year data H; left; exact H].
  - change (run st (ev :: evs)) with (run (step st ev) evs).
    destruct (IH (step st ev)) as [Hkeep Hfrom].
    split.
    + intros year Hy. apply Hkeep.
      apply (proj1 (step_registry st ev year (ProcessedData.mk [] [] [] [] 0 0))).
      exact Hy.
    + intros year data Hd.
      destruct (Hfrom year data Hd) as [Hstep | [[p Hp] | [Hu Hy]]].
      * destruct (proj2 (step_registry st ev year data) Hstep)
          as [Hold | [[p [-> _]] | [-> Hy]]].
        -- left. exact Hold.
        -- right. left. exists p. left. reflexivity.
        -- right. right. split; [left; reflexivity | exact Hy].
      * right. left. exists p. right. exact Hp.
      * right. right. split; [right; exact Hu | exact Hy].
Qed.

Lemma step_loading (st : State) (ev : Event) :
  (forall year, year ∈ loadingYears st <-> is_Some (inflightRequests st !! year)) ->
  forall year,
    year ∈ loadingYears (step st ev) <-> is_Some (inflightRequests (step st ev) !! year).
Proof.
  intros Hinv year.
  assert (Hfinish : forall s p y,
            (forall year, year ∈ loadingYears s <-> is_Some (inflightRequests s !! year)) ->
            year ∈ loadingYears (finish s p y)
            <-> is_Some (inflightRequests (finish s p y) !! year)).
  { intros s p y Hs. cbn. rewrite elem_of_difference, elem_of_singleton.
    destruct (Z.eq_dec y year) as [-> | Hne].
    - rewrite lookup_delete_eq. split; [intros [_ Hn]; contradiction Hn; reflexivity |].
      intros [x Hx]. discriminate.
    - rewrite lookup_delete_ne by exact Hne. rewrite Hs.
      split; [intros [H _]; exact H | intros H; split; [exact H | congruence]]. }
  destruct ev as [y | p d | p | d |]; cbn [step].
  - unfold loadYear. destruct (rendered st !! y); [apply Hinv |].
    destruct (inflightRequests st !! y) eqn:Ei; [apply Hinv |].
    cbn. rewrite elem_of_union, elem_of_singleton.
    destruct (Z.eq_dec y year) as [-> | Hne].
    + rewrite lookup_insert_eq. split; [eauto | intros _; left; reflexivity].
    + rewrite lookup_insert_ne by exact Hne. rewrite Hinv.
      split; [intros [E | H]; [congruence | exact H] | intros H; right; exact H].
  - unfold settle. destruct (fetches st !! p); [| apply Hinv].
    apply Hfinish. exact Hinv.
  - unfold settle. destruct (fetches st !! p); [| apply Hinv].
    apply Hfinish. exact Hinv.
  - cbn. apply Hinv.
  - cbn. apply Hinv.
Qed.

Lemma run_loading (evs : list Event) (st : State) :
  (forall year, year ∈ loadingYears st <-> is_Some (inflightRequests st !! year)) ->
  forall year,
    year ∈ loadingYears (run st evs) <-> is_Some (inflightRequests (run st evs) !! year).
Proof.
  revert st. induction evs as [| ev evs IH]; intros st Hinv; [exact Hinv |].
  change (run st (ev :: evs)) with (run (step st ev) evs).
  apply IH. apply step_loading. exact Hinv.
Qed.

(** X13: at every moment of a session the years marked as loading are
    exactly the years with a request in flight, and each of them has
    exactly one fetch under way, so that the marker of a year is up from
    the call that starts its fetch until the fetch ends, well or badly. *)
Theorem loading_marker_tracks_fetch (evs : list Event) (year : Z) :
  let st := run initial evs in
  (year ∈ loadingYears st <-> is_Some (inflightRequests st !! year))
  /\ (year ∈ loadingYears st <-> exists p, fetches st !! p = Some year)
  /\ (forall p result,
        fetches st !! p = Some year ->
        year ∈ loadingYears st /\ year ∉ loadingYears (settle st p result)).
Proof.
  intros st.
  assert (Hinv : forall y, y ∈ loadingYears st <-> is_Some (inflightRequests st !! y)).
  { apply run_loading. intros y. cbn. rewrite lookup_empty.
    split; [intros H; apply elem_of_empty in H; destruct H | intros [x Hx]; discriminate]. }
  assert (Hc : consistent st)
    by (apply RegistryFacts.reachable_consistent; exists evs; reflexivity).
  destruct Hc as (Hmap & _ & _).
  split; [apply Hinv |]. split.
  - rewrite Hinv. split.
    + intros [p Hp]. exists p. apply Hmap. exact Hp.
    + intros [p Hp]. exists p. apply Hmap. exact Hp.
  - intros p result Hp. split.
    + apply Hinv. exists p. apply Hmap. exact Hp.
    + unfold settle. rewrite Hp.
      destruct result as [data |]; cbn;
        rewrite elem_of_difference, elem_of_singleton; intros [_ Hn];
        contradiction Hn; reflexivity.
Qed.

(** X14: a fetch that delivers a dataset always stores it under the
    requested year, whatever the year check says; the check can only add
    one warning, and it does so only for a dataset with ten or more dated
    records among which another year occurs at least as often as the
    requested one. *)
Theorem year_mismatch_only_warns (st : State) (p : nat) (year : Z)
    (data : ProcessedData.t) :
  fetches st !! p = Some year ->
  let st' := settle st p (Some data) in
  let ys := datedYears data in
  datasetRegistry st' = <[year := data]> (datasetRegistry st)
  /\ (alerts st' = alerts st
      \/ (alerts st'
          = (alerts st ++
             [("Warning: The data for " ++ intToString year
               ++ " appears to contain mostly records from another year.")%string])%list
          /\ (10 <= length ys)%nat
          /\ exists y, y <> year /\ In y ys
                       /\ (countOf year ys <= countOf y ys)%nat)).
Proof.
  intros Hp st' ys. subst st'. unfold settle. rewrite Hp.
  cbn [finish datasetRegistry alerts].
  split; [reflexivity |].
  destruct (verifyYearMode data year) eqn:Ev; [left; reflexivity |].
  right. split; [reflexivity |].
  unfold verifyYearMode in Ev. fold ys in Ev.
  destruct (Nat.ltb_spec (length ys) 10) as [| Hmany]; [discriminate |].
  split; [exact Hmany |].
  assert (Hne : ys <> []) by (intros E; rewrite E in Hmany; cbn in Hmany; lia).
  destruct (modeYear_most_frequent ys Hne) as [Hin Hall].
  exists (modeYear ys).
  split; [apply Z.eqb_neq; exact Ev |]. split; [exact Hin | apply Hall].
Qed.

Lemma year_mismatch_only_warns_witness :
  fetches loading2024 !! 0%nat = Some 2024
  /\ forall data,
       datasetRegistry (settle loading2024 0 (Some data))
       = <[2024 := data]> (datasetRegistry loading2024).
Proof.
  split; [reflexivity |]. intros data.
  exact (proj1 (year_mismatch_only_warns loading2024 0 2024 data eq_refl)).
Defined.

End SessionFacts.

(** ** The filters of the dashboard *)

Module DashboardFacts.
Import JS Worker Comparison Spec Terms FilterTerms Dashboard.

Lemma existsb_eqb_In (s : string) (l : list string) :
  existsb (String.eqb s) l = true <-> In s l.
Proof.
  rewrite existsb_exists. split.
  - intros (x & Hx & E). apply String.eqb_eq in E. subst x. exact Hx.
  - intros H. exists s. split; [exact H | apply String.eqb_refl].
Qed.

Lemma existsb_eqb_not_In (s : string) (l : list string) :
  existsb (String.eqb s) l = false <-> ~ In s l.
Proof.
  rewrite <- existsb_eqb_In. destruct (existsb (String.eqb s) l); split; congruence.
Qed.

Lemma In_dropped (grp g : string) (l : list string) :
  In g (List.filter (fun x => negb (String.eqb x grp)) l) <-> In g l /\ g <> grp.
Proof.
  rewrite filter_In. destruct (String.eqb_spec g grp) as [-> | Hne]; cbn.
  - split; [intros [_ [=]] | intros [_ H]; contradiction H; reflexivity].
  - tauto.
Qed.

(** What holds of every selection the dashboard can be in. *)
Lemma toggle_keeps_shape (sel : list string) (grp : string) :
  List.NoDup sel ->
  let new := toggleGroupSelection sel grp in
  new <> [] /\ List.NoDup new /\ (In "All" new -> new = ["All"]).
Proof.
  intros Hnd new. subst new. unfold toggleGroupSelection.
  assert (Hall : ["All"] <> [] /\ List.NoDup ["All"]
                 /\ (In "All" ["All"] -> ["All"] = ["All"])).
  { split; [discriminate |]. split; [| reflexivity].
    constructor; [intros [] | constructor]. }
  destruct (String.eqb_spec grp "All") as [-> | Hgrp]; [exact Hall |].
  destruct (existsb (String.eqb "All") sel) eqn:Ea.
  - cbn. split; [discriminate |]. split.
    + constructor; [intros [] | constructor].
    + intros [E | []]. congruence.
  - apply existsb_eqb_not_In in Ea.
    destruct (existsb (String.eqb grp) sel) eqn:Eg.
    + destruct (List.filter (fun g => negb (String.eqb g grp)) sel) as [| x rest] eqn:Ef;
        [exact Hall |].
      cbn [length Nat.eqb]. rewrite <- Ef.
      split; [rewrite Ef; discriminate |]. split.
      * apply List.NoDup_filter. exact Hnd.
      * intros H. apply In_dropped in H as [H _]. contradiction.
    + apply existsb_eqb_not_In in Eg.
      destruct (sel ++ [grp])%list as [| x rest] eqn:Es.
      * destruct sel; discriminate.
      * cbn [length Nat.eqb]. rewrite <- Es.
        split; [rewrite Es; discriminate |]. split.
        -- clear Es. induction sel as [| y sel IH]; cbn.
           ++ constructor; [intros [] | constructor].
           ++ apply List.NoDup_cons_iff in Hnd as [Hy Hnd]. constructor.
              ** rewrite in_app_iff. cbn. intros [H | [H | []]]; [contradiction |].
                 apply Eg. left. symmetry. exact H.
              ** apply IH; [exact Hnd | | ].
                 --- intros H. apply Ea. right. exact H.
                 --- intros H. apply Eg. right. exact H.
        -- rewrite in_app_iff. cbn. intros [H | [H | []]]; [contradiction |].
           congruence.
Qed.

(** X15: whatever the user clicks, starting from the initial filters, the
    group selection is never empty, names no group twice, and holds "All"
    only as its single entry; so the hook filters by group exactly when the
    selection is not ["All"]. *)
Theorem group_selection_well_formed (actions : list Action) :
  let sel := selectedGroups (fold_left act actions initialFilters) in
  (exists g rest, sel = g :: rest)
  /\ List.NoDup sel
  /\ (In "All" sel -> sel = ["All"])
  /\ (targetGroupKeys sel = None <-> sel = ["All"]).
Proof.
  assert (Hinv : forall (actions : list Action) (st : Filters),
            selectedGroups st <> [] /\ List.NoDup (selectedGroups st)
            /\ (In "All" (selectedGroups st) -> selectedGroups st = ["All"]) ->
            let sel := selectedGroups (fold_left act actions st) in
            sel <> [] /\ List.NoDup sel /\ (In "All" sel -> sel = ["All"])).
  { clear actions. induction actions as [| a actions IH]; intros st Hst; [exact Hst |].
    cbn [fold_left]. apply IH. destruct a as [grp | station]; cbn [act].
    - cbn [selectedGroups]. apply toggle_keeps_shape. apply Hst.
    - destruct (String.eqb station (selectedStation st)); [exact Hst |].
      cbn [selectedGroups]. split; [discriminate |]. split; [| reflexivity].
      constructor; [intros [] | constructor]. }
  intros sel.
  destruct (Hinv actions initialFilters) as (Hne & Hnd & Hall).
  { cbn. split; [discriminate |]. split; [| reflexivity].
    constructor; [intros [] | constructor]. }
  fold sel in Hne, Hnd, Hall.
  split; [destruct sel as [| g rest]; [contradiction | eauto] |].
  split; [exact Hnd |]. split; [exact Hall |].
  unfold targetGroupKeys. destruct (existsb (String.eqb "All") sel) eqn:Ea.
  - apply existsb_eqb_In in Ea. split; [intros _; apply Hall, Ea | reflexivity].
  - apply existsb_eqb_not_In in Ea. split; [discriminate |].
    intros E. contradiction Ea. rewrite E. left. reflexivity.
Qed.

(** X16: a click on a group other than "All" flips that group and no
    other: when all groups were selected, the group becomes the only one
    selected; when it was the only one selected, all groups are selected
    again; otherwise it is selected afterwards exactly if it was not
    before, and every other group is selected afterwards exactly if it was
    before.  A click on "All" selects all groups. *)
Theorem toggle_flips_one_group (sel : list string) (grp : string) :
  let new := toggleGroupSelection sel grp in
  if String.eqb grp "All" then new = ["All"]
  else if existsb (String.eqb "All") sel then new = [grp]
  else if existsb (String.eqb grp) sel && forallb (String.eqb grp) sel
       then new = ["All"]
  else forall g, In g new <-> (if String.eqb g grp then ~ In grp sel else In g sel).
Proof.
  intros new. subst new. unfold toggleGroupSelection.
  destruct (String.eqb grp "All"); [reflexivity |].
  destruct (existsb (String.eqb "All") sel); [reflexivity |].
  destruct (existsb (String.eqb grp) sel) eqn:Eg; cbn [andb].
  - apply existsb_eqb_In in Eg.
    destruct (forallb (String.eqb grp) sel) eqn:Ef.
    + assert (E : List.filter (fun g => negb (String.eqb g grp)) sel = []).
      { clear Eg. induction sel as [| x sel IH]; [reflexivity |].
        cbn [forallb] in Ef. apply andb_true_iff in Ef as [Ex Ef].
        apply String.eqb_eq in Ex. subst x.
        cbn [List.filter]. rewrite String.eqb_refl. cbn [negb]. exact (IH Ef). }
      rewrite E. reflexivity.
    + assert (Hother : exists x, In x sel /\ x <> grp).
      { clear Eg. induction sel as [| x sel IH]; [discriminate |].
        cbn [forallb] in Ef. destruct (String.eqb_spec grp x) as [<- | Hne].
        - cbn [andb] in Ef. destruct (IH Ef) as (y & Hy & Hne).
          exists y. split; [right; exact Hy | exact Hne].
        - exists x. split; [left; reflexivity | congruence]. }
      destruct Hother as (x & Hx & Hne).
      destruct (List.filter (fun g => negb (String.eqb g grp)) sel) as [| y rest] eqn:E.
      * assert (H : In x (List.filter (fun g => negb (String.eqb g grp)) sel))
          by (apply In_dropped; split; assumption).
        rewrite E in H. destruct H.
      * cbn [length Nat.eqb]. rewrite <- E. intros g. rewrite In_dropped.
        destruct (String.eqb_spec g grp) as [-> | Hg]; tauto.
  - apply existsb_eqb_not_In in Eg.
    destruct (sel ++ [grp])%list as [| y rest] eqn:E; [destruct sel; discriminate |].
    cbn [length Nat.eqb]. rewrite <- E. intros g. rewrite in_app_iff. cbn [In].
    destruct (String.eqb_spec g grp) as [-> | Hg]; [tauto |].
    split; [intros [H | [H | []]]; [exact H | congruence] | auto].
Qed.

(** The set that [availableGroups] builds for a station. *)
Lemma groups_in_station (station : string) (records : list RentalRecord.t)
    (start : list string) :
  let set :=
    fold_left
      (fun groupsInStation r =>
         if String.eqb (RentalRecord.station r) station
         then setAdd (RentalRecord.group r) groupsInStation
         else groupsInStation) records start in
  (List.NoDup start -> List.NoDup set)
  /\ forall g, In g set
               <-> In g start
                   \/ exists r, In r records /\ RentalRecord.station r = station
                                /\ RentalRecord.group r = g.
Proof.
  revert start. induction records as [| r records IH]; intros start; cbv zeta.
  - cbn. split; [auto |]. intros g. split; [auto |].
    intros [H | (r & [] & _)]. exact H.
  - cbn [fold_left].
    destruct (IH (if String.eqb (RentalRecord.station r) station
                  then setAdd (RentalRecord.group r) start else start))
      as [Hnd Hin]. cbv zeta in Hnd, Hin.
    destruct (String.eqb_spec (RentalRecord.station r) station) as [Es | Es].
    + split; [intros H; apply Hnd, IndexFacts.NoDup_setAdd, H |].
      intros g. rewrite Hin, IndexFacts.In_setAdd. cbn [In]. split.
      * intros [[-> | H] | (r' & Hr' & E1 & E2)].
        -- right. exists r. auto.
        -- left. exact H.
        -- right. exists r'. auto.
      * intros [H | (r' & [<- | Hr'] & E1 & E2)].
        -- left. right. exact H.
        -- left. left. symmetry. exact E2.
        -- right. exists r'. auto.
    + split; [exact Hnd |].
      intros g. rewrite Hin. cbn [In]. split.
      * intros [H | (r' & Hr' & E)]; [left; exact H | right].
        destruct E as [E1 E2]. exists r'. auto.
      * intros [H | (r' & [<- | Hr'] & E1 & E2)]; [left; exact H | contradiction |].
        right. exists r'. auto.
Qed.

Lemma ingested_keys (h : Host) (data : list Row) (r : RentalRecord.t) :
  In r (ProcessedData.records (processRawData h data)) ->
  RentalRecord.stationKey r = normalized (RentalRecord.station r)
  /\ RentalRecord.groupKey r = normalized (RentalRecord.group r).
Proof.
  intros Hr. rewrite IngestFacts.records_collected in Hr.
  destruct (IngestFacts.collected_In h _ _ _ _ Hr) as (row & _ & _ & Hm).
  unfold makeRecord in Hm.
  destruct (requiredMissing (columnsOf data)); [discriminate |].
  destruct (isEmpty (stationOf h (columnsOf data) row)); [discriminate |].
  destruct (dateOf h (columnsOf data) row) as [t |]; [| discriminate].
  destruct (daysOf h (columnsOf data) row <=? 0)%float; [discriminate |].
  injection Hm as <-. split; reflexivity.
Qed.

Lemma groups_index (h : Host) (data : list Row) :
  ascending (ProcessedData.groups (processRawData h data))
  /\ forall g,
       In g (ProcessedData.groups (processRawData h data))
       <-> exists r, In r (ProcessedData.records (processRawData h data))
                     /\ RentalRecord.group r = g.
Proof.
  rewrite IngestFacts.records_collected.
  destruct data as [| firstRow rest].
  - cbn. split; [constructor |].
    intros g. split; [intros [] | intros (r & [] & _)].
  - unfold processRawData, columnsOf. cbn [ProcessedData.groups hd].
    apply (IndexFacts.index_spec h firstRow rest groupSet RentalRecord.group eq_refl).
    intros st row index. unfold processRow.
    destruct (makeRecord h (resolveColumns firstRow) row index); reflexivity.
Qed.

Lemma listed_groups (h : Host) (data : list Row) (g : string) :
  In g (ProcessedData.groups (processRawData h data))
  <-> exists r, In r (ProcessedData.records (processRawData h data))
                /\ RentalRecord.group r = g.
Proof. apply groups_index. Qed.

(** A record is kept when its station is the selected one and its group
    the only group clicked. *)
Lemma kept_under_one_group (station : string) (r : RentalRecord.t) :
  RentalRecord.stationKey r = normalized (RentalRecord.station r) ->
  RentalRecord.groupKey r = normalized (RentalRecord.group r) ->
  station = "All" \/ RentalRecord.station r = station ->
  kept station (toggleGroupSelection ["All"] (RentalRecord.group r)) All r = true.
Proof.
  intros Hsk Hgk Hst. unfold kept.
  assert (Hs : rejectedByStation station r = false).
  { unfold rejectedByStation, targetStationKey.
    destruct (String.eqb_spec station "All") as [| Hne]; [reflexivity |].
    destruct Hst as [| Hst]; [contradiction |].
    rewrite Hsk, Hst. unfold normalized. rewrite String.eqb_refl.
    apply andb_false_r. }
  assert (Hg : rejectedByGroup
                 (toggleGroupSelection ["All"] (RentalRecord.group r)) r = false).
  { unfold toggleGroupSelection.
    destruct (String.eqb_spec (RentalRecord.group r) "All") as [| Hne]; [reflexivity |].
    change (existsb (String.eqb "All") ["All"]) with true.
    cbn [length Nat.eqb].
    unfold rejectedByGroup, targetGroupKeys. cbn [existsb].
    destruct (String.eqb_spec "All" (RentalRecord.group r)) as [E | _];
      [contradiction Hne; symmetry; exact E |].
    cbn [orb map]. rewrite Hgk. unfold normalized.
    apply negb_false_iff, bool_decide_eq_true_2.
    apply elem_of_list_to_set, list_elem_of_singleton. reflexivity. }
  rewrite Hs, Hg. reflexivity.
Qed.

(** X17: the groups that the dashboard offers for an ingested dataset and
    a selected station come in ascending order without repetition, are
    groups of the dataset, and none of them is an empty choice: each is the
    group of a record of that station which the hook keeps when this group
    alone is clicked.  For a station of the dataset there is at least one
    group to choose. *)
Theorem group_options_select_records (h : Host) (data : list Row) (station : string) :
  let processed := processRawData h data in
  let options := availableGroups processed station in
  ascending options
  /\ Forall
       (fun g =>
          In g (ProcessedData.groups processed)
          /\ exists r,
               In r (ProcessedData.records processed)
               /\ RentalRecord.group r = g
               /\ (station = "All" \/ RentalRecord.station r = station)
               /\ kept station (toggleGroupSelection ["All"] g) All r = true)
       options
  /\ (In station (ProcessedData.stations processed) -> exists g, In g options).
Proof.
  intros processed options.
  assert (Hkept : forall r g,
            In r (ProcessedData.records processed) ->
            RentalRecord.group r = g ->
            station = "All" \/ RentalRecord.station r = station ->
            kept station (toggleGroupSelection ["All"] g) All r = true).
  { intros r g Hr <- Hst.
    destruct (ingested_keys h data r Hr) as [Hsk Hgk].
    apply kept_under_one_group; assumption. }
  subst options. unfold availableGroups.
  destruct (String.eqb_spec station "All") as [Eall | Hne].
  - split; [apply (groups_index h data) |]. split.
    + apply List.Forall_forall. intros g Hg. split; [exact Hg |].
      apply listed_groups in Hg as (r & Hr & Hrg).
      exists r. split; [exact Hr |]. split; [exact Hrg |].
      split; [left; exact Eall |]. apply Hkept; auto.
    + intros Hs. apply IndexFacts.listed_station_has_record in Hs as (r & Hr & _).
      rewrite <- IngestFacts.records_collected in Hr.
      exists (RentalRecord.group r). apply listed_groups. exists r. auto.
  - destruct (groups_in_station station (ProcessedData.records processed) [])
      as [Hnd Hin]. cbv zeta in Hnd, Hin.
    split; [apply IndexFacts.sorted_ascending, Hnd; constructor |]. split.
    + apply List.Forall_forall. intros g Hg.
      apply IndexFacts.In_sorted, Hin in Hg as [[] | (r & Hr & Hrs & Hrg)].
      split; [apply listed_groups; exists r; auto |].
      exists r. split; [exact Hr |]. split; [exact Hrg |].
      split; [right; exact Hrs |]. apply Hkept; auto.
    + intros Hs. apply IndexFacts.listed_station_has_record in Hs as (r & Hr & Hrs).
      rewrite <- IngestFacts.records_collected in Hr.
      exists (RentalRecord.group r). apply IndexFacts.In_sorted, Hin.
      right. exists r. auto.
Qed.

End DashboardFacts.

(** ** The two ingestion flows side by side *)

Module FlowFacts.
Import JS Worker Spec Terms FlowTerms.

Section WithHost.

Variable h : Host.

Lemma processRow_pushes (cols : Columns) (st : Legacy.Acc) (row : Row) (index : nat) :
  Legacy.accRecords (Legacy.processRow h cols st row index)
  = (Legacy.accRecords st ++ pushed h cols row index)%list.
Proof.
  unfold pushed, Legacy.processRow.
  destruct (requiredMissing cols); [cbn; rewrite app_nil_r; reflexivity |].
  destruct (truthy (get row (keyOr (stationKey cols)))); cbn [negb];
    [| cbn; rewrite app_nil_r; reflexivity].
  destruct (parseDate h (get row (keyOr (dateKey cols)))) as [t |];
    [| cbn; rewrite app_nil_r; reflexivity].
  destruct (parseNumber h (get row (keyOr (daysKey cols))) <=? 0)%float;
    [cbn; rewrite app_nil_r; reflexivity |].
  reflexivity.
Qed.

Lemma legacy_records (cols : Columns) (data : list Row) (index : nat)
    (st : Legacy.Acc) :
  Legacy.accRecords (forEachFrom (Legacy.processRow h cols) index data st)
  = (Legacy.accRecords st ++ pushedFrom h cols index data)%list.
Proof.
  revert index st. induction data as [| row rest IH]; intros index st;
    cbn [forEachFrom pushedFrom].
  - rewrite app_nil_r. reflexivity.
  - rewrite IH, processRow_pushes, <- app_assoc. reflexivity.
Qed.

Lemma legacy_records_pushed (data : list Row) :
  Legacy.records (Legacy.processRawData h data)
  = pushedFrom h (columnsOf data) 0 data.
Proof.
  destruct data as [| firstRow rest]; [reflexivity |].
  unfold Legacy.processRawData, columnsOf. cbn [Legacy.records hd].
  rewrite legacy_records. reflexivity.
Qed.

(** One row in the two flows. *)
Lemma one_row (cols : Columns) (row : Row) (index : nat) :
  match makeRecord h cols row index with
  | Some r => exists old, pushed h cols row index = [old] /\ sameRental old r
  | None =>
      pushed h cols row index = []
      \/ exists old, pushed h cols row index = [old] /\ Legacy.station old = ""
                     /\ Legacy.id old = index
  end.
Proof.
  unfold makeRecord, pushed, Legacy.processRow, stationOf, dateOf, daysOf, chargeOf,
    groupOf, orElse.
  destruct (requiredMissing cols); [left; reflexivity |].
  destruct (truthy (get row (keyOr (stationKey cols)))) eqn:Et; cbn [negb];
    [| left; reflexivity].
  destruct (parseDate h (get row (keyOr (dateKey cols)))) as [t |].
  - destruct (parseNumber h (get row (keyOr (daysKey cols))) <=? 0)%float.
    + destruct (isEmpty _); left; reflexivity.
    + destruct (isEmpty (trim (toString h (get row (keyOr (stationKey cols))))))
        eqn:Es.
      * right. eexists. split; [reflexivity |]. cbn [Legacy.station Legacy.id].
        split; [| reflexivity].
        destruct (trim (toString h (get row (keyOr (stationKey cols)))));
          [reflexivity | discriminate].
      * eexists. split; [reflexivity |].
        unfold sameRental.
        cbn [Legacy.id Legacy.station Legacy.date Legacy.monthKey Legacy.displayDate
             Legacy.day Legacy.days Legacy.charge Legacy.group
             RentalRecord.id RentalRecord.station RentalRecord.date
             RentalRecord.monthKey RentalRecord.displayDate RentalRecord.day
             RentalRecord.days RentalRecord.charge RentalRecord.group].
        do 8 (split; [reflexivity |]).
        destruct (missing (groupKey cols)); [right; reflexivity |].
        destruct (truthy (get row (keyOr (groupKey cols))));
          [left; reflexivity | right; reflexivity].
  - destruct (isEmpty _); left; reflexivity.
Qed.

Lemma pushed_id (cols : Columns) (row : Row) (index : nat) (old : Legacy.RentalRecord) :
  In old (pushed h cols row index) -> Legacy.id old = index.
Proof.
  unfold pushed, Legacy.processRow.
  destruct (requiredMissing cols); [intros [] |].
  destruct (truthy (get row (keyOr (stationKey cols)))); cbn [negb]; [| intros []].
  destruct (parseDate h (get row (keyOr (dateKey cols)))) as [t |]; [| intros []].
  destruct (parseNumber h (get row (keyOr (daysKey cols))) <=? 0)%float; [intros [] |].
  intros [<- | []]. reflexivity.
Qed.

Lemma flows_agree (cols : Columns) (data : list Row) (index : nat) :
  Forall (fun r => exists old, In old (pushedFrom h cols index data) /\ sameRental old r)
    (collected h cols index data)
  /\ Forall
       (fun old =>
          Legacy.station old = ""
          \/ exists r, In r (collected h cols index data) /\ sameRental old r)
       (pushedFrom h cols index data).
Proof.
  revert index. induction data as [| row rest IH]; intros index;
    cbn [collected pushedFrom]; [split; constructor |].
  destruct (IH (S index)) as [Hnew Hold].
  assert (Hnew' : Forall
            (fun r => exists old,
                 In old (pushed h cols row index ++ pushedFrom h cols (S index) rest)
                 /\ sameRental old r)
            (collected h cols (S index) rest)).
  { eapply List.Forall_impl; [| exact Hnew].
    intros r (old & Hin & Hsame). exists old. split; [| exact Hsame].
    apply in_or_app. right. exact Hin. }
  pose proof (one_row cols row index) as Hrow.
  destruct (makeRecord h cols row index) as [r |].
  - destruct Hrow as (old & Ep & Hsame). rewrite Ep. split.
    + constructor; [| rewrite Ep in Hnew'; exact Hnew'].
      exists old. split; [left; reflexivity | exact Hsame].
    + cbn [app]. constructor.
      * right. exists r. split; [left; reflexivity | exact Hsame].
      * eapply List.Forall_impl; [| exact Hold].
        intros old' [E | (r' & Hin & Hs)]; [left; exact E | right].
        exists r'. split; [right; exact Hin | exact Hs].
  - split; [exact Hnew' |].
    destruct Hrow as [Ep | (old & Ep & Hblank & _)]; rewrite Ep; cbn [app].
    + exact Hold.
    + constructor; [left; exact Hblank | exact Hold].
Qed.

End WithHost.

(** X18: the worker and the first upload flow read a table alike.  Every
    record of the worker has its counterpart in the first flow's result,
    made from the same row, with the same station, date, month key, label,
    day, duration and charge, and with the same group unless the worker
    wrote "Unknown"; and every record of the first flow has its counterpart
    in the worker's result unless its station is empty: the first flow keeps
    rows whose station is blank text, the worker skips them. *)
Theorem worker_refines_first_flow (h : Host) (data : list Row) :
  let recent := ProcessedData.records (processRawData h data) in
  let first := Legacy.records (Legacy.processRawData h data) in
  Forall (fun r => exists old, In old first /\ sameRental old r) recent
  /\ Forall
       (fun old => Legacy.station old = ""
                   \/ exists r, In r recent /\ sameRental old r)
       first
  /\ (length recent <= length first)%nat.
Proof.
  intros recent first. subst recent first.
  rewrite IngestFacts.records_collected, legacy_records_pushed.
  destruct (flows_agree h (columnsOf data) data 0) as [Hnew Hold].
  split; [exact Hnew |]. split; [exact Hold |].
  clear Hnew Hold.
  generalize 0%nat. generalize (columnsOf data).
  intros cols. induction data as [| row rest IH]; intros index;
    cbn [collected pushedFrom]; [cbn [length]; lia |].
  rewrite length_app. specialize (IH (S index)).
  pose proof (one_row h cols row index) as Hrow.
  destruct (makeRecord h cols row index) as [r |].
  - destruct Hrow as (old & -> & _). cbn [length]. lia.
  - lia.
Qed.

End FlowFacts.

(** ** The storage server and the upload client *)

Module ServerFacts.
Import JS Server Client.

Lemma prefix_app (p r : string) : String.prefix p (p ++ r) = true.
Proof.
  induction p as [| c p IH]; [destruct r; reflexivity |].
  change (String.prefix (String c p) (String c (p ++ r)) = true). cbn [String.prefix].
  destruct (ascii_dec c c) as [_ | Hne]; [exact IH | contradiction Hne; reflexivity].
Qed.

Lemma prefix_app_cancel (a b c : string) :
  String.prefix (a ++ b) (a ++ c) = String.prefix b c.
Proof.
  induction a as [| x a IH]; [reflexivity |].
  change (String.prefix (String x (a ++ b)) (String x (a ++ c)) = String.prefix b c).
  cbn [String.prefix].
  destruct (ascii_dec x x) as [_ | Hne]; [exact IH | contradiction Hne; reflexivity].
Qed.

Lemma includes_skip (a s p : string) :
  includes s p = true -> includes (a ++ s) p = true.
Proof.
  intros H. induction a as [| c a IH]; [exact H |].
  change (includes (String c (a ++ s)) p = true).
  cbn [includes]. rewrite IH. apply orb_true_r.
Qed.

Lemma includes_prefix (p r : string) : includes (p ++ r) p = true.
Proof.
  destruct (p ++ r) eqn:E; cbn [includes]; unfold startsWith; rewrite <- E;
    rewrite prefix_app; reflexivity.
Qed.

(** The name that [init] gives to the object of an upload lies under the
    prefix of its year and holds the hash. *)
Lemma fileName_shape (year stamp hash type : string) :
  let fileName := "data/" ++ year ++ "/" ++ stamp ++ "_" ++ hash ++ "_" ++ type ++ ".json" in
  startsWith fileName ("data/" ++ year ++ "/") = true
  /\ includes fileName hash = true.
Proof.
  cbv zeta. split.
  - unfold startsWith. rewrite !prefix_app_cancel. apply prefix_app.
  - do 5 apply includes_skip. apply includes_prefix.
Qed.

Lemma find_first_match {A : Type} (p : A -> bool) (l : list A) (x : A) :
  In x l -> p x = true -> exists y, find p l = Some y /\ p y = true /\ In y l.
Proof.
  induction l as [| z l IH]; intros Hin Hp; [destruct Hin |].
  cbn [find]. destruct (p z) eqn:Ez.
  - exists z. split; [reflexivity |]. split; [exact Ez | left; reflexivity].
  - destruct Hin as [-> | Hin]; [congruence |].
    destruct (IH Hin Hp) as (y & Hy & Hpy & Hiny).
    exists y. split; [exact Hy |]. split; [exact Hpy | right; exact Hiny].
Qed.

Lemma find_no_match {A : Type} (p : A -> bool) (l : list A) :
  (forall x, In x l -> p x = false) -> find p l = None.
Proof.
  induction l as [| z l IH]; intros Hall; [reflexivity |].
  cbn [find]. rewrite (Hall z) by (left; reflexivity).
  apply IH. intros x Hx. apply Hall. right. exact Hx.
Qed.

Lemma hashPattern_given (hash : string) :
  hashPattern hash = true -> isEmpty hash = false.
Proof.
  unfold hashPattern. destruct hash; [discriminate | reflexivity].
Qed.

Lemma save_quiet (b : Bucket) (content : Content) :
  save b content (generation b) = Some (overwrite b content).
Proof. unfold save. rewrite Z.eqb_refl. reflexivity. Qed.

Lemma save_refused (b : Bucket) (other content : Content) :
  save (overwrite b other) content (generation b) = None.
Proof.
  unfold save. cbn [overwrite generation metadata].
  destruct (Z.eqb_spec (generation b + 1) (generation b)); [lia | reflexivity].
Qed.

Lemma save_fresh (b : Bucket) (content : Content) :
  metadata b = None -> save b content 0 = Some (overwrite b content).
Proof. intros H. unfold save, generation. rewrite H. reflexivity. Qed.

(** A round that finds no [metadata.json], and that no other writer
    disturbs, saves a fresh metadata object. *)
Lemma attempt_fresh (retries : nat) (b : Bucket) (year hash : string)
    (now : nat -> string) :
  metadata b = None ->
  attempt (S retries) b [] year hash now
  = (true, overwrite b (Valid (register emptyMeta year hash (now (S retries))))).
Proof. intros H. cbn [attempt]. rewrite H, (save_fresh b _ H). reflexivity. Qed.

(** A round that finds [metadata.json] throws. *)
Lemma attempt_present (retries : nat) (b : Bucket) (others : list (option Content))
    (year hash : string) (now : nat -> string) :
  is_Some (metadata b) ->
  attempt (S retries) b others year hash now = (false, b).
Proof. intros [x H]. cbn [attempt]. rewrite H. reflexivity. Qed.

(** A round that another writer disturbs is lost, and the next one finds
    the file of that writer. *)
Lemma attempt_disturbed (retries : nat) (b : Bucket) (other : Content)
    (others : list (option Content)) (year hash : string) (now : nat -> string) :
  metadata b = None ->
  attempt (S (S retries)) b (Some other :: others) year hash now
  = (false, overwrite b other).
Proof.
  intros H.
  change (attempt (S (S retries)) b (Some other :: others) year hash now)
    with (match metadata b with
          | Some _ => (false, b)
          | None =>
              match save (overwrite b other)
                      (Valid (register emptyMeta year hash (now (S (S retries))))) 0 with
              | Some saved => (true, saved)
              | None => attempt (S retries) (overwrite b other) others year hash now
              end
          end).
  rewrite H. unfold save, generation at 1. cbn [overwrite metadata].
  unfold generation. rewrite H. cbn [Z.add Z.eqb].
  apply attempt_present. eexists. reflexivity.
Qed.

Lemma attempt_objects (retries : nat) (b : Bucket) (others : list (option Content))
    (year hash : string) (now : nat -> string) :
  objects (snd (attempt retries b others year hash now)) = objects b.
Proof.
  revert b others. induction retries as [| retries IH]; intros b others; [reflexivity |].
  cbn [attempt]. destruct (metadata b) as [x |]; [reflexivity |].
  destruct (save _ _ _) as [saved |] eqn:Es.
  - unfold save in Es. destruct (_ =? _); [| discriminate].
    injection Es as <-. destruct others as [| [c |] rest]; reflexivity.
  - rewrite IH. destruct others as [| [c |] rest]; reflexivity.
Qed.

Section Routes.

Variable verify : string -> bool.

(** X19: a request that fails the check of the CSRF token or carries no
    valid session token is answered 403 or 401 and leaves the bucket as it
    is; no route creates, renames or removes a data object; and the only
    requests that change the bucket at all are POSTs to [finalize] that pass
    both checks and name a year and a hash. *)
Theorem refused_requests_change_nothing (route : Route) (env : Outside) (b : Bucket)
    (req : Request.t) :
  let answer := serve verify route env b req in
  (csrfInvalid req = true -> answer = (Error 403 "CSRF Token Invalid", b))
  /\ (csrfInvalid req = false ->
      forall refusal, requireAuth verify req = Some refusal ->
        snd answer = b
        /\ (fst answer = refusal \/ fst answer = Page
            \/ fst answer = Error 404 "Not Found")
        /\ exists error, refusal = Error 401 error)
  /\ objects (snd answer) = objects b
  /\ (snd answer <> b ->
      route = UploadFinalize
      /\ Request.method req = "POST"
      /\ csrfInvalid req = false
      /\ requireAuth verify req = None
      /\ given (Request.year req) = true
      /\ given (Request.hash req) = true).
Proof.
  intros answer. subst answer. unfold serve.
  destruct (csrfInvalid req) eqn:Ec.
  { split; [reflexivity |]. split; [discriminate |].
    split; [reflexivity |]. intros H. contradiction H. reflexivity. }
  split; [discriminate |].
  assert (Hauth : forall refusal, requireAuth verify req = Some refusal ->
                                  exists error, refusal = Error 401 error).
  { intros refusal. unfold requireAuth.
    destruct (Request.jwtCookie req) as [token |]; [| intros [= <-]; eauto].
    destruct (isEmpty token); [intros [= <-]; eauto |].
    destruct (verify token); [discriminate | intros [= <-]; eauto]. }
  assert (Hfall : forall (x : Response * Bucket),
            x = (if getOrHead (Request.method req) then (Page, b)
                 else (Error 404 "Not Found", b)) ->
            snd x = b /\ (fst x = Page \/ fst x = Error 404 "Not Found")).
  { intros x ->. destruct (getOrHead (Request.method req)); cbn; auto. }
  destruct route as [| | year].
  - destruct (String.eqb (Request.method req) "POST") eqn:Em.
    + destruct (requireAuth verify req) as [refusal |] eqn:Ea; cbn [fst snd].
      * split; [| split; [reflexivity | intros H; contradiction H; reflexivity]].
        intros _ r [= <-]. split; [reflexivity |]. split; [auto | eauto].
      * split; [intros _ r [=] |].
        split; [reflexivity | intros H; contradiction H; reflexivity].
    + destruct (Hfall _ eq_refl) as [Hb Hp]. rewrite Hb.
      split; [| split; [reflexivity | intros H; contradiction H; reflexivity]].
      intros _ r Hr. split; [reflexivity |]. split; [tauto | eauto].
  - destruct (String.eqb (Request.method req) "POST") eqn:Em.
    + destruct (requireAuth verify req) as [refusal |] eqn:Ea; cbn [fst snd].
      * split; [| split; [reflexivity | intros H; contradiction H; reflexivity]].
        intros _ r [= <-]. split; [reflexivity |]. split; [auto | eauto].
      * split; [intros _ r [=] |].
        unfold finalize.
        destruct (given (Request.year req)) eqn:Ey; cbn [negb orb];
          [| split; [reflexivity | intros H; contradiction H; reflexivity]].
        destruct (given (Request.hash req)) eqn:Eh; cbn [negb];
          [| split; [reflexivity | intros H; contradiction H; reflexivity]].
        destruct (Request.year req) as [y |]; [| discriminate].
        destruct (Request.hash req) as [hs |]; [| discriminate].
        pose proof (attempt_objects 3 b (others env) y hs (now env)) as Hobj.
        destruct (attempt 3 b (others env) y hs (now env)) as [[|] b'];
          cbn [snd] in Hobj |- *; (split; [exact Hobj |]);
          intros _; apply String.eqb_eq in Em; auto 7.
    + destruct (Hfall _ eq_refl) as [Hb Hp]. rewrite Hb.
      split; [| split; [reflexivity | intros H; contradiction H; reflexivity]].
      intros _ r Hr. split; [reflexivity |]. split; [tauto | eauto].
  - destruct (getOrHead (Request.method req)) eqn:Em.
    + destruct (requireAuth verify req) as [refusal |] eqn:Ea; cbn [fst snd].
      * split; [| split; [reflexivity | intros H; contradiction H; reflexivity]].
        intros _ r [= <-]. split; [reflexivity |]. split; [auto | eauto].
      * split; [intros _ r [=] |].
        split; [reflexivity | intros H; contradiction H; reflexivity].
    + cbn [fst snd].
      split; [| split; [reflexivity | intros H; contradiction H; reflexivity]].
      intros _ r Hr. split; [reflexivity |]. split; [auto | eauto].
Qed.

(** [finalize] on a bucket without [metadata.json], with no other writer
    about: the first round saves. *)
Lemma finalize_fresh (b : Bucket) (now : nat -> string) (req : Request.t)
    (year hash : string) :
  Request.year req = Some year -> Request.hash req = Some hash ->
  isEmpty year = false -> isEmpty hash = false -> metadata b = None ->
  finalize b [] now req
  = (Success, overwrite b (Valid (register emptyMeta year hash (now 3%nat)))).
Proof.
  intros Ey Eh Hy Hh Hm. unfold finalize, given. rewrite Ey, Eh, Hy, Hh.
  cbn [negb orb]. rewrite (attempt_fresh _ _ _ _ _ Hm). reflexivity.
Qed.

(** [finalize] on a bucket that holds [metadata.json]: the first round
    throws. *)
Lemma finalize_present (b : Bucket) (others : list (option Content))
    (now : nat -> string) (req : Request.t) :
  given (Request.year req) = true -> given (Request.hash req) = true ->
  is_Some (metadata b) ->
  finalize b others now req = (Error 500 "Finalization failed", b).
Proof.
  intros Hy Hh Hm. unfold finalize. rewrite Hy, Hh. cbn [negb orb].
  destruct (Request.year req) as [year |]; [| discriminate].
  destruct (Request.hash req) as [hash |]; [| discriminate].
  rewrite (attempt_present _ _ _ _ _ _ Hm). reflexivity.
Qed.

End Routes.

(** X20: in a bucket that has no [metadata.json] yet, [finalize] registers
    whatever non-empty year and hash it is given, without the checks that
    [init] makes and without looking for the uploaded object.  With no
    other writer about the request is answered with success and no object
    is touched.  The metadata written holds one entry, for the year of the
    request: active, version 1, with the hash of the request; for the year
    [__proto__] it holds no entry at all.  The records route then answers
    that year with 404: "File object missing" when no object carries the
    hash in its name, and "Data not found" for the year [__proto__]. *)
Theorem finalize_registers_unchecked (b : Bucket) (now : nat -> string)
    (req : Request.t) (year hash : string) :
  Request.year req = Some year -> Request.hash req = Some hash ->
  isEmpty year = false -> isEmpty hash = false -> metadata b = None ->
  let entry := YearEntry.mk "active" 1%float hash in
  let meta :=
    mkMeta (if String.eqb year "__proto__" then ∅ else <[year := entry]> ∅)
      (now 3%nat) in
  exists g,
    let after := mkBucket (Some (Valid meta, g)) (objects b) in
    finalize b [] now req = (Success, after)
    /\ (year <> "__proto__" ->
        (forall name, In name (objects b) -> includes name hash = false) ->
        records after year = Error 404 "File object missing")
    /\ (year = "__proto__" -> records after year = Error 404 "Data not found").
Proof.
  intros Ey Eh Hy Hh Hm entry meta.
  exists (generation b + 1). cbv zeta.
  split; [rewrite (finalize_fresh b now req year hash Ey Eh Hy Hh Hm); reflexivity |].
  split.
  - intros Hproto Hnone.
    assert (Hkey : String.eqb year "__proto__" = false)
      by (apply String.eqb_neq; exact Hproto).
    unfold records, meta. cbn [metadata years objects]. rewrite Hkey.
    rewrite lookup_insert_eq. cbn [entry YearEntry.hash]. rewrite Hh.
    rewrite find_no_match; [reflexivity |].
    intros name Hin. apply filter_In in Hin as [Hin _]. apply Hnone, Hin.
  - intros ->. reflexivity.
Qed.

Lemma finalize_registers_unchecked_witness :
  let req := Request.mk "POST" None None None (Some "1999") None (Some "x") in
  exists meta g,
    finalize (mkBucket None []) [] (fun _ => "") req
    = (Success, mkBucket (Some (Valid meta, g)) [])
    /\ records (mkBucket (Some (Valid meta, g)) []) "1999"
       = Error 404 "File object missing".
Proof.
  cbv zeta.
  destruct (finalize_registers_unchecked (mkBucket None []) (fun _ => "")
              (Request.mk "POST" None None None (Some "1999") None (Some "x"))
              "1999" "x" eq_refl eq_refl eq_refl eq_refl eq_refl)
    as (g & Hrun & Hmissing & _).
  eexists _, g. split; [exact Hrun |].
  apply Hmissing; [discriminate | intros name []].
Defined.



End ServerFacts.

(** ** An upload from end to end *)

Module UploadFacts.
Import JS Server Client.

Section Upload.

Variable verify : string -> bool.

(** The requests of a browser that holds the token cookie, sends it back
    in the header and carries a session token that verifies pass both
    middlewares. *)
Lemma post_passes (browser : Browser) (year : Z) (hash token : string) :
  given (xsrfCookie browser) = true ->
  xsrfCookie browser = Some (xsrfHeader browser) ->
  jwtCookie browser = Some token -> isEmpty token = false -> verify token = true ->
  csrfInvalid (post browser year hash) = false
  /\ requireAuth verify (post browser year hash) = None.
Proof.
  intros Hgiven Hsame Hjwt Htoken Hverify. split.
  - unfold csrfInvalid, post.
    cbn [Request.method Request.xsrfCookie Request.xsrfHeader].
    rewrite Hgiven, Hsame. cbn [same]. rewrite String.eqb_refl.
    apply andb_false_r.
  - unfold requireAuth, post. cbn [Request.jwtCookie].
    rewrite Hjwt, Htoken, Hverify. reflexivity.
Qed.

Lemma offered_year (year : Z) :
  offersUpload year = true ->
  existsb (String.eqb (intToString year)) ["2023"; "2024"; "2025"] = true
  /\ String.eqb (intToString year) "__proto__" = false
  /\ isEmpty (intToString year) = false.
Proof.
  unfold offersUpload. cbn [existsb]. intros H.
  destruct (Z.eqb_spec year 2023) as [E | _]; [rewrite E; repeat split; reflexivity |].
  destruct (Z.eqb_spec year 2024) as [E | _]; [rewrite E; repeat split; reflexivity |].
  destruct (Z.eqb_spec year 2025) as [E | _]; [rewrite E; repeat split; reflexivity |].
  discriminate.
Qed.

(** [init] once the request is let through. *)
Lemma init_offered (b : Bucket) (stamp : Z) (browser : Browser) (year : Z)
    (hash : string) :
  offersUpload year = true -> hashPattern hash = true ->
  let y := intToString year in
  let known :=
    match metadata b with
    | Some (Valid meta, _) =>
        match years meta !! y with
        | Some entry => String.eqb (YearEntry.hash entry) hash
        | None => false
        end
    | _ => false
    end in
  let fileName :=
    "data/" ++ y ++ "/" ++ intToString stamp ++ "_" ++ hash ++ "_" ++ "records"
    ++ ".json" in
  init b stamp (post browser year hash)
  = if known then UploadExists else UploadOk (mkUrl write fileName) fileName.
Proof.
  intros Hyear Hhash y known fileName. unfold init, post.
  cbn [Request.year Request.type Request.hash].
  destruct (offered_year year Hyear) as (Hy & _ & _). fold y in Hy.
  fold y. rewrite Hy, Hhash.
  change (String.eqb "records" "records") with true. cbn [negb orb].
  reflexivity.
Qed.

(** X22: an upload with good credentials (the header carries what the
    server reads as the token cookie, and the session token verifies), for
    a year that the application offers and with a well-formed hash, which
    the storage service accepts and no other writer disturbs, ends in one
    of three ways.  When the metadata holds the hash for the year already,
    nothing is sent but the first request, the bucket is as before and the
    call returns.  When the bucket has no [metadata.json], all four steps
    are run and the call returns; afterwards the metadata holds the hash
    for the year, the records route answers the year with a read URL for an
    object that lies under the prefix of the year and carries the hash in
    its name, and uploading the same data once more changes nothing.  When
    [metadata.json] exists and does not hold the hash for the year, the
    object is uploaded, [finalize] fails, and the call throws "Finalization
    failed" after three progress messages, the metadata being as before. *)
Theorem upload_then_download (browser : Browser) (env : Outside) (b : Bucket)
    (year : Z) (hash token : string) :
  given (xsrfCookie browser) = true ->
  xsrfCookie browser = Some (xsrfHeader browser) ->
  jwtCookie browser = Some token -> isEmpty token = false -> verify token = true ->
  offersUpload year = true -> hashPattern hash = true -> others env = [] ->
  let out := uploadDataset verify browser env true b year hash in
  let y := intToString year in
  let fileName :=
    "data/" ++ y ++ "/" ++ intToString (timestamp env) ++ "_" ++ hash ++ "_records.json" in
  let holds (b0 : Bucket) :=
    exists meta g entry,
      metadata b0 = Some (Valid meta, g)
      /\ years meta !! y = Some entry
      /\ YearEntry.hash entry = hash in
  (holds b ->
   out = mkOutcome None
           ["Initiating secure upload..."; "Data is already up to date."] b)
  /\ (metadata b = None ->
      thrown out = None
      /\ progress out
         = ["Initiating secure upload..."; "Uploading to secure storage (GCS)...";
            "Verifying and finalizing..."; "Success!"]
      /\ holds (bucket out)
      /\ (exists name,
            records (bucket out) y = ReadUrl (mkUrl read name)
            /\ startsWith name ("data/" ++ y ++ "/") = true
            /\ includes name hash = true)
      /\ forall env' storageAccepts,
           uploadDataset verify browser env' storageAccepts (bucket out) year hash
           = mkOutcome None
               ["Initiating secure upload..."; "Data is already up to date."]
               (bucket out))
  /\ (is_Some (metadata b) -> ~ holds b ->
      out = mkOutcome (Some "Finalization failed")
              ["Initiating secure upload..."; "Uploading to secure storage (GCS)...";
               "Verifying and finalizing..."]
              (put b (mkUrl write fileName))).
Proof.
  intros Hgiven Hsame Hjwt Htoken Hverify Hyear Hhash Hquiet out y fileName holds.
  destruct (post_passes browser year hash token Hgiven Hsame Hjwt Htoken Hverify)
    as [Hcsrf Hauth].
  destruct (offered_year year Hyear) as (Hy & Hproto & Hyne). fold y in Hy, Hproto, Hyne.
  assert (Hinit : forall env0 b0,
            serve verify UploadInit env0 b0 (post browser year hash)
            = (init b0 (timestamp env0) (post browser year hash), b0)).
  { intros env0 b0. unfold serve. rewrite Hcsrf, Hauth. reflexivity. }
  assert (Hfinalize : forall b0,
            serve verify UploadFinalize env b0 (post browser year hash)
            = finalize b0 [] (now env) (post browser year hash)).
  { intros b0. unfold serve. rewrite Hcsrf, Hauth, Hquiet. reflexivity. }
  assert (Hagain : forall b0, holds b0 ->
            forall env' storageAccepts,
              uploadDataset verify browser env' storageAccepts b0 year hash
              = mkOutcome None
                  ["Initiating secure upload..."; "Data is already up to date."] b0).
  { intros b0 (meta & g & entry & Hm & He & Hh) env' storageAccepts.
    unfold uploadDataset. rewrite Hinit.
    rewrite (init_offered b0 (timestamp env') browser year hash Hyear Hhash).
    fold y. rewrite Hm, He, Hh, String.eqb_refl. reflexivity. }
  assert (Hunknown : ~ holds b ->
            init b (timestamp env) (post browser year hash)
            = UploadOk (mkUrl write fileName) fileName).
  { intros Hnot.
    rewrite (init_offered b (timestamp env) browser year hash Hyear Hhash). fold y.
    destruct (metadata b) as [[[meta |] g] |] eqn:Em; try reflexivity.
    destruct (years meta !! y) as [entry |] eqn:Ee; [| reflexivity].
    destruct (String.eqb_spec (YearEntry.hash entry) hash) as [E | _]; [| reflexivity].
    contradiction Hnot. exists meta, g, entry. auto. }
  split; [intros Hholds; apply (Hagain b Hholds) |].
  split.
  - (* no metadata yet: the four steps *)
    intros Hnone.
    assert (Hnot : ~ holds b).
    { intros (meta & g & entry & Hm & _). congruence. }
    set (b2 := put b (mkUrl write fileName)).
    set (updated := register emptyMeta y hash (now env 3%nat)).
    set (entry := YearEntry.mk "active" (nextVersion None) hash).
    assert (Hrun : out = mkOutcome None
                           ["Initiating secure upload...";
                            "Uploading to secure storage (GCS)...";
                            "Verifying and finalizing..."; "Success!"]
                           (overwrite b2 (Valid updated))).
    { subst out. unfold uploadDataset. rewrite Hinit, (Hunknown Hnot).
      cbn [ok negb]. fold b2. rewrite Hfinalize.
      rewrite (ServerFacts.finalize_fresh b2 (now env) (post browser year hash) y hash
                 eq_refl eq_refl Hyne (ServerFacts.hashPattern_given hash Hhash)).
      - reflexivity.
      - exact Hnone. }
    assert (Hentry : years updated !! y = Some entry).
    { unfold updated, register. rewrite Hproto. cbn [years emptyMeta].
      rewrite lookup_empty. apply lookup_insert_eq. }
    assert (Hholds : holds (overwrite b2 (Valid updated))).
    { exists updated, (generation b2 + 1), entry.
      split; [reflexivity |]. split; [exact Hentry | reflexivity]. }
    rewrite Hrun. cbn [thrown progress bucket].
    split; [reflexivity |]. split; [reflexivity |]. split; [exact Hholds |].
    split; [| apply (Hagain _ Hholds)].
    destruct (ServerFacts.fileName_shape y (intToString (timestamp env)) hash "records")
      as [Hprefix Hhas].
    cbv zeta in Hprefix, Hhas.
    change ("data/" ++ y ++ "/" ++ intToString (timestamp env) ++ "_" ++ hash ++ "_"
            ++ "records" ++ ".json") with fileName in Hprefix, Hhas.
    assert (Hin : In fileName (objects b2)).
    { unfold b2, put. cbn [action name objects].
      destruct (existsb (String.eqb fileName) (objects b)) eqn:Ex.
      - apply existsb_exists in Ex as (x & Hx & E).
        apply String.eqb_eq in E. subst x. exact Hx.
      - apply IndexFacts.In_insertSorted. left. reflexivity. }
    destruct (ServerFacts.find_first_match
                (fun name => includes name hash)
                (List.filter (fun name => startsWith name ("data/" ++ y ++ "/"))
                   (objects b2))
                fileName)
      as (name & Hfind & Hname & Hlisted).
    { apply filter_In. split; [exact Hin | exact Hprefix]. }
    { exact Hhas. }
    exists name. split.
    + unfold records. cbn [overwrite metadata objects].
      rewrite Hentry. cbn [entry YearEntry.hash].
      rewrite (ServerFacts.hashPattern_given hash Hhash), Hfind. reflexivity.
    + split; [| exact Hname].
      apply filter_In in Hlisted as [_ Hp]. exact Hp.
  - (* metadata that does not hold the hash *)
    intros Hsome Hnot. subst out. unfold uploadDataset.
    rewrite Hinit, (Hunknown Hnot). cbn [ok negb].
    rewrite Hfinalize, ServerFacts.finalize_present; [reflexivity | | |].
    + unfold given, post. cbn [Request.year]. fold y. rewrite Hyne. reflexivity.
    + unfold given, post. cbn [Request.hash].
      rewrite (ServerFacts.hashPattern_given hash Hhash). reflexivity.
    + unfold put. cbn [action metadata]. exact Hsome.
Qed.

End Upload.

Lemma upload_then_download_witness :
  let browser := mkBrowser (Some "k3x") "k3x" (Some "session") in
  let hash := "0123456789abcdef0123456789abcdef0123456789abcdef0123456789abcdef" in
  (given (xsrfCookie browser) = true
   /\ offersUpload 2024 = true
   /\ hashPattern hash = true)
  /\ thrown (uploadDataset (fun _ => true) browser (mkOutside 1700000000000 (fun _ => "") [])
               true (mkBucket None []) 2024 hash) = None.
Proof.
  cbv zeta. split; [repeat split; reflexivity |].
  exact (proj1 (proj1 (proj2 (upload_then_download (fun _ => true)
                  (mkBrowser (Some "k3x") "k3x" (Some "session"))
                  (mkOutside 1700000000000 (fun _ => "") [])
                  (mkBucket None []) 2024
                  "0123456789abcdef0123456789abcdef0123456789abcdef0123456789abcdef"
                  "session" eq_refl eq_refl eq_refl eq_refl eq_refl eq_refl eq_refl
                  eq_refl)) eq_refl)).
Defined.

End UploadFacts.

(** ** Loading a year from the cloud *)

Module FetchFacts.
Import JS Worker Server Terms Fetch.

(** *** [parseInt(String(n))] *)

Lemma digit_char (d : Z) :
  0 <= d <= 9 ->
  let c := ascii_of_N (Z.to_N (48 + d)) in
  isDigit c = true /\ digitValue c = d /\ isWhiteSpace c = false.
Proof.
  intros Hd.
  assert (C : d = 0 \/ d = 1 \/ d = 2 \/ d = 3 \/ d = 4 \/ d = 5 \/ d = 6 \/ d = 7
              \/ d = 8 \/ d = 9) by lia.
  repeat (destruct C as [-> | C]); [.. | subst d]; repeat split; reflexivity.
Qed.

Lemma decimalDigits_digits (fuel : nat) (n : Z) (acc : string) :
  0 <= n -> allChars isDigit acc = true ->
  allChars isDigit (decimalDigits fuel n acc) = true.
Proof.
  revert n acc. induction fuel as [| fuel IH]; intros n acc Hn Hacc; [exact Hacc |].
  cbn [decimalDigits].
  destruct (digit_char (n mod 10)) as (Hd & _ & _);
    [pose proof (Z.mod_pos_bound n 10); lia |].
  cbv zeta in Hd.
  assert (Hacc' : allChars isDigit
                    (String (ascii_of_N (Z.to_N (48 + n mod 10))) acc) = true)
    by (cbn [allChars]; rewrite Hd, Hacc; reflexivity).
  destruct (n <? 10); [exact Hacc' |].
  apply IH; [apply Z.div_pos; lia | exact Hacc'].
Qed.

Lemma decimalDigits_value (fuel : nat) (n : Z) (acc : string) :
  0 <= n < 10 ^ Z.of_nat fuel ->
  exists k, 0 <= k
            /\ forall v, digitsValueFrom v (decimalDigits fuel n acc)
                         = digitsValueFrom (10 ^ k * v + n) acc.
Proof.
  revert n acc. induction fuel as [| fuel IH]; intros n acc Hn.
  - exists 0. split; [lia |]. intros v. cbn [decimalDigits].
    change (10 ^ Z.of_nat 0) with 1 in Hn. f_equal; lia.
  - cbn [decimalDigits].
    destruct (digit_char (n mod 10)) as (_ & Hv & _);
      [pose proof (Z.mod_pos_bound n 10); lia |].
    cbv zeta in Hv.
    destruct (Z.ltb_spec n 10) as [Hsmall | Hbig].
    + exists 1. split; [lia |]. intros v. cbn [digitsValueFrom]. rewrite Hv.
      rewrite Z.mod_small by lia. f_equal; lia.
    + destruct (IH (n / 10)
                  (String (ascii_of_N (Z.to_N (48 + n mod 10))) acc))
        as (k & Hk & Hval).
      { split; [apply Z.div_pos; lia |].
        apply Z.div_lt_upper_bound; [lia |].
        rewrite Nat2Z.inj_succ, Z.pow_succ_r in Hn by lia. lia. }
      exists (k + 1). split; [lia |]. intros v. rewrite Hval.
      cbn [digitsValueFrom]. rewrite Hv. f_equal.
      rewrite Z.pow_add_r by lia. change (10 ^ 1) with 10.
      pose proof (Z.div_mod n 10 ltac:(lia)). lia.
Qed.

Lemma decimalDigits_given (fuel : nat) (n : Z) (acc : string) :
  isEmpty acc = false -> isEmpty (decimalDigits fuel n acc) = false.
Proof.
  revert n acc. induction fuel as [| fuel IH]; intros n acc Hacc; [exact Hacc |].
  cbn [decimalDigits]. destruct (n <? 10); [reflexivity |]. apply IH. reflexivity.
Qed.

Lemma span_digits (s : string) :
  allChars isDigit s = true -> span isDigit s = (s, "").
Proof.
  induction s as [| c s IH]; intros H; [reflexivity |].
  cbn [allChars] in H. apply andb_true_iff in H as [Hc Hs].
  cbn [span]. rewrite Hc, (IH Hs). reflexivity.
Qed.

Lemma fuel_suffices (n : Z) :
  0 <= n -> n < 10 ^ Z.of_nat (S (Z.to_nat (Z.log2 n))).
Proof.
  intros Hn. rewrite Nat2Z.inj_succ, Z2Nat.id by apply Z.log2_nonneg.
  destruct (Z.eq_dec n 0) as [-> | Hpos]; [reflexivity |].
  pose proof (Z.log2_spec n ltac:(lia)) as [_ Hlt].
  pose proof (Z.log2_nonneg n) as Hl.
  assert (2 ^ Z.succ (Z.log2 n) <= 10 ^ Z.succ (Z.log2 n))
    by (apply Z.pow_le_mono_l; lia).
  lia.
Qed.

Lemma digit_plain (c : ascii) :
  isDigit c = true ->
  Ascii.eqb c "-" = false /\ Ascii.eqb c "+" = false
  /\ Ascii.eqb c "x" = false /\ Ascii.eqb c "X" = false.
Proof.
  destruct c as [[] [] [] [] [] [] [] []]; intros H;
    try discriminate H; repeat split; reflexivity.
Qed.

(** The text of a year number, read back. *)
Lemma parseInt_intToString (n : Z) : 0 <= n -> parseInt (intToString n) = Some n.
Proof.
  intros Hn. unfold parseInt, intToString.
  destruct (Z.ltb_spec n 0); [lia |].
  set (fuel := S (Z.to_nat (Z.log2 n))).
  assert (Hdigits : allChars isDigit (decimalDigits fuel n "") = true)
    by (apply decimalDigits_digits; [exact Hn | reflexivity]).
  assert (Hgiven : isEmpty (decimalDigits fuel n "") = false).
  { unfold fuel. cbn [decimalDigits]. destruct (n <? 10); [reflexivity |].
    apply decimalDigits_given. reflexivity. }
  assert (Htrim : trimStart (decimalDigits fuel n "") = decimalDigits fuel n "").
  { destruct (decimalDigits fuel n "") as [| c s]; [reflexivity |].
    cbn [allChars] in Hdigits. apply andb_true_iff in Hdigits as [Hc _].
    cbn [trimStart]. rewrite (DateFacts.digit_not_space c Hc). reflexivity. }
  assert (Hvalue : digitsValue (decimalDigits fuel n "") = n).
  { destruct (decimalDigits_value fuel n "" (conj Hn (fuel_suffices n Hn)))
      as (k & _ & Hval).
    unfold digitsValue. rewrite Hval. cbn [digitsValueFrom]. lia. }
  assert (Hrun : decimalDigitsOf (decimalDigits fuel n "") = Some n).
  { unfold decimalDigitsOf. rewrite (span_digits _ Hdigits), Hgiven, Hvalue.
    reflexivity. }
  rewrite Htrim.
  destruct (decimalDigits fuel n "") as [| c s]; [discriminate Hgiven |].
  cbn [allChars] in Hdigits. apply andb_true_iff in Hdigits as [Hc Hs].
  destruct (digit_plain c Hc) as (Hminus & Hplus & _). rewrite Hminus, Hplus.
  destruct s as [| x s]; [rewrite Hrun; reflexivity |].
  cbn [allChars] in Hs. apply andb_true_iff in Hs as [Hx _].
  destruct (digit_plain x Hx) as (_ & _ & Hlower & Hupper).
  rewrite Hlower, Hupper, andb_false_r, Hrun. reflexivity.
Qed.

(** *** The reconstruction *)

Lemma keyOf_normalized (key : option string) (name : string) :
  keyOf key name
  = match key with
    | Some k => if isEmpty k then normalized name else k
    | None => normalized name
    end.
Proof.
  unfold keyOf, normalized. destruct name; reflexivity.
Qed.

Lemma set_of_field (field : RentalRecord.t -> string) (records : list RentalRecord.t)
    (start : list string) :
  let set := fold_left (fun set r => setAdd (field r) set) records start in
  (List.NoDup start -> List.NoDup set)
  /\ forall s, In s set <-> In s start \/ exists r, In r records /\ field r = s.
Proof.
  revert start. induction records as [| r records IH]; intros start; cbv zeta.
  - cbn. split; [auto |]. intros s. split; [auto |].
    intros [H | (r & [] & _)]. exact H.
  - cbn [fold_left]. destruct (IH (setAdd (field r) start)) as [Hnd Hin].
    cbv zeta in Hnd, Hin.
    split; [intros H; apply Hnd, IndexFacts.NoDup_setAdd, H |].
    intros s. rewrite Hin, IndexFacts.In_setAdd. cbn [In]. split.
    + intros [[-> | H] | (r' & Hr' & E)].
      * right. exists r. auto.
      * left. exact H.
      * right. exists r'. auto.
    + intros [H | (r' & [<- | Hr'] & E)].
      * left. right. exact H.
      * left. left. symmetry. exact E.
      * right. exists r'. auto.
Qed.

Lemma index_exact (field : RentalRecord.t -> string) (records : list RentalRecord.t) :
  ascending (index field records)
  /\ forall s, In s (index field records) <-> exists r, In r records /\ field r = s.
Proof.
  unfold index. destruct (set_of_field field records []) as [Hnd Hin].
  cbv zeta in Hnd, Hin. split.
  - apply IndexFacts.sorted_ascending, Hnd. constructor.
  - intros s. rewrite IndexFacts.In_sorted, Hin. cbn [In]. tauto.
Qed.



(** *** The registry and the year of a dataset *)

Lemma step_filed (st : Registry.State) (ev : Registry.Event) :
  (forall year data,
     Registry.datasetRegistry st !! year = Some data -> ProcessedData.year data = year) ->
  match ev with
  | Registry.FetchResolves p data =>
      match Registry.fetches st !! p with
      | Some year => ProcessedData.year data = year
      | None => True
      end
  | _ => True
  end ->
  forall year data,
    Registry.datasetRegistry (Registry.step st ev) !! year = Some data ->
    ProcessedData.year data = year.
Proof.
  intros Hinv Hev year data.
  destruct ev as [y | p d | p | d |]; cbn [Registry.step].
  - unfold Registry.loadYear. destruct (Registry.rendered st !! y); [apply Hinv |].
    destruct (Registry.inflightRequests st !! y); cbn; apply Hinv.
  - unfold Registry.settle. destruct (Registry.fetches st !! p) as [y |]; [| apply Hinv].
    cbn. destruct (Z.eq_dec y year) as [-> | Hne].
    + rewrite lookup_insert_eq. intros [= <-]. exact Hev.
    + rewrite lookup_insert_ne by exact Hne. apply Hinv.
  - unfold Registry.settle. destruct (Registry.fetches st !! p); cbn; apply Hinv.
  - cbn. destruct (Z.eq_dec (ProcessedData.year d) year) as [E | Hne].
    + rewrite E, lookup_insert_eq. intros [= <-]. exact E.
    + rewrite lookup_insert_ne by exact Hne. apply Hinv.
  - cbn. apply Hinv.
Qed.

(** X24: as long as every fetch delivers a dataset of the year it was
    asked for, which is what [fetchYearData] does, every dataset of the
    registry sits under its own year, fetched or uploaded from a file, at
    every moment of a session; and so does every dataset that the
    dashboard sees. *)
Theorem registry_filed_by_year (evs : list Registry.Event) :
  fetchedByYear Registry.initial evs ->
  let st := Registry.run Registry.initial evs in
  forall year data,
    (Registry.datasetRegistry st !! year = Some data -> ProcessedData.year data = year)
    /\ (Registry.rendered (Registry.render st) !! year = Some data ->
        ProcessedData.year data = year).
Proof.
  intros Hfetch st.
  assert (Hinv : forall evs0 st0,
            (forall year data,
               Registry.datasetRegistry st0 !! year = Some data ->
               ProcessedData.year data = year) ->
            fetchedByYear st0 evs0 ->
            forall year data,
              Registry.datasetRegistry (Registry.run st0 evs0) !! year = Some data ->
              ProcessedData.year data = year).
  { clear. induction evs0 as [| ev evs0 IH]; intros st0 Hst Hf; [exact Hst |].
    change (Registry.run st0 (ev :: evs0))
      with (Registry.run (Registry.step st0 ev) evs0).
    cbn [fetchedByYear] in Hf. destruct Hf as [Hev Hrest].
    apply IH; [| exact Hrest]. apply step_filed; assumption. }
  assert (Hst : forall year data,
            Registry.datasetRegistry st !! year = Some data ->
            ProcessedData.year data = year).
  { apply (Hinv evs Registry.initial); [| exact Hfetch].
    intros year data. cbn. rewrite lookup_empty. discriminate. }
  intros year data. split; [apply Hst | cbn; apply Hst].
Qed.

Lemma registry_filed_by_year_witness :
  let fetched := ProcessedData.mk [] [] [] [] 0 2024 in
  let uploaded := ProcessedData.mk [] [] [] [] 0 0 in
  let evs :=
    [Registry.Call 2024; Registry.FetchResolves 0 fetched;
     Registry.LocalUpload uploaded; Registry.Render] in
  fetchedByYear Registry.initial evs
  /\ Registry.datasetRegistry (Registry.run Registry.initial evs) !! 0 = Some uploaded
  /\ ProcessedData.year uploaded = 0.
Proof.
  cbv zeta.
  assert (Hf : fetchedByYear Registry.initial
                 [Registry.Call 2024;
                  Registry.FetchResolves 0 (ProcessedData.mk [] [] [] [] 0 2024);
                  Registry.LocalUpload (ProcessedData.mk [] [] [] [] 0 0);
                  Registry.Render]).
  { cbn [fetchedByYear]. repeat split. }
  split; [exact Hf |].
  assert (Hu : Registry.datasetRegistry
                 (Registry.run Registry.initial
                    [Registry.Call 2024;
                     Registry.FetchResolves 0 (ProcessedData.mk [] [] [] [] 0 2024);
                     Registry.LocalUpload (ProcessedData.mk [] [] [] [] 0 0);
                     Registry.Render]) !! 0
               = Some (ProcessedData.mk [] [] [] [] 0 0))
    by (vm_compute; reflexivity).
  split; [exact Hu |].
  exact (proj1 (registry_filed_by_year _ Hf 0 _) Hu).
Defined.

End FetchFacts.

(** ** The download of a year *)

Module DownloadFacts.
Import JS Worker Server Terms Fetch.

(** X25: [fetchYearData] delivers a dataset only to a session whose token
    verifies, and only from an object that lies under the prefix of the
    year and whose name carries the hash that the metadata holds for the
    year; the dataset is reconstructed from the records of that object, and
    no request of the function changes the bucket. *)
Theorem fetch_needs_session_and_object (h : Host) (verify : string -> bool)
    (browser : Client.Browser) (env : Outside) (b : Bucket)
    (download : string -> option (list Stored.t)) (year : string)
    (data : ProcessedData.t) :
  fetchYearData h verify browser env b download year = Some data ->
  requireAuth verify (get browser) = None
  /\ snd (serve verify (YearRecords year) env b (get browser)) = b
  /\ exists meta g entry name records,
       metadata b = Some (Valid meta, g)
       /\ years meta !! year = Some entry
       /\ In name (objects b)
       /\ startsWith name ("data/" ++ year ++ "/") = true
       /\ includes name (YearEntry.hash entry) = true
       /\ download name = Some records
       /\ reconstruct h records year = Some data.
Proof.
  unfold fetchYearData, serve.
  change (csrfInvalid (get browser)) with false.
  change (getOrHead (Request.method (get browser))) with true. cbv iota.
  destruct (requireAuth verify (get browser)) as [refusal |] eqn:Ea.
  { cbn [fst]. unfold requireAuth in Ea.
    destruct (Request.jwtCookie (get browser)) as [token |];
      [| injection Ea as <-; discriminate].
    destruct (isEmpty token); [injection Ea as <-; discriminate |].
    destruct (verify token); [discriminate | injection Ea as <-; discriminate]. }
  cbn [fst snd]. intros Hrun.
  split; [reflexivity |]. split; [reflexivity |].
  unfold records in Hrun.
  destruct (metadata b) as [[[meta |] g] |] eqn:Em; try discriminate.
  destruct (years meta !! year) as [entry |] eqn:Ee; [| discriminate].
  destruct (isEmpty (YearEntry.hash entry)); [discriminate |].
  destruct (find _ _) as [object |] eqn:Ef; [| discriminate].
  cbn [name] in Hrun.
  destruct (download object) as [stored |] eqn:Ed; [| discriminate].
  apply find_some in Ef as [Hin Hhas].
  apply filter_In in Hin as [Hin Hprefix].
  exists meta, g, entry, object, stored.
  split; [reflexivity |]. split; [exact Ee |]. split; [exact Hin |].
  split; [exact Hprefix |]. split; [exact Hhas |]. split; [exact Ed | exact Hrun].
Qed.

Lemma fetch_needs_session_and_object_witness :
  let browser := Client.mkBrowser None "" (Some "session") in
  let entry := YearEntry.mk "active" 1 "abc" in
  let b :=
    mkBucket (Some (Valid (mkMeta {["2024" := entry]} ""), 1))
      ["data/2024/1700000000000_abc_records.json"] in
  let env := mkOutside 0 (fun _ => "") [] in
  (forall h : Host,
     fetchYearData h (fun _ => true) browser env b (fun _ => Some []) "2024"
     = Some (ProcessedData.mk [] [] [] [] 0 2024))
  /\ requireAuth (fun _ => true) (get browser) = None.
Proof.
  cbv zeta.
  assert (Hrun : forall h : Host,
            fetchYearData h (fun _ => true)
              (Client.mkBrowser None "" (Some "session"))
              (mkOutside 0 (fun _ => "") [])
              (mkBucket
                 (Some (Valid (mkMeta {["2024" := YearEntry.mk "active" 1 "abc"]} ""), 1))
                 ["data/2024/1700000000000_abc_records.json"])
              (fun _ => Some []) "2024"
            = Some (ProcessedData.mk [] [] [] [] 0 2024))
    by (intros h; vm_compute; reflexivity).
  split; [exact Hrun |].
  exact (proj1 (fetch_needs_session_and_object
                  {| digitsOf := fun _ => ""; dateToString := fun _ => "";
                     dateParse := fun _ => InvalidDate; monthYearLabel := fun _ => "";
                     toISOString := fun _ => ""; sha256Hex := fun _ => "" |}
                  _ _ _ _ _ _ _ (Hrun _))).
Defined.

End DownloadFacts.

(** ** The two filters side by side *)

Module FilterRefinement.
Import JS Worker Comparison Terms FilterTerms FlowTerms FirstDashboard.

Lemma first_filter_kept (station : string) (groups : list string)
    (range : DateRangeType) (old : Legacy.RentalRecord) (r : RentalRecord.t) :
  RentalRecord.stationKey r = normalized (RentalRecord.station r) ->
  RentalRecord.groupKey r = normalized (RentalRecord.group r) ->
  Legacy.station old = RentalRecord.station r ->
  Legacy.group old = RentalRecord.group r ->
  Legacy.day old = RentalRecord.day r ->
  stationMatch station old && groupMatch groups old && dateMatch range old = true ->
  kept station groups range r = true.
Proof.
  intros Hsk Hgk Es Eg Ed Hmatch.
  apply andb_true_iff in Hmatch as [Hmatch Hdate].
  apply andb_true_iff in Hmatch as [Hstation Hgroup].
  unfold kept.
  assert (H1 : rejectedByStation station r = false).
  { unfold rejectedByStation, targetStationKey. unfold stationMatch in Hstation.
    destruct (String.eqb station "All"); [reflexivity |].
    cbn [orb] in Hstation. apply String.eqb_eq in Hstation.
    rewrite Hsk, <- Es, Hstation. unfold normalized. rewrite String.eqb_refl.
    apply andb_false_r. }
  assert (H2 : rejectedByGroup groups r = false).
  { unfold rejectedByGroup, targetGroupKeys. unfold groupMatch in Hgroup.
    destruct (existsb (String.eqb "All") groups); [reflexivity |].
    cbn [orb] in Hgroup. apply DashboardFacts.existsb_eqb_In in Hgroup.
    apply negb_false_iff, bool_decide_eq_true_2.
    apply elem_of_list_to_set, list_elem_of_In, in_map_iff.
    exists (Legacy.group old). split; [| exact Hgroup].
    rewrite Hgk, <- Eg. reflexivity. }
  assert (H3 : rejectedByRange range r = false).
  { unfold rejectedByRange. unfold dateMatch in Hdate. rewrite Ed in Hdate.
    destruct range; [reflexivity | | |].
    - apply andb_true_iff in Hdate as [Ha Hb]. apply Z.leb_le in Ha, Hb.
      apply orb_false_iff. split; apply Z.ltb_ge; lia.
    - apply andb_true_iff in Hdate as [Ha Hb]. apply Z.leb_le in Ha, Hb.
      apply orb_false_iff. split; apply Z.ltb_ge; lia.
    - apply Z.leb_le in Hdate. apply Z.ltb_ge. lia. }
  rewrite H1, H2, H3. reflexivity.
Qed.

(** X26: the hook filters at least as generously as the first dashboard.
    For a table read by both flows and any selection, a record of the
    worker whose counterpart in the first flow, made from the same row with
    the same group, passes the filter of the first dashboard is kept by
    the hook; the hook compares lower-case, trimmed keys where the first
    dashboard compares the names as they are. *)
Theorem hook_keeps_what_first_filter_keeps (h : Host) (data : list Row)
    (station : string) (groups : list string) (range : DateRangeType) :
  let first := filteredRecords station groups range (Legacy.processRawData h data) in
  Forall
    (fun r =>
       forall old,
         In old first -> sameRental old r ->
         Legacy.group old = RentalRecord.group r ->
         kept station groups range r = true)
    (ProcessedData.records (processRawData h data)).
Proof.
  intros first.
  apply List.Forall_forall. intros r Hr old Hold Hsame Hgroup.
  destruct (DashboardFacts.ingested_keys h data r Hr) as [Hsk Hgk].
  subst first. unfold filteredRecords in Hold.
  apply filter_In in Hold as [_ Hmatch].
  destruct Hsame as (_ & Es & _ & _ & _ & Ed & _).
  apply (first_filter_kept station groups range old r); assumption.
Qed.

End FilterRefinement.

(** ** The CSRF token from the cookie to the header *)

Module CookieFacts.
Import JS Server Cookie.

Lemma hasChar_cons (c x : ascii) (r : string) :
  hasChar c (String x r) = Ascii.eqb c x || hasChar c r.
Proof.
  unfold hasChar. cbn [includes]. unfold startsWith. cbn [String.prefix].
  destruct (ascii_dec c x) as [-> | Hne].
  - rewrite Ascii.eqb_refl. destruct r; reflexivity.
  - apply Ascii.eqb_neq in Hne. rewrite Hne. reflexivity.
Qed.

Lemma splitRows_cons (c : ascii) (r : string) :
  Ascii.eqb c ";" = false ->
  splitRows (String c r)
  = match splitRows r with
    | p :: ps => String c p :: ps
    | [] => [String c EmptyString]
    end.
Proof. intros Hc. cbn [splitRows]. rewrite Hc. reflexivity. Qed.

Lemma splitRows_last (row : string) :
  hasChar ";" row = false -> splitRows row = [row].
Proof.
  induction row as [| c r IH]; intros H; [reflexivity |].
  rewrite hasChar_cons in H. apply orb_false_iff in H as [Hc Hr].
  rewrite Ascii.eqb_sym in Hc.
  rewrite (splitRows_cons c r Hc), (IH Hr). reflexivity.
Qed.

Lemma splitRows_row (row rest : string) :
  hasChar ";" row = false ->
  splitRows (row ++ "; " ++ rest) = row :: splitRows rest.
Proof.
  induction row as [| c r IH]; intros H; [reflexivity |].
  rewrite hasChar_cons in H. apply orb_false_iff in H as [Hc Hr].
  rewrite Ascii.eqb_sym in Hc.
  change (String c r ++ "; " ++ rest) with (String c (r ++ "; " ++ rest)).
  rewrite (splitRows_cons c _ Hc), (IH Hr). reflexivity.
Qed.

(** [document.cookie], split, gives the cookies back. *)
Lemma splitRows_documentCookie (row : string) (rows : list string) :
  Forall (fun row => hasChar ";" row = false) (row :: rows) ->
  splitRows (documentCookie (row :: rows)) = row :: rows.
Proof.
  revert row. induction rows as [| next rows IH]; intros row Hall.
  - apply splitRows_last. inversion Hall. assumption.
  - inversion Hall as [| ? ? Hrow Hrest]. subst.
    change (documentCookie (row :: next :: rows))
      with (row ++ "; " ++ documentCookie (next :: rows)).
    rewrite (splitRows_row row _ Hrow), (IH next Hrest). reflexivity.
Qed.

Lemma split_plain (c : ascii) (s : string) :
  hasChar c s = false -> split c s = [s].
Proof.
  induction s as [| x s IH]; intros H; [reflexivity |].
  rewrite hasChar_cons in H. apply orb_false_iff in H as [Hc Hs].
  cbn [split]. rewrite Ascii.eqb_sym, Hc, (IH Hs). reflexivity.
Qed.

Lemma find_after {A : Type} (p : A -> bool) (before : list A) (x : A) (after : list A) :
  Forall (fun y => p y = false) before -> p x = true ->
  find p (before ++ x :: after) = Some x.
Proof.
  intros Hbefore Hx. induction Hbefore as [| y before Hy _ IH]; cbn [app find].
  - rewrite Hx. reflexivity.
  - rewrite Hy. exact IH.
Qed.

Lemma split_at (c : ascii) (v rest : string) :
  hasChar c v = false ->
  split c (v ++ String c rest) = v :: split c rest.
Proof.
  induction v as [| x v IH]; intros H.
  - change (split c (String c rest) = "" :: split c rest).
    cbn [split]. rewrite Ascii.eqb_refl. reflexivity.
  - rewrite hasChar_cons in H. apply orb_false_iff in H as [Hc Hv].
    change (split c (String x (v ++ String c rest)) = String x v :: split c rest).
    cbn [split]. rewrite Ascii.eqb_sym, Hc, (IH Hv). reflexivity.
Qed.

(** X27: what [headers()] sends as [X-XSRF-TOKEN].  When
    [document.cookie] lists the cookies, none with a semicolon in it, the
    header carries the value of the first cookie named [XSRF-TOKEN] up to
    its first equals sign, which is also what [getCsrfToken] returns: the
    whole value when it has no equals sign, and otherwise only what stands
    before the first one. *)
Theorem csrf_header_from_cookie (before after : list string) (value : string) :
  Forall (fun row => hasChar ";" row = false)
    (before ++ ("XSRF-TOKEN=" ++ value) :: after) ->
  Forall (fun row => startsWith row "XSRF-TOKEN=" = false) before ->
  let cookie := documentCookie (before ++ ("XSRF-TOKEN=" ++ value) :: after) in
  exists sent,
    getCsrfToken cookie = Some sent
    /\ xsrfHeader cookie = sent
    /\ (hasChar "=" value = false -> sent = value)
    /\ (forall first rest,
          value = first ++ "=" ++ rest -> hasChar "=" first = false -> sent = first).
Proof.
  intros Hplain Hbefore cookie.
  assert (Hrows : splitRows cookie = (before ++ ("XSRF-TOKEN=" ++ value)%string :: after)%list).
  { subst cookie.
    destruct (before ++ ("XSRF-TOKEN=" ++ value)%string :: after)%list
      as [| row rows] eqn:E;
      [destruct before; discriminate |].
    apply (splitRows_documentCookie row rows Hplain). }
  assert (Hfind : find (fun row => startsWith row "XSRF-TOKEN=") (splitRows cookie)
                  = Some ("XSRF-TOKEN=" ++ value)).
  { rewrite Hrows. apply (find_after _ before _ after Hbefore).
    unfold startsWith. apply (ServerFacts.prefix_app "XSRF-TOKEN=" value). }
  assert (Hparts : split "=" ("XSRF-TOKEN=" ++ value) = "XSRF-TOKEN" :: split "=" value)
    by reflexivity.
  assert (Hsome : exists sent more, split "=" value = sent :: more).
  { destruct value as [| x r]; [exists "", []; reflexivity |].
    cbn [split]. destruct (Ascii.eqb x "="); [eauto |].
    destruct (split "=" r); eauto. }
  destruct Hsome as (sent & more & Hsent).
  exists sent.
  assert (Htoken : getCsrfToken cookie = Some sent).
  { unfold getCsrfToken. rewrite Hfind, Hparts, Hsent. reflexivity. }
  split; [exact Htoken |].
  split; [unfold xsrfHeader; rewrite Htoken; reflexivity |].
  split.
  - intros Hvalue. rewrite (split_plain "=" value Hvalue) in Hsent. congruence.
  - intros first rest -> Hfirst.
    change (first ++ "=" ++ rest) with (first ++ String "=" rest) in Hsent.
    rewrite (split_at "=" first rest Hfirst) in Hsent. congruence.
Qed.

Lemma csrf_header_from_cookie_witness :
  let rows := ["theme=dark"; "XSRF-TOKEN=k3x9q"; "lang=el"] in
  Forall (fun row => hasChar ";" row = false) rows
  /\ exists sent,
       getCsrfToken (documentCookie rows) = Some sent /\ sent = "k3x9q".
Proof.
  cbv zeta.
  assert (Hplain : Forall (fun row => hasChar ";" row = false)
                     ["theme=dark"; "XSRF-TOKEN=k3x9q"; "lang=el"])
    by (repeat constructor).
  split; [exact Hplain |].
  destruct (csrf_header_from_cookie ["theme=dark"] ["lang=el"] "k3x9q"
              Hplain ltac:(repeat constructor))
    as (sent & Htoken & _ & Hwhole & _).
  exists sent. split; [exact Htoken | apply Hwhole; reflexivity].
Defined.

End CookieFacts.

(** ** The years of the cloud *)

Module YearFacts.
Import JS Server Client.

Lemma offered_iff_listed (year : Z) :
  offersUpload year
  = existsb (String.eqb (intToString year)) ["2023"; "2024"; "2025"].
Proof.
  destruct (offersUpload year) eqn:Eo.
  - symmetry. apply (UploadFacts.offered_year year Eo).
  - symmetry. apply not_true_is_false. intros Hlisted.
    assert (Hyear : year = 2023 \/ year = 2024 \/ year = 2025).
    { destruct (Z.ltb_spec year 0) as [Hneg | Hpos].
      - unfold intToString in Hlisted.
        destruct (Z.ltb_spec year 0); [| lia]. discriminate.
      - pose proof (FetchFacts.parseInt_intToString year Hpos) as Hback.
        cbn [existsb] in Hlisted.
        repeat match type of Hlisted with
               | (String.eqb ?a ?b || _) = true =>
                   destruct (String.eqb_spec a b) as [E | _];
                   [rewrite E in Hback; vm_compute in Hback;
                    injection Hback as Hback; lia |];
                   cbn [orb] in Hlisted
               end.
        discriminate. }
    unfold offersUpload in Eo. cbn [existsb] in Eo.
    destruct Hyear as [-> | [-> | ->]]; discriminate.
Qed.

(** X28: the application offers the upload to the cloud for exactly the
    years that the server accepts: for a year number and a well-formed
    hash, [init] answers without an error if and only if the year is one
    for which [handleLocalFileUpload] asks. *)
Theorem offered_years_are_accepted (b : Bucket) (stamp : Z) (browser : Browser)
    (year : Z) (hash : string) :
  hashPattern hash = true ->
  ok (init b stamp (post browser year hash)) = offersUpload year.
Proof.
  intros Hhash. rewrite offered_iff_listed. unfold init, post.
  cbn [Request.year Request.type Request.hash]. rewrite Hhash.
  change (String.eqb "records" "records") with true.
  destruct (existsb (String.eqb (intToString year)) ["2023"; "2024"; "2025"]);
    cbn [negb orb]; [| reflexivity].
  destruct (match metadata b with
            | Some (Valid meta, _) =>
                match years meta !! intToString year with
                | Some entry => String.eqb (YearEntry.hash entry) hash
                | None => false
                end
            | _ => false
            end); reflexivity.
Qed.

Lemma offered_years_are_accepted_witness :
  let hash := "0123456789abcdef0123456789abcdef0123456789abcdef0123456789abcdef" in
  let browser := mkBrowser None "" None in
  hashPattern hash = true
  /\ ok (init (mkBucket None []) 0 (post browser 2022 hash)) = false
  /\ ok (init (mkBucket None []) 0 (post browser 2023 hash)) = true.
Proof.
  cbv zeta. split; [reflexivity |]. split.
  - exact (offered_years_are_accepted (mkBucket None []) 0 (mkBrowser None "" None) 2022
             "0123456789abcdef0123456789abcdef0123456789abcdef0123456789abcdef" eq_refl).
  - exact (offered_years_are_accepted (mkBucket None []) 0 (mkBrowser None "" None) 2023
             "0123456789abcdef0123456789abcdef0123456789abcdef0123456789abcdef" eq_refl).
Defined.

End YearFacts.

(** ** The content hash and the records *)

Module HashFacts.
Import JS Worker Spec HashTerms.

(** *** Texts *)

Lemma append_assoc (a b c : string) : (a ++ b) ++ c = a ++ (b ++ c).
Proof.
  induction a as [| x a IH]; [reflexivity |].
  change (String x ((a ++ b) ++ c) = String x (a ++ b ++ c)). f_equal. exact IH.
Qed.

Lemma append_inv_head (p a b : string) : p ++ a = p ++ b -> a = b.
Proof.
  induction p as [| x p IH]; [auto |].
  change (String x (p ++ a) = String x (p ++ b) -> a = b).
  intros [= H]. apply IH, H.
Qed.

Lemma everyChar_app (p : ascii -> bool) (a b : string) :
  everyChar p (a ++ b) = everyChar p a && everyChar p b.
Proof.
  induction a as [| x a IH]; [reflexivity |].
  change (p x && everyChar p (a ++ b) = p x && everyChar p a && everyChar p b).
  rewrite IH. apply andb_assoc.
Qed.

Lemma everyChar_weaken (p q : ascii -> bool) (s : string) :
  (forall c, p c = true -> q c = true) ->
  everyChar p s = true -> everyChar q s = true.
Proof.
  intros Hpq. induction s as [| x s IH]; [reflexivity |]. cbn.
  intros H. apply andb_true_iff in H as [Hx Hs].
  rewrite (Hpq x Hx), (IH Hs). reflexivity.
Qed.

Lemma everyChar_allChars (p : ascii -> bool) (s : string) :
  everyChar p s = Server.allChars p s.
Proof. induction s as [| x s IH]; [reflexivity |]. cbn. rewrite IH. reflexivity. Qed.

(** A token ends where the text goes on with a character that is not of
    its class. *)
Lemma token_cancel (p : ascii -> bool) (v1 v2 k1 k2 : string) :
  everyChar p v1 = true -> everyChar p v2 = true ->
  stops p k1 = true -> stops p k2 = true ->
  v1 ++ k1 = v2 ++ k2 -> v1 = v2 /\ k1 = k2.
Proof.
  revert v2. induction v1 as [| x v1 IH]; intros v2 H1 H2 S1 S2 E.
  - destruct v2 as [| y v2]; [split; [reflexivity | exact E] |].
    change (k1 = String y (v2 ++ k2)) in E. subst k1.
    change (negb (p y) = true) in S1.
    change (p y && everyChar p v2 = true) in H2.
    apply andb_true_iff in H2 as [Hy _]. rewrite Hy in S1. discriminate.
  - change (p x && everyChar p v1 = true) in H1.
    apply andb_true_iff in H1 as [Hx H1].
    destruct v2 as [| y v2].
    + change (String x (v1 ++ k1) = k2) in E. subst k2.
      change (negb (p x) = true) in S2. rewrite Hx in S2. discriminate.
    + change (String x (v1 ++ k1) = String y (v2 ++ k2)) in E.
      change (p y && everyChar p v2 = true) in H2.
      apply andb_true_iff in H2 as [_ H2].
      injection E as -> E.
      destruct (IH v2 H1 H2 S1 S2 E) as [-> ->]. split; reflexivity.
Qed.

(** *** Strings *)

Lemma readString_escapeChar (c : ascii) (k : string) :
  readString (escapeChar c ++ k) = push c (readString k).
Proof. destruct c as [[] [] [] [] [] [] [] []]; reflexivity. Qed.

Lemma readString_escape (s rest : string) :
  readString (escape s ++ String quoteChar rest) = Some (s, rest).
Proof.
  induction s as [| c s IH]; [reflexivity |].
  change (escape (String c s)) with (escapeChar c ++ escape s).
  rewrite append_assoc, readString_escapeChar, IH. reflexivity.
Qed.

Lemma jsonString_app (s k : string) :
  jsonString s ++ k = String quoteChar (escape s ++ String quoteChar k).
Proof.
  unfold jsonString.
  change (String quoteChar ((escape s ++ String quoteChar "") ++ k)
          = String quoteChar (escape s ++ String quoteChar k)).
  rewrite append_assoc. reflexivity.
Qed.

(** A string can be read back, whatever follows it. *)
Lemma string_cancel (s1 s2 k1 k2 : string) :
  jsonString s1 ++ k1 = jsonString s2 ++ k2 -> s1 = s2 /\ k1 = k2.
Proof.
  rewrite !jsonString_app. intros [= E].
  apply (f_equal readString) in E. rewrite !readString_escape in E.
  injection E as -> ->. split; reflexivity.
Qed.

(** *** Numbers *)

#[local] Open Scope float_scope.

Lemma is_infinity_spec (x : float) :
  is_infinity x = match Prim2SF x with S754_infinity _ => true | _ => false end.
Proof.
  unfold is_infinity. rewrite FloatAxioms.eqb_spec, abs_spec.
  change (Prim2SF infinity) with (S754_infinity false).
  destruct (Prim2SF x) as [s | s | | s m e]; reflexivity.
Qed.

Lemma is_finite_spec (x : float) :
  is_finite x
  = match Prim2SF x with S754_zero _ | S754_finite _ _ _ => true | _ => false end.
Proof.
  unfold is_finite. rewrite FloatFacts.is_nan_spec, is_infinity_spec.
  destruct (Prim2SF x); reflexivity.
Qed.

Lemma positiveFinite_spec (x : float) :
  positiveFinite x
  = match Prim2SF x with S754_finite false _ _ => true | _ => false end.
Proof.
  unfold positiveFinite. rewrite is_finite_spec, ltb_spec.
  change (Prim2SF 0) with (S754_zero false).
  destruct (Prim2SF x) as [s | s | | s m e]; try destruct s; reflexivity.
Qed.

(** What [JSON.stringify] writes for a number, by the kind of number. *)
Lemma jsonNumber_spec (h : Host) (x : float) :
  jsonNumber h x
  = match Prim2SF x with
    | S754_nan | S754_infinity _ => "null"
    | S754_zero _ => "0"
    | S754_finite true _ _ => "-" ++ digitsOf h (- x)
    | S754_finite false _ _ => digitsOf h x
    end%string.
Proof.
  unfold jsonNumber, numberToString.
  rewrite is_finite_spec, FloatFacts.is_nan_spec, !is_infinity_spec, opp_spec,
    FloatAxioms.eqb_spec, ltb_spec.
  change (Prim2SF 0) with (S754_zero false).
  destruct (Prim2SF x) as [s | s | | s m e]; try destruct s; reflexivity.
Qed.

Lemma SFeqb_finite (s1 s2 : bool) (m1 m2 : positive) (e1 e2 : Z) :
  SFeqb (S754_finite s1 m1 e1) (S754_finite s2 m2 e2) = true ->
  s1 = s2 /\ m1 = m2 /\ e1 = e2.
Proof.
  unfold SFeqb, SFcompare.
  destruct s1, s2; try discriminate;
    destruct (Z.compare_spec e1 e2) as [-> | |]; try discriminate;
    change (Pos.compare_cont Eq m1 m2) with (Pos.compare m1 m2);
    destruct (Pos.compare_spec m1 m2) as [-> | |]; try discriminate; auto.
Qed.

Lemma negative_opp (x : float) (m : positive) (e : Z) :
  Prim2SF x = S754_finite true m e ->
  Prim2SF (- x) = S754_finite false m e /\ positiveFinite (- x) = true.
Proof.
  intros E. assert (E' : Prim2SF (- x) = S754_finite false m e)
    by (rewrite opp_spec, E; reflexivity).
  split; [exact E' |]. rewrite positiveFinite_spec, E'. reflexivity.
Qed.

Lemma numberChar_token (c : ascii) : numberChar c = true -> tokenChar c = true.
Proof. unfold tokenChar. intros ->. reflexivity. Qed.

Section Conforming.

Variable h : Host.
Hypothesis standard : conforming h.

Lemma digits_token (x : float) :
  positiveFinite x = true -> everyChar tokenChar (digitsOf h x) = true.
Proof.
  intros Hx. destruct standard as (Hdigits & _).
  destruct (Hdigits x Hx) as (Hall & _).
  exact (everyChar_weaken _ _ _ numberChar_token Hall).
Qed.

Lemma jsonNumber_token (x : float) : everyChar tokenChar (jsonNumber h x) = true.
Proof.
  rewrite jsonNumber_spec.
  destruct (Prim2SF x) as [s | s | | s m e] eqn:E; try reflexivity.
  destruct s.
  - destruct (negative_opp x m e E) as [_ Hp].
    change (everyChar tokenChar (String "-" (digitsOf h (- x))) = true).
    change (tokenChar "-" && everyChar tokenChar (digitsOf h (- x)) = true).
    rewrite (digits_token _ Hp). reflexivity.
  - apply digits_token. rewrite positiveFinite_spec, E. reflexivity.
Qed.

(** Two numbers written with the same text are the same number, or two
    zeros, or two numbers that are not finite. *)
Lemma jsonNumber_inj (x y : float) :
  jsonNumber h x = jsonNumber h y -> writtenAlike x y.
Proof.
  destruct standard as (Hdigits & Hinj & _).
  rewrite !jsonNumber_spec. unfold writtenAlike, sameNumber.
  rewrite !is_finite_spec, !FloatFacts.is_nan_spec, FloatAxioms.eqb_spec.
  assert (Hfirst : forall z, positiveFinite z = true ->
            exists c r, digitsOf h z = String c r /\ isDigit c = true
                        /\ digitsOf h z <> "0"%string).
  { intros z Hz. destruct (Hdigits z Hz) as (_ & (c & r & E & Hc) & Hne).
    exists c, r. auto. }
  destruct (Prim2SF x) as [sx | sx | | [] mx ex] eqn:Ex;
    destruct (Prim2SF y) as [sy | sy | | [] my ey] eqn:Ey;
    intros E;
    try (right; split; reflexivity);
    try (left; left; reflexivity);
    try discriminate E;
    try (assert (Px : positiveFinite x = true)
           by (rewrite positiveFinite_spec, Ex; reflexivity));
    try (assert (Py : positiveFinite y = true)
           by (rewrite positiveFinite_spec, Ey; reflexivity)).
  - destruct (Hfirst y Py) as (c & r & _ & _ & Hne). congruence.
  - destruct (Hfirst y Py) as (c & r & Ed & Hc & _). rewrite Ed in E.
    injection E as <- _. discriminate.
  - destruct (Hfirst y Py) as (c & r & Ed & Hc & _). rewrite Ed in E.
    injection E as <- _. discriminate.
  - left. left.
    destruct (negative_opp x mx ex Ex) as [Ox Px].
    destruct (negative_opp y my ey Ey) as [Oy Py].
    injection E as E. pose proof (Hinj _ _ Px Py E) as Eo.
    rewrite Eo, Oy in Ox. injection Ox as <- <-.
    unfold SFeqb. rewrite FloatFacts.SFcompare_refl; reflexivity.
  - destruct (Hfirst y Py) as (c & r & Ed & Hc & _). rewrite Ed in E.
    injection E as <- _. discriminate.
  - destruct (Hfirst x Px) as (c & r & _ & _ & Hne). congruence.
  - destruct (Hfirst x Px) as (c & r & Ed & Hc & _). rewrite Ed in E.
    injection E as -> _. discriminate.
  - destruct (Hfirst x Px) as (c & r & Ed & Hc & _). rewrite Ed in E.
    injection E as -> _. discriminate.
  - destruct (Hfirst x Px) as (c & r & Ed & Hc & _). rewrite Ed in E.
    injection E as -> _. discriminate.
  - left. left. pose proof (Hinj _ _ Px Py E) as Exy. subst y.
    rewrite Ex in Ey. injection Ey as <- <-.
    unfold SFeqb. rewrite FloatFacts.SFcompare_refl; reflexivity.
Qed.

End Conforming.

(** Numbers that are written alike have the same text, on hosts that write
    numbers alike. *)
Lemma jsonNumber_alike (h1 h2 : Host) (x y : float) :
  (forall z, digitsOf h1 z = digitsOf h2 z) ->
  writtenAlike x y -> jsonNumber h1 x = jsonNumber h2 y.
Proof.
  intros Hagree. rewrite !jsonNumber_spec. unfold writtenAlike, sameNumber.
  rewrite !is_finite_spec, !FloatFacts.is_nan_spec, FloatAxioms.eqb_spec.
  destruct (Prim2SF x) as [sx | sx | | sx mx ex] eqn:Ex;
    destruct (Prim2SF y) as [sy | sy | | sy my ey] eqn:Ey;
    try reflexivity;
    try (intros [[H | [H1 H2]] | [H1 H2]]; try discriminate;
         destruct sx; try destruct sy; discriminate).
  intros [[H | [H1 H2]] | [H1 H2]]; try discriminate.
  destruct (SFeqb_finite _ _ _ _ _ _ H) as (-> & -> & ->).
  assert (x = y) by (apply Prim2SF_inj; congruence). subst y.
  destruct sy; rewrite Hagree; reflexivity.
Qed.

#[local] Close Scope float_scope.

(** *** Integers *)

Lemma intToString_negative (n : Z) :
  n < 0 -> intToString n = String "-" (intToString (- n)).
Proof.
  intros Hn. unfold intToString.
  destruct (Z.ltb_spec n 0); [| lia].
  destruct (Z.ltb_spec (- n) 0); [lia | reflexivity].
Qed.

Lemma intToString_digits (n : Z) :
  0 <= n -> everyChar isDigit (intToString n) = true.
Proof.
  intros Hn. rewrite everyChar_allChars. unfold intToString.
  destruct (Z.ltb_spec n 0); [lia |].
  apply FetchFacts.decimalDigits_digits; [exact Hn | reflexivity].
Qed.

Lemma digit_number (c : ascii) : isDigit c = true -> numberChar c = true.
Proof. unfold numberChar. intros ->. reflexivity. Qed.

Lemma intToString_number (n : Z) : everyChar numberChar (intToString n) = true.
Proof.
  destruct (Z.lt_ge_cases n 0) as [Hn | Hn].
  - rewrite (intToString_negative n Hn).
    change (numberChar "-" && everyChar numberChar (intToString (- n)) = true).
    rewrite (everyChar_weaken _ _ _ digit_number (intToString_digits (- n) ltac:(lia))).
    reflexivity.
  - exact (everyChar_weaken _ _ _ digit_number (intToString_digits n Hn)).
Qed.

Lemma intToString_token (n : Z) : everyChar tokenChar (intToString n) = true.
Proof. exact (everyChar_weaken _ _ _ numberChar_token (intToString_number n)). Qed.

Lemma intToString_given (n : Z) :
  0 <= n -> exists c r, intToString n = String c r /\ isDigit c = true.
Proof.
  intros Hn. pose proof (intToString_digits n Hn) as Hd.
  destruct (intToString n) as [| c r] eqn:E.
  - exfalso. apply (f_equal Fetch.parseInt) in E.
    rewrite (FetchFacts.parseInt_intToString n Hn) in E. discriminate.
  - change (isDigit c && everyChar isDigit r = true) in Hd.
    apply andb_true_iff in Hd as [Hc _]. exists c, r. auto.
Qed.

Lemma intToString_inj (a b : Z) : intToString a = intToString b -> a = b.
Proof.
  assert (Hpos : forall x y, 0 <= x -> 0 <= y ->
                             intToString x = intToString y -> x = y).
  { intros x y Hx Hy E. apply (f_equal Fetch.parseInt) in E.
    rewrite !FetchFacts.parseInt_intToString in E by assumption. congruence. }
  assert (Hmixed : forall x y, x < 0 -> 0 <= y -> intToString x <> intToString y).
  { intros x y Hx Hy E. rewrite (intToString_negative x Hx) in E.
    pose proof (intToString_digits y Hy) as Hd. rewrite <- E in Hd. discriminate. }
  intros E.
  destruct (Z.lt_ge_cases a 0) as [Ha | Ha]; destruct (Z.lt_ge_cases b 0) as [Hb | Hb].
  - rewrite (intToString_negative a Ha), (intToString_negative b Hb) in E.
    injection E as E. apply Hpos in E; lia.
  - contradiction (Hmixed a b Ha Hb E).
  - symmetry in E. contradiction (Hmixed b a Hb Ha E).
  - apply Hpos; assumption.
Qed.

(** *** Records *)

Lemma join_cons_app (sep m m' : string) (rest : list string) (k : string) :
  join sep (m :: m' :: rest) ++ k = m ++ sep ++ join sep (m' :: rest) ++ k.
Proof.
  change (join sep (m :: m' :: rest)) with (m ++ sep ++ join sep (m' :: rest)).
  rewrite !append_assoc. reflexivity.
Qed.

Lemma member_app (key value k : string) :
  member key value ++ k = jsonString key ++ ":" ++ value ++ k.
Proof. unfold member. rewrite !append_assoc. reflexivity. Qed.

(** The text of a record, field by field, before whatever follows it. *)
Lemma jsonRecord_app (h : Host) (r : RentalRecord.t) (k : string) :
  jsonRecord h r ++ k
  = "{" ++ jsonString "id" ++ ":" ++ intToString (Z.of_nat (RentalRecord.id r))
    ++ "," ++ jsonString "station" ++ ":" ++ jsonString (RentalRecord.station r)
    ++ "," ++ jsonString "stationKey" ++ ":" ++ jsonString (RentalRecord.stationKey r)
    ++ "," ++ jsonString "group" ++ ":" ++ jsonString (RentalRecord.group r)
    ++ "," ++ jsonString "groupKey" ++ ":" ++ jsonString (RentalRecord.groupKey r)
    ++ "," ++ jsonString "date" ++ ":" ++ jsonDate h (RentalRecord.date r)
    ++ "," ++ jsonString "monthKey" ++ ":" ++ jsonString (RentalRecord.monthKey r)
    ++ "," ++ jsonString "displayDate" ++ ":"
    ++ jsonString (RentalRecord.displayDate r)
    ++ "," ++ jsonString "day" ++ ":" ++ intToString (RentalRecord.day r)
    ++ "," ++ jsonString "days" ++ ":" ++ jsonNumber h (RentalRecord.days r)
    ++ "," ++ jsonString "charge" ++ ":" ++ jsonNumber h (RentalRecord.charge r)
    ++ "," ++ jsonString "year" ++ ":" ++ intToString (RentalRecord.year r)
    ++ "}" ++ k.
Proof.
  unfold jsonRecord. rewrite !append_assoc, !join_cons_app.
  change (join "," [member "year" (intToString (RentalRecord.year r))])
    with (member "year" (intToString (RentalRecord.year r))).
  rewrite !member_app. reflexivity.
Qed.

Section Reading.

Variable h : Host.
Hypothesis standard : conforming h.

Lemma jsonDate_cancel (d1 d2 : Date) (k1 k2 : string) :
  jsonDate h d1 ++ k1 = jsonDate h d2 ++ k2 -> d1 = d2 /\ k1 = k2.
Proof.
  destruct standard as (_ & _ & Hiso).
  destruct d1 as [| t1], d2 as [| t2]; unfold jsonDate.
  - intros E. apply (append_inv_head "null") in E. auto.
  - rewrite jsonString_app. discriminate.
  - rewrite jsonString_app. discriminate.
  - intros E. apply string_cancel in E as [E ->].
    apply Hiso in E. subst t2. auto.
Qed.

(** A record can be read back from its text, up to the numbers that are
    written alike, whatever follows it. *)
Lemma jsonRecord_cancel (r1 r2 : RentalRecord.t) (k1 k2 : string) :
  jsonRecord h r1 ++ k1 = jsonRecord h r2 ++ k2 -> indistinct r1 r2 /\ k1 = k2.
Proof.
  rewrite !jsonRecord_app. intros H.
  apply (append_inv_head "{") in H.
  apply string_cancel in H as [_ H]. apply (append_inv_head ":") in H.
  apply (token_cancel tokenChar) in H as [Hid H];
    [| apply intToString_token | apply intToString_token | reflexivity | reflexivity].
  apply (append_inv_head ",") in H.
  apply string_cancel in H as [_ H]. apply (append_inv_head ":") in H.
  apply string_cancel in H as [Hstation H]. apply (append_inv_head ",") in H.
  apply string_cancel in H as [_ H]. apply (append_inv_head ":") in H.
  apply string_cancel in H as [HstationKey H]. apply (append_inv_head ",") in H.
  apply string_cancel in H as [_ H]. apply (append_inv_head ":") in H.
  apply string_cancel in H as [Hgroup H]. apply (append_inv_head ",") in H.
  apply string_cancel in H as [_ H]. apply (append_inv_head ":") in H.
  apply string_cancel in H as [HgroupKey H]. apply (append_inv_head ",") in H.
  apply string_cancel in H as [_ H]. apply (append_inv_head ":") in H.
  apply jsonDate_cancel in H as [Hdate H]. apply (append_inv_head ",") in H.
  apply string_cancel in H as [_ H]. apply (append_inv_head ":") in H.
  apply string_cancel in H as [HmonthKey H]. apply (append_inv_head ",") in H.
  apply string_cancel in H as [_ H]. apply (append_inv_head ":") in H.
  apply string_cancel in H as [HdisplayDate H]. apply (append_inv_head ",") in H.
  apply string_cancel in H as [_ H]. apply (append_inv_head ":") in H.
  apply (token_cancel tokenChar) in H as [Hday H];
    [| apply intToString_token | apply intToString_token | reflexivity | reflexivity].
  apply (append_inv_head ",") in H.
  apply string_cancel in H as [_ H]. apply (append_inv_head ":") in H.
  apply (token_cancel tokenChar) in H as [Hdays H];
    [| apply (jsonNumber_token h standard) | apply (jsonNumber_token h standard)
     | reflexivity | reflexivity].
  apply (append_inv_head ",") in H.
  apply string_cancel in H as [_ H]. apply (append_inv_head ":") in H.
  apply (token_cancel tokenChar) in H as [Hcharge H];
    [| apply (jsonNumber_token h standard) | apply (jsonNumber_token h standard)
     | reflexivity | reflexivity].
  apply (append_inv_head ",") in H.
  apply string_cancel in H as [_ H]. apply (append_inv_head ":") in H.
  apply (token_cancel tokenChar) in H as [Hyear H];
    [| apply intToString_token | apply intToString_token | reflexivity | reflexivity].
  apply (append_inv_head "}") in H.
  split; [| exact H].
  unfold indistinct, agreeUpTo.
  apply intToString_inj, Nat2Z.inj in Hid.
  apply intToString_inj in Hday, Hyear.
  apply (jsonNumber_inj h standard) in Hdays, Hcharge.
  repeat (split; [assumption |]). assumption.
Qed.

(** And so can a sequence of records. *)
Lemma records_cancel (l1 l2 : list RentalRecord.t) :
  join "," (map (jsonRecord h) l1) ++ "]" = join "," (map (jsonRecord h) l2) ++ "]" ->
  Forall2 indistinct l1 l2.
Proof.
  revert l2. induction l1 as [| r1 l1 IH]; intros l2 E.
  - destruct l2 as [| r2 l2]; [constructor |].
    exfalso. destruct l2 as [| r l2]; cbn [map] in E.
    + change (join "," [jsonRecord h r2]) with (jsonRecord h r2) in E.
      rewrite jsonRecord_app in E. discriminate.
    + rewrite join_cons_app, jsonRecord_app in E. discriminate.
  - destruct l2 as [| r2 l2].
    + exfalso. destruct l1 as [| r l1]; cbn [map] in E.
      * change (join "," [jsonRecord h r1]) with (jsonRecord h r1) in E.
        rewrite jsonRecord_app in E. discriminate.
      * rewrite join_cons_app, jsonRecord_app in E. discriminate.
    + destruct l1 as [| r l1]; destruct l2 as [| r' l2]; cbn [map] in E.
      * change (join "," [jsonRecord h r1]) with (jsonRecord h r1) in E.
        change (join "," [jsonRecord h r2]) with (jsonRecord h r2) in E.
        apply jsonRecord_cancel in E as [Hr _].
        constructor; [exact Hr | constructor].
      * change (join "," [jsonRecord h r1]) with (jsonRecord h r1) in E.
        rewrite join_cons_app in E.
        apply jsonRecord_cancel in E as [_ E]. discriminate.
      * change (join "," [jsonRecord h r2]) with (jsonRecord h r2) in E.
        rewrite join_cons_app in E.
        apply jsonRecord_cancel in E as [_ E]. discriminate.
      * rewrite !join_cons_app in E.
        apply jsonRecord_cancel in E as [Hr E].
        apply (append_inv_head ",") in E.
        constructor; [exact Hr |]. apply IH. exact E.
Qed.

Lemma JSON_stringify_inj (l1 l2 : list RentalRecord.t) :
  JSON_stringify h l1 = JSON_stringify h l2 -> Forall2 indistinct l1 l2.
Proof.
  unfold JSON_stringify. intros E.
  apply (append_inv_head "[") in E. apply records_cancel, E.
Qed.

End Reading.

(** Records that are written alike have the same text, on hosts with the
    same standard conversions. *)
Lemma jsonRecord_alike (h1 h2 : Host) (r1 r2 : RentalRecord.t) :
  agree h1 h2 -> indistinct r1 r2 -> jsonRecord h1 r1 = jsonRecord h2 r2.
Proof.
  intros (Hdigits & Hiso & _)
    (Hid & Hst & Hsk & Hg & Hgk & Hdate & Hmk & Hdd & Hday & Hdays & Hcharge & Hyear).
  unfold jsonRecord.
  rewrite Hid, Hst, Hsk, Hg, Hgk, Hdate, Hmk, Hdd, Hday, Hyear.
  rewrite (jsonNumber_alike h1 h2 _ _ Hdigits Hdays),
    (jsonNumber_alike h1 h2 _ _ Hdigits Hcharge).
  assert (Hd : jsonDate h1 (RentalRecord.date r2) = jsonDate h2 (RentalRecord.date r2)).
  { unfold jsonDate. destruct (RentalRecord.date r2); [reflexivity |].
    rewrite Hiso. reflexivity. }
  rewrite Hd. reflexivity.
Qed.

Lemma JSON_stringify_alike (h1 h2 : Host) (l1 l2 : list RentalRecord.t) :
  agree h1 h2 -> Forall2 indistinct l1 l2 ->
  JSON_stringify h1 l1 = JSON_stringify h2 l2.
Proof.
  intros Hagree Hall. unfold JSON_stringify. do 3 f_equal.
  induction Hall as [| r1 r2 l1 l2 Hr _ IH]; [reflexivity |].
  cbn [map]. rewrite (jsonRecord_alike h1 h2 r1 r2 Hagree Hr), IH. reflexivity.
Qed.

Lemma identical_indistinct (r1 r2 : RentalRecord.t) :
  identical r1 r2 -> indistinct r1 r2.
Proof.
  unfold identical, indistinct, agreeUpTo, writtenAlike. intuition.
Qed.

(** *** A host that conforms *)

Lemma plainDigits_spec (x : float) :
  positiveFinite x = true ->
  exists m e,
    Prim2SF x = S754_finite false m e
    /\ plainDigits x = intToString (Z.pos m) ++ "e" ++ intToString e.
Proof.
  rewrite positiveFinite_spec. unfold plainDigits.
  destruct (Prim2SF x) as [s | s | | [] m e]; try discriminate.
  intros _. exists m, e. auto.
Qed.

Lemma plainHost_conforming : conforming plainHost.
Proof.
  split; [| split].
  - intros x Hx. destruct (plainDigits_spec x Hx) as (m & e & _ & E).
    change (digitsOf plainHost x) with (plainDigits x). rewrite E.
    destruct (intToString_given (Z.pos m) ltac:(lia)) as (c & r & Em & Hc).
    split; [| split].
    + rewrite !everyChar_app, !intToString_number. reflexivity.
    + exists c, (r ++ "e" ++ intToString e). rewrite Em. auto.
    + rewrite Em. destruct r; discriminate.
  - intros x y Hx Hy.
    destruct (plainDigits_spec x Hx) as (mx & ex & Ex & Dx).
    destruct (plainDigits_spec y Hy) as (my & ey & Ey & Dy).
    change (digitsOf plainHost x) with (plainDigits x).
    change (digitsOf plainHost y) with (plainDigits y).
    rewrite Dx, Dy. intros E.
    apply (token_cancel isDigit) in E as [Em Ee];
      [| apply intToString_digits; lia | apply intToString_digits; lia
       | reflexivity | reflexivity].
    apply intToString_inj in Em. apply (append_inv_head "e"), intToString_inj in Ee.
    apply Prim2SF_inj. congruence.
  - intros t1 t2. apply intToString_inj.
Qed.

Lemma agree_refl (h : Host) : agree h h.
Proof. repeat split. Qed.

Lemma Forall2_middle {A : Type} (P : A -> A -> Prop) (before after : list A) (x y : A) :
  Forall2 P (before ++ x :: after) (before ++ y :: after) -> P x y.
Proof.
  induction before as [| b before IH]; cbn [app]; intros H; inversion H; subst; auto.
Qed.

Lemma finite_not_nan (x : float) : is_finite x = true -> is_nan x = false.
Proof.
  rewrite is_finite_spec, FloatFacts.is_nan_spec.
  destruct (Prim2SF x); try discriminate; reflexivity.
Qed.

(** *** The hash *)




End HashFacts.
